(** * web-form.c: a shallow embedding of medusa's web-form module

    The definitions below follow [src/modsrc/web-form.c] function by
    function.  C strings are values of [string] (the bytes before the
    terminating NUL); a [char *] that may be [NULL] is an [option string].
    Integer types are those of the x86-64 System V ABI the module is built
    for: [char] is a signed 8-bit integer, [int] has 32 bits and [long] 64.
    Undefined behaviour (a NULL dereference, a NULL pointer printed with
    [%s], a read or a write outside a buffer) is an explicit [Fault];
    [abort()] is [Aborted]. *)

From Stdlib Require Import ZArith List String Ascii Bool Lia.
Import ListNotations.

Local Open Scope string_scope.
Local Open Scope Z_scope.

(** ** Results of fallible code *)

Inductive result (A : Type) : Type :=
| Ok (a : A)
| Fault
| Aborted.

Arguments Ok {A} a.
Arguments Fault {A}.
Arguments Aborted {A}.

Definition rbind {A B : Type} (r : result A) (k : A -> result B) : result B :=
  match r with
  | Ok a => k a
  | Fault => Fault
  | Aborted => Aborted
  end.

(** ** The C library, as far as the module uses it *)

Module Libc.

Definition code (c : ascii) : Z := Z.of_N (N_of_ascii c).

Definition chr (z : Z) : ascii := ascii_of_N (Z.to_N z).

Definition NUL : ascii := chr 0.
Definition CR : ascii := chr 13.
Definition LF : ascii := chr 10.

(** A [char] read as an [int]: the byte sign-extended. *)
Definition char_to_int (c : ascii) : Z :=
  if 128 <=? code c then code c - 256 else code c.

(** Conversion of an [int] to [unsigned int]. *)
Definition to_unsigned_int (z : Z) : Z := z mod 2 ^ 32.

Definition LONG_MAX : Z := 2 ^ 63 - 1.
Definition LONG_MIN : Z := - 2 ^ 63.

Definition isspace (c : ascii) : bool :=
  (code c =? 32) || ((9 <=? code c) && (code c <=? 13)).

Definition isdigit (c : ascii) : bool :=
  (48 <=? code c) && (code c <=? 57).

Definition tolower (c : ascii) : ascii :=
  if (65 <=? code c) && (code c <=? 90) then chr (code c + 32) else c.

Definition strlen (s : string) : Z := Z.of_nat (String.length s).

(** [strchr s c]: the suffix of [s] that starts at the first [c]. *)
Fixpoint strchr (s : string) (c : ascii) : option string :=
  match s with
  | EmptyString => None
  | String a r => if Ascii.eqb a c then Some s else strchr r c
  end.

(** [s] starts with [p], letters compared without case. *)
Fixpoint case_prefix (p s : string) : bool :=
  match p, s with
  | EmptyString, _ => true
  | String _ _, EmptyString => false
  | String a p', String b s' => Ascii.eqb (tolower a) (tolower b) && case_prefix p' s'
  end.

(** [strcasestr hay needle]: the suffix of [hay] at the first occurrence of
    [needle], letters compared without case. *)
Fixpoint strcasestr (hay needle : string) : option string :=
  if case_prefix needle hay then Some hay
  else match hay with
       | EmptyString => None
       | String _ r => strcasestr r needle
       end.

(** [strncasecmp a b n = 0] where [n = strlen b + 1]: the terminator takes
    part in the comparison, so the strings are equal up to case. *)
Fixpoint case_equal (a b : string) : bool :=
  match a, b with
  | EmptyString, EmptyString => true
  | String x a', String y b' => Ascii.eqb (tolower x) (tolower y) && case_equal a' b'
  | _, _ => false
  end.

Fixpoint skip_spaces (s : string) : string :=
  match s with
  | String c r => if isspace c then skip_spaces r else s
  | EmptyString => s
  end.

Fixpoint digits_value (s : string) (acc : Z) : Z :=
  match s with
  | String c r => if isdigit c then digits_value r (10 * acc + (code c - 48)) else acc
  | EmptyString => acc
  end.

(** [strtol s NULL 10]: white space, an optional sign, then digits; a value
    out of the range of [long] is clamped; no digits give 0. *)
Definition strtol (s : string) : Z :=
  match skip_spaces s with
  | String "-" r => Z.max LONG_MIN (- digits_value r 0)
  | String "+" r => Z.min LONG_MAX (digits_value r 0)
  | t => Z.min LONG_MAX (digits_value t 0)
  end.

(** [strtok_r] on a fresh string: leading delimiters are skipped; the token
    runs to the next delimiter, which is overwritten by NUL; the save pointer
    is left after it.  [None] when no token is left. *)
Fixpoint skip_delims (delim : ascii -> bool) (s : string) : string :=
  match s with
  | String c r => if delim c then skip_delims delim r else s
  | EmptyString => s
  end.

Fixpoint take_token (delim : ascii -> bool) (s : string) : string * string :=
  match s with
  | EmptyString => (EmptyString, EmptyString)
  | String c r =>
      if delim c then (EmptyString, r)
      else let (tok, rest) := take_token delim r in (String c tok, rest)
  end.

Definition strtok_r (s : string) (delim : ascii -> bool) : option (string * string) :=
  match skip_delims delim s with
  | EmptyString => None
  | t => Some (take_token delim t)
  end.

(** What the [printf] family writes for [%s]: the string.  A NULL pointer
    for [%s] is undefined behaviour. *)
Definition fmt_s (o : option string) : result string :=
  match o with
  | Some s => Ok s
  | None => Fault
  end.

(** [%d] of a non-negative [int]. *)
Fixpoint dec_digits (fuel : nat) (n : Z) (acc : string) : string :=
  match fuel with
  | O => acc
  | S f =>
      let acc' := String (chr (48 + n mod 10)) acc in
      if n / 10 =? 0 then acc' else dec_digits f (n / 10) acc'
  end.

Definition fmt_d (n : Z) : string :=
  if n <? 0 then String "-" (dec_digits 20 (- n) EmptyString)
  else dec_digits 20 n EmptyString.

Definition hex_digit (n : Z) : ascii :=
  if n <? 10 then chr (48 + n) else chr (65 + (n - 10)).

Fixpoint hex_digits (fuel : nat) (n : Z) (acc : list ascii) : list ascii :=
  match fuel with
  | O => acc
  | S f =>
      let acc' := hex_digit (n mod 16) :: acc in
      if n / 16 =? 0 then acc' else hex_digits f (n / 16) acc'
  end.

(** [%02X] of an [unsigned int]: upper-case hexadecimal, at least two
    digits, padded with zeros. *)
Definition fmt_02X (n : Z) : list ascii :=
  match hex_digits 8 n [] with
  | [d] => ["0"%char; d]
  | ds => ds
  end.

End Libc.

Import Libc.

Definition CRLF : string := String CR (String LF EmptyString).

(** ** Types of web-form.h *)

Inductive FormTypeT : Type := FORM_UNKNOWN | FORM_GET | FORM_POST.

Inductive PathTypeT : Type :=
| PATHTYPE_UNKNOWN
| PATHTYPE_RELATIVE
| PATHTYPE_ABSOLUTE
| PATHTYPE_URI.

Inductive ModuleStateT : Type :=
| MSTATE_INITIALIZE
| MSTATE_NEW
| MSTATE_RUNNING
| MSTATE_EXITING
| MSTATE_COMPLETE.

Inductive HttpStatusCodeT : Type :=
| HTTP_OK
| HTTP_MOVED_PERMANENTLY
| HTTP_FOUND
| HTTP_TEMPORARY_REDIRECT
| HTTP_PERMANENT_REDIRECT
| HTTP_BAD_REQUEST
| HTTP_UNAUTHORIZED
| HTTP_FORBIDDEN
| HTTP_NOT_FOUND
| HTTP_STATUS_NOT_IMPL
| HTTP_STATUS_PARSE_ERR.

(** The verdicts of the host framework ([sLogin.iResult]). *)
Inductive LoginResultT : Type :=
| LOGIN_RESULT_UNKNOWN
| LOGIN_RESULT_SUCCESS
| LOGIN_RESULT_FAIL.

Record ModuleDataT : Type := mkModuleData {
  resourcePath : option string;
  resourcePathOld : option string;
  hostHeader : option string;
  userAgentHeader : option string;
  denySignal : option string;
  formData : option string;
  formRest : option string;
  formUserKey : option string;
  formPassKey : option string;
  customHeaders : option string;
  nCustomHeaders : Z;
  cookieJar : option string;
  formType : FormTypeT;
  changedRequestType : bool
}.

Definition FormTypeT_eqb (a b : FormTypeT) : bool :=
  match a, b with
  | FORM_UNKNOWN, FORM_UNKNOWN | FORM_GET, FORM_GET | FORM_POST, FORM_POST => true
  | _, _ => false
  end.

Definition LoginResultT_eqb (a b : LoginResultT) : bool :=
  match a, b with
  | LOGIN_RESULT_UNKNOWN, LOGIN_RESULT_UNKNOWN
  | LOGIN_RESULT_SUCCESS, LOGIN_RESULT_SUCCESS
  | LOGIN_RESULT_FAIL, LOGIN_RESULT_FAIL => true
  | _, _ => false
  end.

(** Field updates, one per assignment of the source. *)
Definition set_resourcePath (v : option string) (m : ModuleDataT) : ModuleDataT :=
  mkModuleData v (resourcePathOld m) (hostHeader m) (userAgentHeader m) (denySignal m)
    (formData m) (formRest m) (formUserKey m) (formPassKey m) (customHeaders m)
    (nCustomHeaders m) (cookieJar m) (formType m) (changedRequestType m).

Definition set_resourcePathOld (v : option string) (m : ModuleDataT) : ModuleDataT :=
  mkModuleData (resourcePath m) v (hostHeader m) (userAgentHeader m) (denySignal m)
    (formData m) (formRest m) (formUserKey m) (formPassKey m) (customHeaders m)
    (nCustomHeaders m) (cookieJar m) (formType m) (changedRequestType m).

Definition set_hostHeader (v : option string) (m : ModuleDataT) : ModuleDataT :=
  mkModuleData (resourcePath m) (resourcePathOld m) v (userAgentHeader m) (denySignal m)
    (formData m) (formRest m) (formUserKey m) (formPassKey m) (customHeaders m)
    (nCustomHeaders m) (cookieJar m) (formType m) (changedRequestType m).

Definition set_userAgentHeader (v : option string) (m : ModuleDataT) : ModuleDataT :=
  mkModuleData (resourcePath m) (resourcePathOld m) (hostHeader m) v (denySignal m)
    (formData m) (formRest m) (formUserKey m) (formPassKey m) (customHeaders m)
    (nCustomHeaders m) (cookieJar m) (formType m) (changedRequestType m).

Definition set_denySignal (v : option string) (m : ModuleDataT) : ModuleDataT :=
  mkModuleData (resourcePath m) (resourcePathOld m) (hostHeader m) (userAgentHeader m) v
    (formData m) (formRest m) (formUserKey m) (formPassKey m) (customHeaders m)
    (nCustomHeaders m) (cookieJar m) (formType m) (changedRequestType m).

Definition set_formData (v : option string) (m : ModuleDataT) : ModuleDataT :=
  mkModuleData (resourcePath m) (resourcePathOld m) (hostHeader m) (userAgentHeader m)
    (denySignal m) v (formRest m) (formUserKey m) (formPassKey m) (customHeaders m)
    (nCustomHeaders m) (cookieJar m) (formType m) (changedRequestType m).

Definition set_formRest (v : option string) (m : ModuleDataT) : ModuleDataT :=
  mkModuleData (resourcePath m) (resourcePathOld m) (hostHeader m) (userAgentHeader m)
    (denySignal m) (formData m) v (formUserKey m) (formPassKey m) (customHeaders m)
    (nCustomHeaders m) (cookieJar m) (formType m) (changedRequestType m).

Definition set_formUserKey (v : option string) (m : ModuleDataT) : ModuleDataT :=
  mkModuleData (resourcePath m) (resourcePathOld m) (hostHeader m) (userAgentHeader m)
    (denySignal m) (formData m) (formRest m) v (formPassKey m) (customHeaders m)
    (nCustomHeaders m) (cookieJar m) (formType m) (changedRequestType m).

Definition set_formPassKey (v : option string) (m : ModuleDataT) : ModuleDataT :=
  mkModuleData (resourcePath m) (resourcePathOld m) (hostHeader m) (userAgentHeader m)
    (denySignal m) (formData m) (formRest m) (formUserKey m) v (customHeaders m)
    (nCustomHeaders m) (cookieJar m) (formType m) (changedRequestType m).

Definition set_customHeaders (v : option string) (m : ModuleDataT) : ModuleDataT :=
  mkModuleData (resourcePath m) (resourcePathOld m) (hostHeader m) (userAgentHeader m)
    (denySignal m) (formData m) (formRest m) (formUserKey m) (formPassKey m) v
    (nCustomHeaders m) (cookieJar m) (formType m) (changedRequestType m).

Definition set_cookieJar (v : option string) (m : ModuleDataT) : ModuleDataT :=
  mkModuleData (resourcePath m) (resourcePathOld m) (hostHeader m) (userAgentHeader m)
    (denySignal m) (formData m) (formRest m) (formUserKey m) (formPassKey m)
    (customHeaders m) (nCustomHeaders m) v (formType m) (changedRequestType m).

Definition set_formType (v : FormTypeT) (m : ModuleDataT) : ModuleDataT :=
  mkModuleData (resourcePath m) (resourcePathOld m) (hostHeader m) (userAgentHeader m)
    (denySignal m) (formData m) (formRest m) (formUserKey m) (formPassKey m)
    (customHeaders m) (nCustomHeaders m) (cookieJar m) v (changedRequestType m).

Definition set_changedRequestType (v : bool) (m : ModuleDataT) : ModuleDataT :=
  mkModuleData (resourcePath m) (resourcePathOld m) (hostHeader m) (userAgentHeader m)
    (denySignal m) (formData m) (formRest m) (formUserKey m) (formPassKey m)
    (customHeaders m) (nCustomHeaders m) (cookieJar m) (formType m) v.

(** [newModuleData]: a zeroed structure.  The enumerator of [FormTypeT]
    whose value is 0 is declared in web-form.h; it is the argument. *)
Definition newModuleData (form0 : FormTypeT) : ModuleDataT :=
  mkModuleData None None None None None None None None None None 0 None form0 false.

(** ** Constants and macros of web-form.h *)

(** Modelled from the spec: the macros [POST_STR] and [GET_STR] of
    web-form.h (the method of FORM-DATA is get or post, whatever the case). *)
Definition POST_STR : string := "post".
Definition GET_STR : string := "get".

(** Modelled from the spec: the defaults [MODULE_DEFAULT_USERNAME_KEY],
    [MODULE_DEFAULT_PASSWORD_KEY] and [MODULE_DEFAULT_DENY_SIGNAL] of
    web-form.h, as the table of defaults gives them. *)
Definition MODULE_DEFAULT_USERNAME_KEY : string := "username=".
Definition MODULE_DEFAULT_PASSWORD_KEY : string := "password=".
Definition MODULE_DEFAULT_DENY_SIGNAL : string := "Login incorrect".

(** Modelled from the spec: the ports [HTTP_PORT] and [HTTPS_PORT]. *)
Definition HTTP_PORT : Z := 80.
Definition HTTPS_PORT : Z := 443.

(** Modelled from the spec: the macro [BETWEEN] of web-form.h, membership
    in a closed range of character codes. *)
Definition BETWEEN (lo c hi : Z) : bool := (lo <=? c) && (c <=? hi).

(** Modelled from the spec: the macro [URL_ENCODE_BYTE_FMT] of web-form.h,
    the format ["%%%02X"]: a percent sign and upper-case hexadecimal of at
    least two digits.  [sizeof] of that literal is 7. *)
Definition URL_ENCODE_BYTE_FMT (v : Z) : list ascii := "%"%char :: fmt_02X v.
Definition sizeof_URL_ENCODE_BYTE_FMT : nat := 7.

(** Modelled from the spec: the macros [COOKIE_HEADER] and [CRLF] that
    [_setCookiesFromResponse] copies around each value. *)
Definition COOKIE_HEADER : string := "Cookie: ".

(** Modelled from the spec: the macro [GET_REQUEST_FMT_STR] of web-form.h.
    Its arguments are, in this order, the resource path, the parameters, the
    host header, the user agent, the custom headers and the cookie jar. *)
Definition GET_REQUEST_FMT_STR (path params host agent custom jar : option string)
  : result string :=
  rbind (fmt_s path) (fun path =>
  rbind (fmt_s params) (fun params =>
  rbind (fmt_s host) (fun host =>
  rbind (fmt_s agent) (fun agent =>
  rbind (fmt_s custom) (fun custom =>
  rbind (fmt_s jar) (fun jar =>
  Ok ("GET " ++ path ++ params ++ " HTTP/1.1" ++ CRLF
      ++ "Host: " ++ host ++ CRLF
      ++ "User-Agent: " ++ agent ++ CRLF
      ++ custom ++ jar ++ CRLF))))))).

(** Modelled from the spec: the macro [POST_REQUEST_FMT_STR] of web-form.h.
    Its arguments are the resource path, the host header, the user agent,
    the custom headers, the cookie jar, the length of the parameters and the
    parameters. *)
Definition POST_REQUEST_FMT_STR (path host agent custom jar : option string)
    (nParameters : Z) (params : option string) : result string :=
  rbind (fmt_s path) (fun path =>
  rbind (fmt_s host) (fun host =>
  rbind (fmt_s agent) (fun agent =>
  rbind (fmt_s custom) (fun custom =>
  rbind (fmt_s jar) (fun jar =>
  rbind (fmt_s params) (fun params =>
  Ok ("POST " ++ path ++ " HTTP/1.1" ++ CRLF
      ++ "Host: " ++ host ++ CRLF
      ++ "User-Agent: " ++ agent ++ CRLF
      ++ custom ++ jar
      ++ "Content-Type: application/x-www-form-urlencoded" ++ CRLF
      ++ "Content-Length: " ++ fmt_d nParameters ++ CRLF
      ++ CRLF ++ params))))))).

(** ** parseHttpStatusCode *)

(** Modelled from the spec: the values of the enumerators of
    [HttpStatusCodeT] that name a status (web-form.h), the status numbers of
    HTTP; [None] for a value that is none of them. *)
Definition status_of_value (v : Z) : option HttpStatusCodeT :=
  match v with
  | 200 => Some HTTP_OK
  | 301 => Some HTTP_MOVED_PERMANENTLY
  | 302 => Some HTTP_FOUND
  | 307 => Some HTTP_TEMPORARY_REDIRECT
  | 308 => Some HTTP_PERMANENT_REDIRECT
  | 400 => Some HTTP_BAD_REQUEST
  | 401 => Some HTTP_UNAUTHORIZED
  | 403 => Some HTTP_FORBIDDEN
  | 404 => Some HTTP_NOT_FOUND
  | _ => None
  end.

(** The conversion of the [long] of [strtol] to the 32-bit enumeration
    keeps the low 32 bits.  The [switch] leaves the nine statuses as they
    are and turns every other value into [HTTP_STATUS_NOT_IMPL]. *)
Definition parseHttpStatusCode (buf : option string) : HttpStatusCodeT :=
  match buf with
  | None => HTTP_STATUS_PARSE_ERR
  | Some b =>
      match strchr b " " with
      | None => HTTP_STATUS_PARSE_ERR
      | Some ptr =>
          match status_of_value (to_unsigned_int (strtol ptr)) with
          | Some ret => ret
          | None => HTTP_STATUS_NOT_IMPL
          end
      end
  end.

(** ** _findHeaderValue *)

(** The end-of-line loop has no test for the terminator: when no CR or LF
    follows, it reads past the end of the buffer. *)
Fixpoint scan_eol (s : string) : result (string * string) :=
  match s with
  | EmptyString => Fault
  | String c r =>
      if Ascii.eqb c CR || Ascii.eqb c LF then Ok (EmptyString, s)
      else rbind (scan_eol r) (fun vr => Ok (String c (fst vr), snd vr))
  end.

Fixpoint drop (n : nat) (s : string) : string :=
  match n, s with
  | O, _ => s
  | S n', String _ r => drop n' r
  | S _, EmptyString => EmptyString
  end.

(** The value of the first occurrence of [header] in [src], with the text
    from the end of that line on (what [*prevPos] is set to); [None] when
    [src] is NULL or holds no such header. *)
Definition _findHeaderValue (header : string) (src : option string)
  : result (option (string * string)) :=
  match src with
  | None => Ok None
  | Some s =>
      match strcasestr s header with
      | None => Ok None
      | Some locationPtr =>
          let locationPtr := skip_spaces (drop (String.length header) locationPtr) in
          rbind (scan_eol locationPtr) (fun ve => Ok (Some ve))
      end
  end.

Definition findLocationHeaderValue (src : option string) : result (option string) :=
  rbind (_findHeaderValue (CRLF ++ "Location:") src)
        (fun r => Ok (option_map fst r)).

(** ** urlencodeup *)

(** A write of [bs] at offset [j] of a heap buffer; outside the buffer it is
    undefined behaviour. *)
Definition poke (buf : list ascii) (j : nat) (bs : list ascii) : result (list ascii) :=
  if (j + List.length bs <=? List.length buf)%nat
  then Ok (firstn j buf ++ bs ++ skipn (j + List.length bs) buf)%list
  else Fault.

(** [snprintf (dst, size, ...)]: at most [size - 1] bytes of the output,
    then NUL. *)
Definition snprintf (size : nat) (out : list ascii) : list ascii :=
  (firstn (size - 1) out ++ [NUL])%list.

(** The C string that starts a buffer. *)
Fixpoint cstring (buf : list ascii) : string :=
  match buf with
  | [] => EmptyString
  | c :: r => if Ascii.eqb c NUL then EmptyString else String c (cstring r)
  end.

Definition is_unreserved (c : ascii) : bool :=
  BETWEEN (code "a") (char_to_int c) (code "z")
  || BETWEEN (code "A") (char_to_int c) (code "Z")
  || BETWEEN (code "0") (char_to_int c) (code "9").

(** The body of the loop: one input byte [c], the buffer and the index [j]. *)
Definition urlencodeup_step (c : ascii) (st : list ascii * nat) : result (list ascii * nat) :=
  let (szRet, j) := st in
  if is_unreserved c then
    rbind (poke szRet j [c]) (fun b => Ok (b, (j + 1)%nat))
  else
    rbind (poke szRet j
             (snprintf sizeof_URL_ENCODE_BYTE_FMT
                (URL_ENCODE_BYTE_FMT (to_unsigned_int (char_to_int c)))))
          (fun b => Ok (b, (j + 3)%nat)).

Fixpoint urlencodeup_loop (s : list ascii) (st : list ascii * nat) : result (list ascii * nat) :=
  match s with
  | [] => Ok st
  | c :: r => rbind (urlencodeup_step c st) (urlencodeup_loop r)
  end.

Definition urlencodeup (szStr : string) : result string :=
  let iLen := String.length szStr in
  let szRet := repeat NUL (iLen * 3 + 1) in
  rbind (urlencodeup_loop (list_ascii_of_string szStr) (szRet, O))
        (fun st => rbind (poke (fst st) (snd st) [NUL])
                         (fun b => Ok (cstring b))).

(** ** prepareRequestParamString and prepareRequestString *)

(** The parameter string and its length, the return value of [asprintf].
    The [switch] on the form type, with its [abort()], comes before the
    keys are printed. *)
Definition prepareRequestParamString (_moduleData : ModuleDataT)
    (szLogin szPassword : string) : result (string * Z) :=
  rbind (urlencodeup szPassword) (fun szPasswordEncoded =>
  let formRest' :=
    match formRest _moduleData with
    | Some (String c r) => "&" ++ String c r
    | _ => EmptyString
    end in
  let body :=
    rbind (fmt_s (formUserKey _moduleData)) (fun userKey =>
    rbind (fmt_s (formPassKey _moduleData)) (fun passKey =>
    Ok (userKey ++ szLogin ++ "&" ++ passKey ++ szPasswordEncoded ++ formRest'))) in
  match formType _moduleData with
  | FORM_GET => rbind body (fun b => Ok ("?" ++ b, strlen ("?" ++ b)))
  | FORM_POST => rbind body (fun b => Ok (b, strlen b))
  | FORM_UNKNOWN => Aborted
  end).

(** The request, or [None] for a form type that leaves [*dst] unset, and
    the return value. *)
Definition prepareRequestString (_moduleData : ModuleDataT)
    (szLogin szPassword : string) : result (option string * Z) :=
  rbind (if changedRequestType _moduleData then Ok (EmptyString, 0)
         else prepareRequestParamString _moduleData szLogin szPassword)
    (fun pn =>
       let (parameters, nParameters) := pn in
       match formType _moduleData with
       | FORM_GET =>
           rbind (GET_REQUEST_FMT_STR (resourcePath _moduleData) (Some parameters)
                    (hostHeader _moduleData) (userAgentHeader _moduleData)
                    (customHeaders _moduleData) (cookieJar _moduleData))
                 (fun r => Ok (Some r, strlen r))
       | FORM_POST =>
           rbind (POST_REQUEST_FMT_STR (resourcePath _moduleData)
                    (hostHeader _moduleData) (userAgentHeader _moduleData)
                    (customHeaders _moduleData) (cookieJar _moduleData)
                    nParameters (Some parameters))
                 (fun r => Ok (Some r, strlen r))
       | FORM_UNKNOWN => Ok (None, 0)
       end).

(** ** _pathType *)

Definition _pathType (path : option string) : PathTypeT :=
  match path with
  | None => PATHTYPE_UNKNOWN
  | Some p =>
      match p with
      | String "/" _ => PATHTYPE_ABSOLUTE
      | _ =>
          let isURI :=
            if (4 <? strlen p)
            then strcasestr (substring 0 4 p) "http"
            else None in
          match isURI with
          | Some _ => PATHTYPE_URI
          | None => PATHTYPE_RELATIVE
          end
      end
  end.

(** The Location value cut at its first question mark. *)
Fixpoint strip_parameters (s : string) : string :=
  match s with
  | EmptyString => EmptyString
  | String c r => if Ascii.eqb c "?" then EmptyString else String c (strip_parameters r)
  end.

(** ** The host framework *)

Inductive CredentialStatusT : Type :=
| CREDENTIAL_SAME_USER
| CREDENTIAL_NEW_USER
| CREDENTIAL_DONE.

(** What [getNextCredSet] fills in.  [psUser] is the user's name, or [None]
    for a NULL [psUser]; the host gives a password with every set. *)
Record sCredentialSet : Type := mkCredentialSet {
  psUser : option string;
  pPass : string;
  iStatus : CredentialStatusT
}.

(** The host as the module sees it: the results its functions are going to
    return, in call order, and what the module has handed to it.  A list
    that has run out stands for a framework that has nothing more to give:
    [getNextCredSet] fails, the connect function and [medusaSend] return -1,
    [medusaReceiveLine] returns NULL. *)
Record Host : Type := mkHost {
  credentials : list (option sCredentialSet);
  connects : list Z;
  sends : list Z;
  lines : list (option string);
  iResult : LoginResultT;
  passResults : list (string * LoginResultT);
  sent : list (option string * Z);
  disconnected : list Z
}.

Definition M (A : Type) : Type := Host -> result (A * Host).

Definition ret {A : Type} (a : A) : M A := fun h => Ok (a, h).

Definition bind {A B : Type} (c : M A) (k : A -> M B) : M B :=
  fun h =>
    match c h with
    | Ok (a, h') => k a h'
    | Fault => Fault
    | Aborted => Aborted
    end.

Definition lift {A : Type} (r : result A) : M A :=
  fun h => rbind r (fun a => Ok (a, h)).

Declare Scope host_scope.
Delimit Scope host_scope with host.
Notation "x <- c ;; k" := (bind c (fun x => k))
  (at level 61, c at next level, right associativity) : host_scope.
Notation "c ;; k" := (bind c (fun _ => k))
  (at level 61, right associativity) : host_scope.
Local Open Scope host_scope.

Definition getNextCredSet : M (option sCredentialSet) :=
  fun h =>
    match credentials h with
    | [] => Ok (None, h)
    | c :: r =>
        Ok (c, mkHost r (connects h) (sends h) (lines h) (iResult h)
                 (passResults h) (sent h) (disconnected h))
    end.

Definition medusaConnect : M Z :=
  fun h =>
    match connects h with
    | [] => Ok (-1, h)
    | s :: r =>
        Ok (s, mkHost (credentials h) r (sends h) (lines h) (iResult h)
                 (passResults h) (sent h) (disconnected h))
    end.

Definition medusaDisconnect (hSocket : Z) : M unit :=
  fun h =>
    Ok (tt, mkHost (credentials h) (connects h) (sends h) (lines h) (iResult h)
              (passResults h) (sent h) (hSocket :: disconnected h)).

Definition medusaSend (hSocket : Z) (request : option string) (size : Z) : M Z :=
  fun h =>
    let h' := fun r => mkHost (credentials h) (connects h) r (lines h) (iResult h)
                         (passResults h) ((request, size) :: sent h) (disconnected h) in
    match sends h with
    | [] => Ok (-1, h' [])
    | s :: r => Ok (s, h' r)
    end.

Definition set_lines (l : list (option string)) (h : Host) : Host :=
  mkHost (credentials h) (connects h) (sends h) l (iResult h)
    (passResults h) (sent h) (disconnected h).

Definition medusaReceiveLine (hSocket : Z) : M (option string) :=
  fun h =>
    match lines h with
    | [] => Ok (None, h)
    | l :: r => Ok (l, set_lines r h)
    end.

Definition set_iResult (v : LoginResultT) : M unit :=
  fun h =>
    Ok (tt, mkHost (credentials h) (connects h) (sends h) (lines h) v
              (passResults h) (sent h) (disconnected h)).

Definition get_iResult : M LoginResultT := fun h => Ok (iResult h, h).

(** [setPassResult]: the host records the password with the verdict that
    [iResult] holds at the call. *)
Definition setPassResult (password : string) : M unit :=
  fun h =>
    Ok (tt, mkHost (credentials h) (connects h) (sends h) (lines h) (iResult h)
              ((password, iResult h) :: passResults h) (sent h) (disconnected h)).

Definition _setPasswordHelper (password : string) (res : LoginResultT) : M unit :=
  set_iResult res ;; setPassResult password.

(** The server the module is run against ([_psLogin->psServer]). *)
Record sServer : Type := mkServer {
  pHost : string;
  iPortOverride : Z;
  iUseSSL : Z
}.

Inductive ReturnT : Type := SUCCESS | FAILURE.

(** ** Notions of the specification *)

(** The table of the status-line parser, on the number of the status line. *)
Definition status_of_number (n : Z) : HttpStatusCodeT :=
  if n =? 200 then HTTP_OK
  else if n =? 301 then HTTP_MOVED_PERMANENTLY
  else if n =? 302 then HTTP_FOUND
  else if n =? 307 then HTTP_TEMPORARY_REDIRECT
  else if n =? 308 then HTTP_PERMANENT_REDIRECT
  else if n =? 400 then HTTP_BAD_REQUEST
  else if n =? 401 then HTTP_UNAUTHORIZED
  else if n =? 403 then HTTP_FORBIDDEN
  else if n =? 404 then HTTP_NOT_FOUND
  else HTTP_STATUS_NOT_IMPL.

(** A decimal numeral, most significant digit first, and its value. *)
Fixpoint numeral (ds : list Z) : string :=
  match ds with
  | [] => EmptyString
  | d :: r => String (chr (48 + d)) (numeral r)
  end.

Definition numeral_value (ds : list Z) : Z :=
  fold_left (fun acc d => 10 * acc + d) ds 0.

Definition is_digit_value (d : Z) : Prop := 0 <= d <= 9.

Fixpoint no_space (s : string) : bool :=
  match s with
  | EmptyString => true
  | String c r => negb (Ascii.eqb c " ") && no_space r
  end.

(** Text at which [strtol] stops at once: it is empty, or its first byte is
    no digit. *)
Definition stops_number (s : string) : bool :=
  match s with
  | EmptyString => true
  | String c _ => negb (isdigit c)
  end.

(** Text in which [strtol] finds no number: it is empty, or its first byte
    is neither white space, nor a sign, nor a digit. *)
Definition non_numeric (s : string) : bool :=
  match s with
  | EmptyString => true
  | String c _ =>
      negb (isspace c) && negb (isdigit c)
      && negb (Ascii.eqb c "+") && negb (Ascii.eqb c "-")
  end.

(** The URL encoder of the specification: bytes of [A-Za-z0-9] are kept,
    every other byte becomes a percent sign and its two upper-case
    hexadecimal digits. *)
Definition is_alnum (c : ascii) : bool :=
  BETWEEN 97 (code c) 122 || BETWEEN 65 (code c) 90 || BETWEEN 48 (code c) 57.

Definition percent_encode_byte (c : ascii) : list ascii :=
  if is_alnum c then [c]
  else ["%"%char; hex_digit (code c / 16); hex_digit (code c mod 16)].

Definition percent_encode (s : list ascii) : list ascii :=
  flat_map percent_encode_byte s.

Definition hex_value (c : ascii) : Z :=
  if isdigit c then code c - 48 else code c - 55.

(** Percent-decoding: a percent sign and two digits give one byte. *)
Fixpoint percent_decode (s : list ascii) : list ascii :=
  match s with
  | [] => []
  | c :: r =>
      if Ascii.eqb c "%" then
        match r with
        | h :: l :: r' => chr (16 * hex_value h + hex_value l) :: percent_decode r'
        | _ => c :: percent_decode r
        end
      else c :: percent_decode r
  end.

Definition url_charset (c : ascii) : bool := is_alnum c || Ascii.eqb c "%".

Definition is_ascii (c : ascii) : bool := code c <? 128.



(** A Location target matches [^http] whatever the case of its letters. *)
Definition matches_http (t : string) : bool := case_prefix "http" t.

(** The statuses for which [tryLogin] may change the method. *)
Definition is_301_or_302 (statusCode : HttpStatusCodeT) : bool :=
  match statusCode with
  | HTTP_MOVED_PERMANENTLY | HTTP_FOUND => true
  | _ => false
  end.

(** The statuses of the redirect branch of [tryLogin]. *)
Definition is_redirect (statusCode : HttpStatusCodeT) : bool :=
  match statusCode with
  | HTTP_MOVED_PERMANENTLY | HTTP_FOUND
  | HTTP_TEMPORARY_REDIRECT | HTTP_PERMANENT_REDIRECT => true
  | _ => false
  end.

(** The change of method at the end of the redirect branch. *)
Definition change_method (statusCode : HttpStatusCodeT) (md : ModuleDataT) : ModuleDataT :=
  if FormTypeT_eqb (formType md) FORM_POST && is_301_or_302 statusCode
  then set_formType FORM_GET (set_changedRequestType true md)
  else md.

(** The lines the search for the deny signal reads when it finds nothing:
    the buffer in hand and the lines received after it, up to the first
    that is NULL or empty. *)
Fixpoint received_lines (pending : list (option string)) : list string :=
  match pending with
  | Some (String c r) :: rest => String c r :: received_lines rest
  | _ => []
  end.

Definition contains_signal (deny line : string) : bool :=
  match strcasestr line deny with
  | Some _ => true
  | None => false
  end.

(** [needle] is a substring of [hay], letters compared without case. *)
Definition case_substring (needle hay : string) : Prop :=
  exists pre mid post : string,
    hay = pre ++ mid ++ post /\ case_equal mid needle = true.

Definition aborted {A : Type} (r : result A) : bool :=
  match r with
  | Aborted => true
  | _ => false
  end.

(** ** Values for the examples *)

(** The directory of a path: the path up to its last slash. *)
Fixpoint base_directory (s : string) : string :=
  match s with
  | EmptyString => EmptyString
  | String c r =>
      match strchr r "/" with
      | Some _ => String c (base_directory r)
      | None => if Ascii.eqb c "/" then "/" else EmptyString
      end
  end.

(** The values the examples give to what the other files of the module
    define: the value of [MSTATE_EXITING], here its place in the list of
    states; a resolver that puts the reference after the directory of the
    base and leaves dot segments alone; a user agent. *)
Definition example_MSTATE_EXITING : Z := 3.

Definition example_resolvePath (base : option string) (target : string) : option string :=
  match base with
  | Some b => Some (base_directory b ++ target)
  | None => Some target
  end.

Definition example_user_agent : string := "medusa".

Definition example_server : sServer := mkServer "example.org" 0 0.

(** The record after [MSTATE_INITIALIZE] when no option is given. *)
Definition example_config : ModuleDataT :=
  mkModuleData (Some "/") None (Some "example.org:80") (Some example_user_agent)
    (Some MODULE_DEFAULT_DENY_SIGNAL) None (Some EmptyString)
    (Some MODULE_DEFAULT_USERNAME_KEY) (Some MODULE_DEFAULT_PASSWORD_KEY)
    (Some EmptyString) 0 (Some EmptyString) FORM_POST false.

(** The same record in the middle of a redirect that changed the method. *)
Definition example_config_changed : ModuleDataT :=
  mkModuleData (Some "/app/home") (Some "/") (Some "example.org:80")
    (Some example_user_agent) (Some MODULE_DEFAULT_DENY_SIGNAL) None
    (Some EmptyString) (Some MODULE_DEFAULT_USERNAME_KEY)
    (Some MODULE_DEFAULT_PASSWORD_KEY) (Some EmptyString) 0
    (Some ("Cookie: a=1" ++ CRLF)) FORM_GET true.

Definition example_credentials : sCredentialSet :=
  mkCredentialSet (Some "alice") "secret" CREDENTIAL_SAME_USER.

(** A host with one credential set, whose connections and sends succeed,
    and which delivers [received]. *)
Definition example_host (received : list (option string)) : Host :=
  mkHost [Some example_credentials] [3; 4; 5] [1; 1; 1] received
    LOGIN_RESULT_UNKNOWN [] [] [].

Definition response_302_absolute : string :=
  "HTTP/1.1 302 Found" ++ CRLF ++ "Location: /app/home" ++ CRLF ++ CRLF.

Definition response_302_relative : string :=
  "HTTP/1.1 302 Found" ++ CRLF ++ "Location: home" ++ CRLF ++ CRLF.

Definition response_307_relative : string :=
  "HTTP/1.1 307 Temporary Redirect" ++ CRLF ++ "Location: v2/login" ++ CRLF ++ CRLF.

Definition response_200 : list (option string) :=
  [Some ("HTTP/1.1 200 OK" ++ CRLF); Some CRLF; Some "Welcome!"].

(** ** The functions that depend on other files of the module *)

Section WebForm.

(** The value of the enumerator [MSTATE_EXITING] (web-form.h), which
    [_request] returns as an [int]. *)
Variable MSTATE_EXITING_value : Z.

(** [resolvePath], declared in web-form-resolve-path.h: the base path,
    which may be NULL, and the relative reference. *)
Variable resolvePath : option string -> string -> option string.

(** The macro [MODULE_DEFAULT_USER_AGENT] (web-form.h). *)
Variable MODULE_DEFAULT_USER_AGENT : string.

(** *** _resolveLocationPath *)

(** [strchr (newLocation, '?')] dereferences its argument: a NULL target
    is undefined behaviour. *)
Definition _resolveLocationPath (newLocation : option string) (_moduleData : ModuleDataT)
  : result ModuleDataT :=
  match newLocation with
  | None => Fault
  | Some loc =>
      let newLocation := strip_parameters loc in
      match _pathType (Some newLocation) with
      | PATHTYPE_RELATIVE =>
          let tmp := resolvePath (resourcePath _moduleData) newLocation in
          Ok (set_resourcePath tmp
                (set_resourcePathOld (resourcePath _moduleData) _moduleData))
      | PATHTYPE_URI =>
          Ok (set_resourcePath (Some newLocation)
                (set_hostHeader (Some newLocation) _moduleData))
      | PATHTYPE_ABSOLUTE =>
          Ok (set_resourcePath (Some newLocation) _moduleData)
      | PATHTYPE_UNKNOWN => Ok _moduleData
      end
  end.

(** *** _setCookiesFromResponse *)

(** The loop, with the cookie jar and the position [prevPos].  Every round
    moves [prevPos] forward, so [fuel] above the length of the response is
    never used up (lemma [cookies_loop_fuel]). *)
Fixpoint cookies_loop (fuel : nat) (jar : option string) (prevPos : string)
  : result (option string) :=
  match fuel with
  | O => Ok jar
  | S fuel' =>
      rbind (_findHeaderValue (CRLF ++ "Set-Cookie:") (Some prevPos)) (fun r =>
      match r with
      | None => Ok jar
      | Some (value, prevPos') =>
          match jar with
          | None => Fault
          | Some j => cookies_loop fuel' (Some (j ++ COOKIE_HEADER ++ value ++ CRLF)) prevPos'
          end
      end)
  end.

Definition _setCookiesFromResponse (_moduleData : ModuleDataT) (response : option string)
  : result ModuleDataT :=
  match response with
  | None => Ok _moduleData
  | Some r =>
      rbind (cookies_loop (S (String.length r)) (cookieJar _moduleData) r)
            (fun jar => Ok (set_cookieJar jar _moduleData))
  end.

(** *** _sendRequest and _request *)

Definition _sendRequest (hSocket : Z) (_moduleData : ModuleDataT)
    (szLogin szPassword : string) : M ReturnT :=
  rs <- lift (prepareRequestString _moduleData szLogin szPassword) ;;
  n <- medusaSend hSocket (fst rs) (snd rs) ;;
  ret (if n <? 0 then FAILURE else SUCCESS).

(** The return value and the receive buffer, which stays NULL on the early
    returns. *)
Definition _request (hSocket : Z) (_moduleData : ModuleDataT)
    (szLogin szPassword : string) : M (Z * option string) :=
  match formType _moduleData with
  | FORM_UNKNOWN => ret (MSTATE_EXITING_value, None)
  | _ =>
      s <- _sendRequest hSocket _moduleData szLogin szPassword ;;
      match s with
      | FAILURE =>
          _setPasswordHelper szPassword LOGIN_RESULT_UNKNOWN ;;
          ret (MSTATE_EXITING_value, None)
      | SUCCESS =>
          pReceiveBuffer <- medusaReceiveLine hSocket ;;
          match pReceiveBuffer with
          | None =>
              _setPasswordHelper szPassword LOGIN_RESULT_UNKNOWN ;;
              ret (0, None)
          | Some _ => ret (1, pReceiveBuffer)
          end
      end
  end.

(** *** tryLogin *)

(** The search for the deny signal: the buffer in hand, then the lines
    [medusaReceiveLine] returns ([pending], the host's [lines]), until one is
    NULL or empty.  The result is [denySignalFound] and the lines not read. *)
Fixpoint deny_scan (deny : option string) (pReceiveBuffer : option string)
    (pending : list (option string)) {struct pending}
  : result (bool * list (option string)) :=
  match pReceiveBuffer with
  | Some (String c r) =>
      match deny with
      | None => Fault
      | Some d =>
          match strcasestr (String c r) d with
          | Some _ => Ok (true, pending)
          | None =>
              match pending with
              | [] => Ok (false, [])
              | l :: rest => deny_scan deny l rest
              end
          end
      end
  | _ => Ok (false, pending)
  end.

Definition search_deny_signal (deny : option string) (pReceiveBuffer : option string)
  : M bool :=
  fun h =>
    rbind (deny_scan deny pReceiveBuffer (lines h))
          (fun fr => Ok (fst fr, set_lines (snd fr) h)).

(** The branch of [HTTP_OK] for a request whose method was changed. *)
Definition restore_request (_moduleData : ModuleDataT) : ModuleDataT :=
  set_cookieJar (Some EmptyString)
    (set_resourcePathOld None
       (set_resourcePath (resourcePathOld _moduleData)
          (set_formType FORM_POST
             (set_changedRequestType false _moduleData)))).

Definition tryLogin (hSocket : Z) (_moduleData : ModuleDataT)
    (szLogin szPassword : string) : M (ModuleStateT * ModuleDataT) :=
  rq <- _request hSocket _moduleData szLogin szPassword ;;
  let pReceiveBuffer := snd rq in
  if fst rq =? 0 then ret (MSTATE_EXITING, _moduleData)
  else
    let statusCode := parseHttpStatusCode pReceiveBuffer in
    match statusCode with
    | HTTP_STATUS_PARSE_ERR => ret (MSTATE_EXITING, _moduleData)
    | HTTP_OK =>
        let _moduleData :=
          if changedRequestType _moduleData then restore_request _moduleData
          else _moduleData in
        denySignalFound <- search_deny_signal (denySignal _moduleData) pReceiveBuffer ;;
        set_iResult (if denySignalFound : bool then LOGIN_RESULT_FAIL
                     else LOGIN_RESULT_SUCCESS) ;;
        setPassResult szPassword ;;
        ret (MSTATE_NEW, _moduleData)
    | HTTP_MOVED_PERMANENTLY
    | HTTP_FOUND
    | HTTP_TEMPORARY_REDIRECT
    | HTTP_PERMANENT_REDIRECT =>
        newLocation <- lift (findLocationHeaderValue pReceiveBuffer) ;;
        match newLocation with
        | None =>
            _setPasswordHelper szPassword LOGIN_RESULT_UNKNOWN ;;
            ret (MSTATE_EXITING, _moduleData)
        | Some _ =>
            _moduleData <- lift (_resolveLocationPath newLocation _moduleData) ;;
            _moduleData <- lift (_setCookiesFromResponse _moduleData pReceiveBuffer) ;;
            let _moduleData :=
              if FormTypeT_eqb (formType _moduleData) FORM_POST
                 && is_301_or_302 statusCode
              then set_formType FORM_GET (set_changedRequestType true _moduleData)
              else _moduleData in
            ret (MSTATE_NEW, _moduleData)
        end
    | HTTP_BAD_REQUEST
    | HTTP_UNAUTHORIZED
    | HTTP_FORBIDDEN
    | HTTP_NOT_FOUND
    | HTTP_STATUS_NOT_IMPL =>
        _setPasswordHelper szPassword LOGIN_RESULT_UNKNOWN ;;
        ret (MSTATE_EXITING, _moduleData)
    end.

(** *** initModule *)

(** Modelled from the spec: the helper [_setDefaultOption] of web-form.h,
    which stores a copy of the default in the field. *)
Definition _setDefaultOption (default : string) : option string := Some default.

Definition is_question_mark (c : ascii) : bool := Ascii.eqb c "?".
Definition is_ampersand (c : ascii) : bool := Ascii.eqb c "&".
Definition no_delimiter (c : ascii) : bool := false.

(** What is left of a string as a C string once [strtok_r] has put a NUL
    after its first token: the delimiters skipped, and the token. *)
Fixpoint through_first_token (delim : ascii -> bool) (s : string) : string :=
  match s with
  | EmptyString => EmptyString
  | String c r =>
      if delim c then String c (through_first_token delim r)
      else fst (take_token delim s)
  end.

(** The next token after a call of [strtok_r] that left [rest] behind it,
    with what it leaves in turn. *)
Definition next_token (delim : ascii -> bool) (rest : string) : option string * string :=
  match strtok_r rest delim with
  | Some (tok, rest') => (Some tok, rest')
  | None => (None, EmptyString)
  end.

Definition or_else (o d : option string) : option string :=
  match o with
  | Some _ => o
  | None => d
  end.

(** The parse of FORM-DATA into the form type, the keys and the rest. *)
Definition parse_formData (fd : string) (_moduleData : ModuleDataT) : result ModuleDataT :=
  match strtok_r fd is_question_mark with
  | None => Fault
  | Some (pTemp, rest) =>
      let ft :=
        if case_equal pTemp POST_STR then FORM_POST
        else if case_equal pTemp GET_STR then FORM_GET
        else FORM_UNKNOWN in
      let (user, rest1) := next_token is_ampersand rest in
      let (pass, rest2) := next_token is_ampersand rest1 in
      let (more, _) := next_token no_delimiter rest2 in
      Ok (set_formRest (or_else more (formRest _moduleData))
            (set_formPassKey (or_else pass (formPassKey _moduleData))
               (set_formUserKey (or_else user (formUserKey _moduleData))
                  (set_formType ft
                     (set_formData (Some (through_first_token is_question_mark fd))
                        _moduleData)))))
  end.

Definition default_form (_moduleData : ModuleDataT) : ModuleDataT :=
  set_formType FORM_POST
    (set_formPassKey (Some MODULE_DEFAULT_PASSWORD_KEY)
       (set_formUserKey (Some MODULE_DEFAULT_USERNAME_KEY)
          (set_formRest (Some EmptyString) _moduleData))).

Definition is_null (o : option string) : bool :=
  match o with
  | Some _ => false
  | None => true
  end.

(** The case [MSTATE_INITIALIZE].  The buffer of the host header is large
    enough for every host name and positive port. *)
Definition initialize (srv : sServer) (nPort : Z) (_moduleData : ModuleDataT)
  : result ModuleDataT :=
  let md :=
    if is_null (resourcePath _moduleData)
    then set_resourcePath (_setDefaultOption "/") _moduleData else _moduleData in
  let md :=
    if is_null (hostHeader md)
    then set_hostHeader (Some (pHost srv ++ ":" ++ fmt_d nPort)) md else md in
  rbind
    (match formData md with
     | None => Ok (default_form md)
     | Some fd =>
         rbind (if is_null (formUserKey md) then parse_formData fd md else Ok md)
           (fun md =>
              if FormTypeT_eqb (formType md) FORM_UNKNOWN
                 || is_null (formUserKey md) || is_null (formPassKey md)
              then Ok (default_form md)
              else Ok md)
     end)
    (fun md =>
       let md :=
         if is_null (userAgentHeader md)
         then set_userAgentHeader (_setDefaultOption MODULE_DEFAULT_USER_AGENT) md
         else md in
       let md :=
         if is_null (denySignal md)
         then set_denySignal (Some MODULE_DEFAULT_DENY_SIGNAL) md else md in
       let md :=
         if is_null (customHeaders md)
         then set_customHeaders (Some EmptyString) md else md in
       let md :=
         if is_null (cookieJar md)
         then set_cookieJar (Some EmptyString) md else md in
       Ok md).

(** The variables of [initModule] that live across the loop. *)
Record Machine : Type := mkMachine {
  nState : ModuleStateT;
  hSocket : Z;
  moduleData : ModuleDataT;
  psCredSet : sCredentialSet
}.

Inductive Step : Type :=
| Continue (m : Machine)
| Return (r : ReturnT).

Definition nPort (srv : sServer) : Z :=
  if 0 <? iPortOverride srv then iPortOverride srv
  else if 0 <? iUseSSL srv then HTTPS_PORT
  else HTTP_PORT.

(** The zeroed credential set; its password is not read before
    [getNextCredSet] has filled the set. *)
Definition zeroed_credentials : sCredentialSet :=
  mkCredentialSet None EmptyString CREDENTIAL_SAME_USER.

(** [initModule] up to the loop. *)
Definition initModule_enter (_moduleData : ModuleDataT) : M Machine :=
  c <- getNextCredSet ;;
  match c with
  | None => ret (mkMachine MSTATE_COMPLETE (-1) _moduleData zeroed_credentials)
  | Some cs =>
      match psUser cs with
      | Some _ => ret (mkMachine MSTATE_INITIALIZE (-1) _moduleData cs)
      | None => ret (mkMachine MSTATE_COMPLETE (-1) _moduleData cs)
      end
  end.

(** The user's name, read through [psCredSet->psUser]. *)
Definition pUser (cs : sCredentialSet) : M string :=
  match psUser cs with
  | Some u => ret u
  | None => fun _ => Fault
  end.

(** What follows [tryLogin] in the case [MSTATE_RUNNING]. *)
Definition next_credentials (st : ModuleStateT) (cs : sCredentialSet)
  : M (ModuleStateT * sCredentialSet) :=
  r <- get_iResult ;;
  if LoginResultT_eqb r LOGIN_RESULT_UNKNOWN then ret (st, cs)
  else
    c <- getNextCredSet ;;
    match c with
    | None => ret (MSTATE_EXITING, cs)
    | Some cs' =>
        match iStatus cs' with
        | CREDENTIAL_DONE => ret (MSTATE_EXITING, cs')
        | CREDENTIAL_NEW_USER => pUser cs' ;; ret (MSTATE_NEW, cs')
        | CREDENTIAL_SAME_USER => pUser cs' ;; ret (st, cs')
        end
    end.

(** One turn of the loop [while (nState != MSTATE_COMPLETE)], or the
    [return] that ends the function. *)
Definition initModule_step (srv : sServer) (m : Machine) : M Step :=
  match nState m with
  | MSTATE_COMPLETE => ret (Return SUCCESS)
  | MSTATE_INITIALIZE =>
      md <- lift (initialize srv (nPort srv) (moduleData m)) ;;
      ret (Continue (mkMachine MSTATE_NEW (hSocket m) md (psCredSet m)))
  | MSTATE_NEW =>
      (if 0 <? hSocket m then medusaDisconnect (hSocket m) else ret tt) ;;
      s <- medusaConnect ;;
      if s <? 0 then
        set_iResult LOGIN_RESULT_UNKNOWN ;;
        setPassResult (pPass (psCredSet m)) ;;
        ret (Return FAILURE)
      else ret (Continue (mkMachine MSTATE_RUNNING s (moduleData m) (psCredSet m)))
  | MSTATE_RUNNING =>
      u <- pUser (psCredSet m) ;;
      r <- tryLogin (hSocket m) (moduleData m) u (pPass (psCredSet m)) ;;
      sc <- next_credentials (fst r) (psCredSet m) ;;
      ret (Continue (mkMachine (fst sc) (hSocket m) (snd r) (snd sc)))
  | MSTATE_EXITING =>
      (if 0 <? hSocket m then medusaDisconnect (hSocket m) else ret tt) ;;
      ret (Continue (mkMachine MSTATE_COMPLETE (-1) (moduleData m) (psCredSet m)))
  end.

(** [n] turns of the loop from [m]: where the loop stands, or what
    [initModule] has returned. *)
Fixpoint initModule_run (srv : sServer) (n : nat) (m : Machine) : M Step :=
  match n with
  | O => ret (Continue m)
  | S n' =>
      s <- initModule_step srv m ;;
      match s with
      | Continue m' => initModule_run srv n' m'
      | Return r => ret (Return r)
      end
  end.

(** The structure [go] hands to [initModule]: zeroed, then the options
    FORM, DENY-SIGNAL, FORM-DATA, USER-AGENT and CUSTOM-HEADER stored in
    their fields. *)
Definition go_moduleData (form0 : FormTypeT)
    (form deny data agent custom : option string) (n : Z) : ModuleDataT :=
  mkModuleData form None None agent deny data None None None custom n None form0 false.

(** The states of the loop that a call of [initModule] by [go] goes through,
    each with the host as it stands there, when every turn of the loop is
    taken from a state and a host that satisfy [P]. *)
Inductive reachable_by (P : Machine -> Host -> Prop) (srv : sServer)
  : Machine -> Host -> Prop :=
| reach_enter : forall form0 form deny data agent custom n h m h',
    initModule_enter (go_moduleData form0 form deny data agent custom n) h = Ok (m, h') ->
    reachable_by P srv m h'
| reach_step : forall m h m' h',
    reachable_by P srv m h ->
    P m h ->
    initModule_step srv m h = Ok (Continue m', h') ->
    reachable_by P srv m' h'.

Definition reachable : sServer -> Machine -> Host -> Prop :=
  reachable_by (fun _ _ => True).

(** The turn of the loop taken from [m] and [h] follows no redirect whose
    Location is not a relative path: the line [tryLogin] is about to
    receive, if it is a redirect with a Location, has a relative one. *)
Definition relative_turn (m : Machine) (h : Host) : Prop :=
  nState m = MSTATE_RUNNING ->
  forall (buf : option string) (rest : list (option string)) (loc : string),
    lines h = buf :: rest ->
    is_redirect (parseHttpStatusCode buf) = true ->
    findLocationHeaderValue buf = Ok (Some loc) ->
    _pathType (Some (strip_parameters loc)) = PATHTYPE_RELATIVE.

(** *** go *)

Definition set_nCustomHeaders (v : Z) (m : ModuleDataT) : ModuleDataT :=
  mkModuleData (resourcePath m) (resourcePathOld m) (hostHeader m) (userAgentHeader m)
    (denySignal m) (formData m) (formRest m) (formUserKey m) (formPassKey m)
    (customHeaders m) v (cookieJar m) (formType m) (changedRequestType m).

Definition is_colon (c : ascii) : bool := Ascii.eqb c ":".

(** Modelled from the spec: the macro [EQ_TO_STR_CONST] of web-form.h, the
    equality of the option and the constant.  FORM is tested before
    FORM-DATA, so the comparison is of the whole option. *)
Definition EQ_TO_STR_CONST (opt constant : string) : bool := String.eqb opt constant.

(** [setOption]: what [*dst] holds after the call, where [saveptr1] is what
    [strtok_r] has left behind the name of the option. *)
Definition setOption (saveptr1 : string) (dst : option string) : option string :=
  match fst (next_token no_delimiter saveptr1) with
  | Some optarg => Some optarg
  | None => dst
  end.

(** One turn of the loop over [argv].  An argument without a token gives a
    NULL option, which the comparison reads.  The counter of the custom
    headers grows by one for an argument of the command line and stays
    within its type. *)
Definition go_option (arg : string) (moduleData : ModuleDataT) : result ModuleDataT :=
  match strtok_r arg is_colon with
  | None => Fault
  | Some (opt, strtokPtr) =>
      if EQ_TO_STR_CONST opt "FORM" then
        Ok (set_resourcePath (setOption strtokPtr (resourcePath moduleData)) moduleData)
      else if EQ_TO_STR_CONST opt "DENY-SIGNAL" then
        Ok (set_denySignal (setOption strtokPtr (denySignal moduleData)) moduleData)
      else if EQ_TO_STR_CONST opt "FORM-DATA" then
        Ok (set_formData (setOption strtokPtr (formData moduleData)) moduleData)
      else if EQ_TO_STR_CONST opt "USER-AGENT" then
        Ok (set_userAgentHeader (setOption strtokPtr (userAgentHeader moduleData)) moduleData)
      else if EQ_TO_STR_CONST opt "CUSTOM-HEADER" then
        match fst (next_token no_delimiter strtokPtr) with
        | Some value =>
            rbind
              (if nCustomHeaders moduleData =? 0 then Ok (value ++ CRLF)
               else
                 match customHeaders moduleData with
                 | Some headers => Ok (headers ++ value ++ CRLF)
                 | None => Fault
                 end)
              (fun headers =>
                 Ok (set_nCustomHeaders (nCustomHeaders moduleData + 1)
                       (set_customHeaders (Some headers) moduleData)))
        | None => Ok moduleData
        end
      else Ok moduleData
  end.

Fixpoint go_options (argv : list string) (moduleData : ModuleDataT) : result ModuleDataT :=
  match argv with
  | [] => Ok moduleData
  | arg :: rest => rbind (go_option arg moduleData) (go_options rest)
  end.

(** [go], with the loop of [initModule] run for at most [turns] turns: the
    state of the loop when it is still running after them, [SUCCESS]
    otherwise, whatever [initModule] has returned. *)
Definition go (form0 : FormTypeT) (srv : sServer) (argv : list string) (turns : nat)
  : M Step :=
  moduleData <- lift (go_options argv (newModuleData form0)) ;;
  m <- initModule_enter moduleData ;;
  s <- initModule_run srv turns m ;;
  ret (match s with
       | Continue m' => Continue m'
       | Return _ => Return SUCCESS
       end).

(** *** Notions of the properties below *)

Definition is_eol (c : ascii) : bool := Ascii.eqb c CR || Ascii.eqb c LF.

Fixpoint no_eol (s : string) : bool :=
  match s with
  | EmptyString => true
  | String c r => negb (is_eol c) && no_eol r
  end.

Fixpoint all_space (s : string) : bool :=
  match s with
  | EmptyString => true
  | String c r => isspace c && all_space r
  end.

(** A header value as [_findHeaderValue] cuts it: it starts with a byte
    that is no white space and holds neither CR nor LF. *)
Definition header_value (v : string) : bool :=
  match v with
  | EmptyString => false
  | String c _ => negb (isspace c) && no_eol v
  end.

(** A block of header lines is empty or ends with CRLF. *)
Definition crlf_terminated (s : string) : Prop :=
  s = EmptyString \/ exists p : string, s = p ++ CRLF.

(** The lines [prefix v CRLF] for the values [vs], in order. *)
Fixpoint header_lines (prefix : string) (vs : list string) : string :=
  match vs with
  | [] => EmptyString
  | v :: r => prefix ++ v ++ CRLF ++ header_lines prefix r
  end.

(** The custom headers after the options: NULL when none was given. *)
Definition custom_headers_of (vs : list string) : option string :=
  match vs with
  | [] => None
  | _ => Some (header_lines EmptyString vs)
  end.

(** What [urlencodeup] writes for one byte.  A byte above 127 is negative
    as a [char]; as an [unsigned int] it has eight hexadecimal digits, of
    which the bound of [snprintf] keeps [%FFFFF] and the index the first
    three bytes. *)
Definition urlencodeup_byte (c : ascii) : list ascii :=
  if is_ascii c then percent_encode_byte c else ["%"; "F"; "F"]%char.

Definition urlencodeup_bytes (s : list ascii) : list ascii :=
  flat_map urlencodeup_byte s.

(** The fields of the record that hold the form and the headers of the
    user: [tryLogin] reads them only. *)
Definition same_form (a b : ModuleDataT) : Prop :=
  userAgentHeader a = userAgentHeader b
  /\ denySignal a = denySignal b
  /\ formData a = formData b
  /\ formRest a = formRest b
  /\ formUserKey a = formUserKey b
  /\ formPassKey a = formPassKey b
  /\ customHeaders a = customHeaders b
  /\ nCustomHeaders a = nCustomHeaders b.

(** A measure that every turn of the loop of [initModule] lowers: two for
    each result the connect function has yet to give, and the place of the
    state on the way to [MSTATE_COMPLETE].  The connect function is called
    on the way from [MSTATE_NEW] to [MSTATE_RUNNING], and on no other. *)
Definition turns_left (m : Machine) (h : Host) : nat :=
  (2 * List.length (connects h)
   + match nState m with
     | MSTATE_INITIALIZE => 2
     | MSTATE_NEW => 1
     | MSTATE_RUNNING => 2
     | MSTATE_EXITING => 1
     | MSTATE_COMPLETE => 0
     end)%nat.

(** Every byte above 127 has at least two bytes after it. *)
Fixpoint high_bytes_early (s : list ascii) : bool :=
  match s with
  | [] => true
  | c :: r => (is_ascii c || (2 <=? List.length r)%nat) && high_bytes_early r
  end.

(** No byte of [s] is a delimiter. *)
Fixpoint free_of (delim : ascii -> bool) (s : string) : bool :=
  match s with
  | EmptyString => true
  | String c r => negb (delim c) && free_of delim r
  end.

(** A token of [strtok_r]: not empty, and free of the delimiter. *)
Definition token (delim : ascii -> bool) (s : string) : bool :=
  negb (String.eqb s EmptyString) && free_of delim s.

(** The text of FORM-DATA: the method, the two keys and what may follow
    them. *)
Definition form_data (method user pass : string) (rest : option string) : string :=
  method ++ "?" ++ user ++ "&" ++ pass
  ++ match rest with
     | Some r => "&" ++ r
     | None => EmptyString
     end.

(** The rest of the form as [initModule] stores it: an empty rest leaves
    the field NULL. *)
Definition stored_rest (rest : option string) : option string :=
  match rest with
  | Some (String c r) => Some (String c r)
  | _ => None
  end.

(** The record after the options: a record of [go_moduleData], whose
    custom headers are lines for the values given. *)
Definition options_record (form0 : FormTypeT) (md : ModuleDataT) : Prop :=
  exists (form deny data agent : option string) (vs : list string),
    md = go_moduleData form0 form deny data agent
           (custom_headers_of vs) (Z.of_nat (List.length vs))
    /\ Forall (fun v => v <> EmptyString) vs.

(** Every byte of [s] is a delimiter. *)
Fixpoint only (delim : ascii -> bool) (s : string) : bool :=
  match s with
  | EmptyString => true
  | String c r => delim c && only delim r
  end.

(** The names of the options. *)
Definition option_names : list string :=
  ["FORM"; "DENY-SIGNAL"; "FORM-DATA"; "USER-AGENT"; "CUSTOM-HEADER"].

(** An argument as the loop of [go] reads it: the name, the first token
    that colons delimit, and the value, all that follows the colon after
    the name; no value when nothing follows. *)
Definition option_of (arg : string) : option (string * option string) :=
  match strtok_r arg is_colon with
  | Some (name, rest) => Some (name, fst (next_token no_delimiter rest))
  | None => None
  end.

(** The values the arguments give to the option [name], in their order. *)
Fixpoint values_of (name : string) (argv : list string) : list string :=
  match argv with
  | [] => []
  | arg :: rest =>
      match option_of arg with
      | Some (n, Some v) =>
          if String.eqb n name then v :: values_of name rest else values_of name rest
      | _ => values_of name rest
      end
  end.

(** The last of them; NULL when the option is not given a value. *)
Definition last_value (name : string) (argv : list string) : option string :=
  last (map Some (values_of name argv)) None.

(** The sockets that are closed: those above 0. *)
Definition closed_sockets (l : list Z) : list Z := filter (fun s => 0 <? s) l.

Definition socket_in_hand (m : Machine) : list Z :=
  if 0 <? hSocket m then [hSocket m] else [].

(** The record once [MSTATE_INITIALIZE] is done: the host header, the user
    agent, the deny signal, the keys, the custom headers and the cookie jar
    are present, the form is POST or GET with keys that are not empty, and
    a method that was changed was changed to GET. *)
Definition configured (md : ModuleDataT) : Prop :=
  (exists hh ua d uk pk ch cj : string,
     hostHeader md = Some hh /\ userAgentHeader md = Some ua
     /\ denySignal md = Some d
     /\ formUserKey md = Some uk /\ formPassKey md = Some pk
     /\ uk <> EmptyString /\ pk <> EmptyString
     /\ customHeaders md = Some ch
     /\ cookieJar md = Some cj)
  /\ (formType md = FORM_POST \/ formType md = FORM_GET)
  /\ (changedRequestType md = true -> formType md = FORM_GET).

(** The host has no credentials to begin with: [getNextCredSet] fails, or
    the set it fills has no user. *)
Definition no_first_user (h : Host) : bool :=
  match credentials h with
  | Some cs :: _ => is_null (psUser cs)
  | _ => true
  end.

(** The verdict UNKNOWN is what the host was told last, for [password]. *)
Definition unknown_recorded (password : string) (h h1 : Host) : Prop :=
  iResult h1 = LOGIN_RESULT_UNKNOWN
  /\ passResults h1 = (password, LOGIN_RESULT_UNKNOWN) :: passResults h.

(** *** Values for the examples of the properties *)

Definition response_302_uri : string :=
  "HTTP/1.1 302 Found" ++ CRLF ++ "LOCATION:  http://other.example/x?y=1" ++ CRLF ++ CRLF.

Definition example_argv : list string :=
  ["FORM:/login"; "CUSTOM-HEADER:X-A: 1"; "VERBOSE:yes"; "FORM:/signin";
   "CUSTOM-HEADER:X-B: 2"; "DENY-SIGNAL"].

(** *** Tactics for the host monad *)

Ltac unfold_host :=
  unfold bind, ret, lift, _setPasswordHelper, set_iResult, setPassResult,
    get_iResult, medusaSend, medusaReceiveLine, medusaConnect, medusaDisconnect,
    getNextCredSet, search_deny_signal in *;
  cbn [rbind fst snd] in *.

Ltac destruct_match :=
  match goal with
  | |- context [match ?x with _ => _ end] => destruct x eqn:?
  | H : context [match ?x with _ => _ end] |- _ => destruct x eqn:?
  end.

Ltac invert_ok :=
  repeat match goal with
         | H : Ok _ = Ok _ |- _ => inversion H; clear H; subst
         | H : (_, _) = (_, _) |- _ => inversion H; clear H; subst
         | H : Some _ = Some _ |- _ => inversion H; clear H; subst
         | H : Fault = Ok _ |- _ => discriminate H
         | H : Aborted = Ok _ |- _ => discriminate H
         | H : Ok _ = Fault |- _ => discriminate H
         | H : Ok _ = Aborted |- _ => discriminate H
         end.

(** * Properties *)

(** ** Characters *)

Lemma code_chr (z : Z) : 0 <= z < 256 -> code (chr z) = z.
Proof.
  intros H. unfold code, chr.
  rewrite N_ascii_embedding; lia.
Qed.

Lemma chr_code (c : ascii) : chr (code c) = c.
Proof.
  unfold code, chr. rewrite N2Z.id. apply ascii_N_embedding.
Qed.

Lemma code_range (c : ascii) : 0 <= code c < 256.
Proof.
  unfold code. pose proof (N_ascii_bounded c). lia.
Qed.

Lemma code_inj (a b : ascii) : code a = code b -> a = b.
Proof.
  intros H. rewrite <- (chr_code a), <- (chr_code b). now rewrite H.
Qed.

Lemma digit_char (d : Z) :
  is_digit_value d ->
  isdigit (chr (48 + d)) = true /\ code (chr (48 + d)) - 48 = d
  /\ isspace (chr (48 + d)) = false
  /\ Ascii.eqb (chr (48 + d)) "-" = false /\ Ascii.eqb (chr (48 + d)) "+" = false.
Proof.
  unfold is_digit_value. intros H.
  assert (E : d = 0 \/ d = 1 \/ d = 2 \/ d = 3 \/ d = 4 \/ d = 5 \/ d = 6
              \/ d = 7 \/ d = 8 \/ d = 9) by lia.
  repeat (destruct E as [E | E]; [subst d; repeat split; reflexivity | ]).
  subst d; repeat split; reflexivity.
Qed.

(** ** parseHttpStatusCode *)

Lemma strchr_first_space (pre rest : string) :
  no_space pre = true ->
  strchr (pre ++ String " " rest) " " = Some (String " " rest).
Proof.
  induction pre as [| c pre IH]; simpl; intros H.
  - reflexivity.
  - apply andb_true_iff in H. destruct H as [Hc Hp].
    destruct (Ascii.eqb c " "); [discriminate | auto].
Qed.

Lemma strchr_no_space (b : string) : no_space b = true -> strchr b " " = None.
Proof.
  induction b as [| c b IH]; simpl; intros H.
  - reflexivity.
  - apply andb_true_iff in H. destruct H as [Hc Hp].
    destruct (Ascii.eqb c " "); [discriminate | auto].
Qed.

Lemma digits_value_numeral (ds : list Z) (rest : string) (acc : Z) :
  Forall is_digit_value ds ->
  stops_number rest = true ->
  digits_value (numeral ds ++ rest) acc = fold_left (fun a d => 10 * a + d) ds acc.
Proof.
  intros Hds Hrest. revert acc.
  induction Hds as [| d ds Hd _ IH]; intros acc.
  - cbn [numeral append fold_left].
    destruct rest as [| c r]; cbn [digits_value stops_number] in *; [reflexivity |].
    destruct (isdigit c); [discriminate | reflexivity].
  - destruct (digit_char d Hd) as (E1 & E2 & _).
    cbn [numeral append fold_left digits_value].
    rewrite E1, E2. apply IH.
Qed.

Lemma numeral_value_nonneg (ds : list Z) (acc : Z) :
  Forall is_digit_value ds -> 0 <= acc ->
  0 <= fold_left (fun a d => 10 * a + d) ds acc.
Proof.
  intros Hds. revert acc.
  induction Hds as [| d ds Hd _ IH]; intros acc Hacc; cbn [fold_left]; [assumption |].
  apply IH. unfold is_digit_value in Hd. lia.
Qed.

Lemma strtol_skip (c : ascii) (r : string) :
  isspace c = true -> strtol (String c r) = strtol r.
Proof.
  intros H. unfold strtol. cbn [skip_spaces]. now rewrite H.
Qed.

Lemma strtol_no_sign (c : ascii) (r : string) :
  isspace c = false -> Ascii.eqb c "-" = false -> Ascii.eqb c "+" = false ->
  strtol (String c r) = Z.min LONG_MAX (digits_value (String c r) 0).
Proof.
  intros Hs Hm Hp. unfold strtol. cbn [skip_spaces]. rewrite Hs.
  destruct c as [[] [] [] [] [] [] [] []]; try reflexivity; discriminate.
Qed.

Lemma strtol_numeral (d : Z) (ds : list Z) (rest : string) :
  Forall is_digit_value (d :: ds) ->
  stops_number rest = true ->
  numeral_value (d :: ds) <= LONG_MAX ->
  strtol (String " " (numeral (d :: ds) ++ rest)) = numeral_value (d :: ds).
Proof.
  intros Hds Hrest Hmax.
  pose proof (digits_value_numeral (d :: ds) rest 0 Hds Hrest) as Hv.
  inversion Hds as [| ? ? Hd Hds']; subst.
  destruct (digit_char d Hd) as (E1 & E2 & E3 & E4 & E5).
  rewrite strtol_skip by reflexivity.
  cbn [numeral append] in *.
  rewrite strtol_no_sign by assumption.
  rewrite Hv. fold (numeral_value (d :: ds)). lia.
Qed.

Lemma strtol_non_numeric (s : string) :
  non_numeric s = true -> strtol s = 0.
Proof.
  destruct s as [| c r]; [reflexivity |].
  cbn [non_numeric]. intros H.
  repeat (apply andb_true_iff in H; destruct H as [H ?]).
  rewrite !negb_true_iff in *.
  rewrite strtol_no_sign by assumption.
  cbn [digits_value]. now replace (isdigit c) with false.
Qed.

(** ** urlencodeup *)

Lemma is_unreserved_alnum (c : ascii) : is_unreserved c = is_alnum c.
Proof.
  destruct c as [[] [] [] [] [] [] [] []]; reflexivity.
Qed.

Lemma escape_ascii (c : ascii) :
  is_ascii c = true ->
  snprintf sizeof_URL_ENCODE_BYTE_FMT
    (URL_ENCODE_BYTE_FMT (to_unsigned_int (char_to_int c)))
  = ["%"%char; hex_digit (code c / 16); hex_digit (code c mod 16); NUL].
Proof.
  destruct c as [[] [] [] [] [] [] [] []]; intros H; try discriminate H; reflexivity.
Qed.

Lemma percent_encode_byte_charset (c : ascii) :
  forallb url_charset (percent_encode_byte c) = true.
Proof.
  destruct c as [[] [] [] [] [] [] [] []]; reflexivity.
Qed.

Lemma percent_encode_charset (s : list ascii) :
  forallb url_charset (percent_encode s) = true.
Proof.
  induction s as [| c s IH]; [reflexivity |].
  unfold percent_encode in *. cbn [flat_map].
  rewrite forallb_app, IH, percent_encode_byte_charset. reflexivity.
Qed.

Lemma percent_decode_encode_byte (c : ascii) (r : list ascii) :
  percent_decode (percent_encode_byte c ++ r) = c :: percent_decode r.
Proof.
  destruct c as [[] [] [] [] [] [] [] []]; reflexivity.
Qed.

Lemma percent_decode_encode (s : list ascii) :
  percent_decode (percent_encode s) = s.
Proof.
  induction s as [| c s IH]; [reflexivity |].
  unfold percent_encode in *. cbn [flat_map].
  now rewrite percent_decode_encode_byte, IH.
Qed.

Lemma poke_app (out tail bs : list ascii) :
  (List.length bs <= List.length tail)%nat ->
  poke (out ++ tail) (List.length out) bs
  = Ok (out ++ bs ++ skipn (List.length bs) tail)%list.
Proof.
  intros H. unfold poke.
  rewrite length_app.
  destruct (Nat.leb_spec (List.length out + List.length bs)
              (List.length out + List.length tail)) as [_ | Hlt]; [| lia].
  f_equal.
  rewrite firstn_app, Nat.sub_diag, firstn_all. cbn [firstn]. rewrite app_nil_r.
  rewrite skipn_app, skipn_all2 by lia.
  now replace (List.length out + List.length bs - List.length out)%nat
    with (List.length bs) by lia.
Qed.

Lemma cstring_app (out rest : list ascii) :
  forallb url_charset out = true ->
  cstring (out ++ NUL :: rest) = string_of_list_ascii out.
Proof.
  induction out as [| c out IH]; intros H.
  - reflexivity.
  - cbn [forallb] in H. apply andb_true_iff in H. destruct H as [Hc Ho].
    cbn [app cstring string_of_list_ascii].
    destruct (Ascii.eqb_spec c NUL) as [-> | _]; [discriminate Hc |].
    now rewrite IH.
Qed.

Lemma percent_encode_cons (c : ascii) (s : list ascii) :
  percent_encode (c :: s) = (percent_encode_byte c ++ percent_encode s)%list.
Proof. reflexivity. Qed.

Lemma urlencodeup_loop_ascii (s out tail : list ascii) :
  forallb is_ascii s = true ->
  (3 * List.length s + 1 <= List.length tail)%nat ->
  exists tail',
    urlencodeup_loop s ((out ++ tail)%list, List.length out)
    = Ok (((out ++ percent_encode s) ++ tail')%list,
          List.length (out ++ percent_encode s)%list)
    /\ (1 <= List.length tail')%nat.
Proof.
  revert out tail.
  induction s as [| c s IH]; intros out tail Hs Hlen.
  - exists tail. cbn [urlencodeup_loop percent_encode flat_map].
    rewrite app_nil_r. split; [reflexivity | cbn [List.length] in Hlen; lia].
  - cbn [forallb] in Hs. apply andb_true_iff in Hs. destruct Hs as [Hc Hs].
    cbn [List.length] in Hlen.
    cbn [urlencodeup_loop urlencodeup_step].
    rewrite is_unreserved_alnum, percent_encode_cons.
    unfold percent_encode_byte.
    destruct (is_alnum c).
    + rewrite poke_app by (cbn [List.length]; lia). cbn [rbind].
      destruct (IH (out ++ [c])%list (skipn 1 tail) Hs) as (tail' & E & Ht).
      { rewrite length_skipn. lia. }
      exists tail'. split; [| exact Ht].
      rewrite length_app in E. cbn [List.length] in E.
      rewrite <- (app_assoc out [c]) in E.
      cbn [List.length]. rewrite E. now rewrite <- !app_assoc.
    + rewrite (escape_ascii c Hc).
      rewrite poke_app by (cbn [List.length]; lia). cbn [rbind].
      destruct (IH (out ++ ["%"%char; hex_digit (code c / 16); hex_digit (code c mod 16)])%list
                  (NUL :: skipn 4 tail) Hs) as (tail' & E & Ht).
      { cbn [List.length]. rewrite length_skipn. lia. }
      exists tail'. split; [| exact Ht].
      rewrite length_app in E. cbn [List.length] in E.
      rewrite <- (app_assoc out) in E.
      cbn [List.length app] in E |- *. rewrite E. now rewrite <- !app_assoc.
Qed.

Lemma length_list_ascii_of_string (s : string) :
  List.length (list_ascii_of_string s) = String.length s.
Proof.
  induction s as [| c s IH]; [reflexivity |]. cbn. now rewrite IH.
Qed.

Lemma urlencodeup_ascii (s : string) :
  forallb is_ascii (list_ascii_of_string s) = true ->
  urlencodeup s
  = Ok (string_of_list_ascii (percent_encode (list_ascii_of_string s))).
Proof.
  intros Hs. unfold urlencodeup.
  destruct (urlencodeup_loop_ascii (list_ascii_of_string s) []
              (repeat NUL (String.length s * 3 + 1)) Hs) as (tail' & E & Ht).
  { rewrite repeat_length, length_list_ascii_of_string. lia. }
  cbn [app List.length] in E. rewrite E. cbn [rbind fst snd].
  rewrite poke_app by (cbn [List.length]; lia). cbn [rbind].
  f_equal. cbn [List.length app].
  apply cstring_app, percent_encode_charset.
Qed.

Lemma status_switch (n : Z) :
  match status_of_value n with
  | Some ret => ret
  | None => HTTP_STATUS_NOT_IMPL
  end = status_of_number n.
Proof.
  destruct n as [| p | p]; try reflexivity.
  unfold status_of_number, status_of_value.
  do 10 (try (destruct p as [p | p |]; try reflexivity)).
Qed.

Lemma parseHttpStatusCode_at_space (b ptr : string) :
  strchr b " " = Some ptr ->
  parseHttpStatusCode (Some b) = status_of_number (to_unsigned_int (strtol ptr)).
Proof.
  intros H. unfold parseHttpStatusCode. rewrite H. apply status_switch.
Qed.

(** C2 (as the code has it).  An absent line and a line without a space
    (the empty line is one) give [HTTP_STATUS_PARSE_ERR].  A line whose
    first space is followed by a decimal number below 2^32 is mapped by the
    table: 200 to OK, 301, 302, 307 and 308 to the redirect kinds, 400, 401,
    403 and 404 to the client-error kinds, every other number to
    [HTTP_STATUS_NOT_IMPL].  A line whose first space is followed by text
    that is no number gives [HTTP_STATUS_NOT_IMPL] too: [strtol] returns 0
    for it. *)
Theorem parseHttpStatusCode_table :
  parseHttpStatusCode None = HTTP_STATUS_PARSE_ERR
  /\ (forall b : string,
        no_space b = true -> parseHttpStatusCode (Some b) = HTTP_STATUS_PARSE_ERR)
  /\ (forall (pre : string) (d : Z) (ds : list Z) (rest : string),
        no_space pre = true ->
        Forall is_digit_value (d :: ds) ->
        stops_number rest = true ->
        numeral_value (d :: ds) < 2 ^ 32 ->
        parseHttpStatusCode (Some (pre ++ String " " (numeral (d :: ds) ++ rest)))
        = status_of_number (numeral_value (d :: ds)))
  /\ (forall pre rest : string,
        no_space pre = true ->
        non_numeric rest = true ->
        parseHttpStatusCode (Some (pre ++ String " " rest)) = HTTP_STATUS_NOT_IMPL).
Proof.
  split; [reflexivity |]. split; [| split].
  - intros b Hb. unfold parseHttpStatusCode. now rewrite strchr_no_space.
  - intros pre d ds rest Hpre Hds Hrest Hlt.
    rewrite (parseHttpStatusCode_at_space _ _ (strchr_first_space pre _ Hpre)).
    rewrite strtol_numeral; try assumption.
    + unfold to_unsigned_int. rewrite Z.mod_small; [reflexivity |].
      split; [| assumption].
      apply numeral_value_nonneg; [assumption | lia].
    + unfold LONG_MAX. lia.
  - intros pre rest Hpre Hrest.
    rewrite (parseHttpStatusCode_at_space _ _ (strchr_first_space pre _ Hpre)).
    rewrite strtol_skip by reflexivity.
    now rewrite strtol_non_numeric.
Qed.

(** C7 (as the code has it).  On a string of ASCII bytes, [urlencodeup]
    returns the percent-encoding: bytes of [A-Za-z0-9] unchanged, every
    other byte as a percent sign and its two upper-case hexadecimal digits.
    The output holds only bytes of [A-Za-z0-9%], and percent-decoding it
    gives the input back. *)
Theorem urlencodeup_ascii_roundtrip (s : string) :
  forallb is_ascii (list_ascii_of_string s) = true ->
  exists out : list ascii,
    urlencodeup s = Ok (string_of_list_ascii out)
    /\ out = percent_encode (list_ascii_of_string s)
    /\ forallb url_charset out = true
    /\ percent_decode out = list_ascii_of_string s.
Proof.
  intros Hs. exists (percent_encode (list_ascii_of_string s)).
  split; [now apply urlencodeup_ascii |].
  split; [reflexivity |].
  split; [apply percent_encode_charset | apply percent_decode_encode].
Qed.

(** ** prepareRequestParamString *)



(** ** _pathType and _resolveLocationPath *)

Lemma strip_parameters_prefix (loc : string) :
  strchr (strip_parameters loc) "?" = None
  /\ exists rest : string,
       loc = strip_parameters loc ++ rest
       /\ (rest = EmptyString \/ exists r, rest = String "?" r).
Proof.
  induction loc as [| c loc [IH1 (rest & IH2 & IH3)]].
  - split; [reflexivity |]. exists EmptyString. split; [reflexivity | now left].
  - cbn [strip_parameters].
    destruct (Ascii.eqb_spec c "?") as [-> | Hc].
    + split; [reflexivity |]. exists (String "?" loc).
      split; [reflexivity |]. right. now exists loc.
    + split.
      * cbn [strchr]. destruct (Ascii.eqb_spec c "?"); [contradiction | exact IH1].
      * exists rest. split; [| exact IH3]. cbn [append]. now rewrite <- IH2.
Qed.

Lemma _pathType_http (t : string) :
  matches_http t = true -> (4 < String.length t)%nat ->
  _pathType (Some t) = PATHTYPE_URI.
Proof.
  unfold matches_http.
  destruct t as [| h1 [| h2 [| h3 [| h4 [| c r]]]]]; cbn [String.length];
    intros H Hlen; try lia.
  assert (Hs : strcasestr (substring 0 4 (String h1 (String h2 (String h3 (String h4 (String c r))))))
                 "http" <> None).
  { cbn [substring]. cbn [strcasestr]. cbn [case_prefix] in *.
    rewrite !andb_true_r in H. rewrite !andb_true_r. now rewrite H. }
  assert (Hlen' : (4 <? strlen (String h1 (String h2 (String h3 (String h4 (String c r)))))) = true).
  { apply Z.ltb_lt. unfold strlen. cbn [String.length]. lia. }
  assert (Hh : h1 <> "/"%char).
  { intros ->. cbn in H. discriminate H. }
  unfold _pathType. rewrite Hlen'.
  destruct (strcasestr (substring 0 4 _) "http"); [| contradiction].
  destruct h1 as [[] [] [] [] [] [] [] []]; try reflexivity.
  now contradiction Hh.
Qed.

Lemma _pathType_absent (path : option string) :
  _pathType path = PATHTYPE_UNKNOWN <-> path = None.
Proof.
  split; [| now intros ->].
  destruct path as [p |]; [| reflexivity].
  unfold _pathType.
  destruct p as [| c r]; [discriminate |].
  destruct (if 4 <? strlen (String c r) then _ else _);
    destruct c as [[] [] [] [] [] [] [] []]; discriminate.
Qed.

(** C8 (as the code has it).  [_resolveLocationPath] cuts the target at its
    first question mark.  If what is left begins with a slash, it becomes
    the resource path; if it is longer than four bytes and begins with
    [http], whatever the case, it becomes both the host header and the
    resource path.  An empty target is a relative one: the resource path
    moves to [resourcePathOld] and [resolvePath] gives the new one.  Only a
    NULL path has the type [PATHTYPE_UNKNOWN], and [_resolveLocationPath]
    does not get that far with it. *)
Theorem _resolveLocationPath_cases (loc : string) (md : ModuleDataT) :
  let t := strip_parameters loc in
  (strchr t "?" = None
   /\ exists rest : string,
        loc = t ++ rest /\ (rest = EmptyString \/ exists r, rest = String "?" r))
  /\ (forall r : string, t = String "/" r ->
        _resolveLocationPath (Some loc) md = Ok (set_resourcePath (Some t) md))
  /\ (matches_http t = true -> (4 < String.length t)%nat ->
        _resolveLocationPath (Some loc) md
        = Ok (set_resourcePath (Some t) (set_hostHeader (Some t) md)))
  /\ (t = EmptyString ->
        _resolveLocationPath (Some loc) md
        = Ok (set_resourcePath (resolvePath (resourcePath md) EmptyString)
                (set_resourcePathOld (resourcePath md) md)))
  /\ (forall path : option string, _pathType path = PATHTYPE_UNKNOWN <-> path = None)
  /\ _resolveLocationPath None md = Fault.
Proof.
  intros t. split; [apply strip_parameters_prefix |].
  split; [| split; [| split; [| split]]].
  - intros r Ht. unfold _resolveLocationPath. fold t. now rewrite Ht.
  - intros Hh Hl. unfold _resolveLocationPath. fold t.
    now rewrite (_pathType_http t Hh Hl).
  - intros Ht. unfold _resolveLocationPath. fold t. now rewrite Ht.
  - apply _pathType_absent.
  - reflexivity.
Qed.

(** ** _request *)

(** The return value of [_request] tells what the buffer is: 1 with a
    line received, 0 or the value of [MSTATE_EXITING] with none. *)
Lemma _request_result (hS : Z) (md : ModuleDataT) (login pass : string)
    (h h1 : Host) (r : Z) (buf : option string) :
  _request hS md login pass h = Ok ((r, buf), h1) ->
  (r = 1 /\ (exists b, buf = Some b)
   /\ iResult h1 = iResult h /\ passResults h1 = passResults h)
  \/ (buf = None /\ (r = 0 \/ r = MSTATE_EXITING_value)).
Proof.
  unfold _request, _sendRequest. intros H.
  destruct (formType md); unfold_host.
  - invert_ok. right. auto.
  - destruct (prepareRequestString md login pass) as [[rq n] | |]; cbn [rbind] in H;
      try discriminate H.
    repeat (destruct_match; unfold_host; invert_ok; cbn in *); eauto 8.
  - destruct (prepareRequestString md login pass) as [[rq n] | |]; cbn [rbind] in H;
      try discriminate H.
    repeat (destruct_match; unfold_host; invert_ok; cbn in *); eauto 8.
Qed.

Lemma parse_status_buffer (buf : option string) :
  parseHttpStatusCode buf <> HTTP_STATUS_PARSE_ERR -> exists b, buf = Some b.
Proof.
  destruct buf as [b |]; [eauto | intros H; now contradiction H].
Qed.

Lemma _request_parsed (hS : Z) (md : ModuleDataT) (login pass : string)
    (h h1 : Host) (r : Z) (buf : option string) :
  _request hS md login pass h = Ok ((r, buf), h1) ->
  parseHttpStatusCode buf <> HTTP_STATUS_PARSE_ERR ->
  r = 1 /\ iResult h1 = iResult h /\ passResults h1 = passResults h.
Proof.
  intros H Hp. destruct (parse_status_buffer buf Hp) as [b ->].
  destruct (_request_result _ _ _ _ _ _ _ _ H) as [(? & _ & ? & ?) | [E _]];
    [auto | discriminate E].
Qed.

(** [_request] on a form of unknown type returns at once: nothing is
    built, nothing is sent. *)
Lemma _request_form_unknown (hS : Z) (md : ModuleDataT) (login pass : string) (h : Host) :
  formType md = FORM_UNKNOWN ->
  _request hS md login pass h = Ok ((MSTATE_EXITING_value, None), h).
Proof.
  intros H. unfold _request. now rewrite H.
Qed.

(** ** tryLogin *)

Lemma tryLogin_no_data (hS : Z) (md : ModuleDataT) (login pass : string)
    (h h1 : Host) (buf : option string) :
  _request hS md login pass h = Ok ((0, buf), h1) ->
  tryLogin hS md login pass h = Ok ((MSTATE_EXITING, md), h1).
Proof.
  intros H. unfold tryLogin, bind. rewrite H. reflexivity.
Qed.

Lemma tryLogin_parse_error (hS : Z) (md : ModuleDataT) (login pass : string)
    (h h1 : Host) (r : Z) (buf : option string) :
  _request hS md login pass h = Ok ((r, buf), h1) ->
  parseHttpStatusCode buf = HTTP_STATUS_PARSE_ERR ->
  tryLogin hS md login pass h = Ok ((MSTATE_EXITING, md), h1).
Proof.
  intros H Hp. unfold tryLogin, bind. rewrite H. cbn [fst snd].
  rewrite Hp. now destruct (r =? 0).
Qed.

Lemma tryLogin_ok (hS : Z) (md : ModuleDataT) (login pass : string)
    (h h1 : Host) (r : Z) (buf : option string) :
  _request hS md login pass h = Ok ((r, buf), h1) ->
  parseHttpStatusCode buf = HTTP_OK ->
  let md1 := if changedRequestType md then restore_request md else md in
  tryLogin hS md login pass h
  = rbind (deny_scan (denySignal md1) buf (lines h1))
      (fun fr =>
         let verdict := if fst fr then LOGIN_RESULT_FAIL else LOGIN_RESULT_SUCCESS in
         Ok ((MSTATE_NEW, md1),
             mkHost (credentials h1) (connects h1) (sends h1) (snd fr) verdict
               ((pass, verdict) :: passResults h1) (sent h1) (disconnected h1))).
Proof.
  intros H Hp md1.
  assert (Hne : parseHttpStatusCode buf <> HTTP_STATUS_PARSE_ERR) by congruence.
  destruct (_request_parsed _ _ _ _ _ _ _ _ H Hne) as (-> & _).
  unfold tryLogin, bind at 1. rewrite H. cbn [fst snd Z.eqb].
  rewrite Hp. fold md1. unfold_host.
  destruct (deny_scan (denySignal md1) buf (lines h1)) as [[found rest] | |];
    reflexivity.
Qed.

Lemma tryLogin_redirect (hS : Z) (md : ModuleDataT) (login pass : string)
    (h h1 : Host) (r : Z) (buf : option string) :
  _request hS md login pass h = Ok ((r, buf), h1) ->
  is_redirect (parseHttpStatusCode buf) = true ->
  tryLogin hS md login pass h
  = rbind (findLocationHeaderValue buf) (fun newLocation =>
      match newLocation with
      | None =>
          Ok ((MSTATE_EXITING, md),
              mkHost (credentials h1) (connects h1) (sends h1) (lines h1)
                LOGIN_RESULT_UNKNOWN ((pass, LOGIN_RESULT_UNKNOWN) :: passResults h1)
                (sent h1) (disconnected h1))
      | Some _ =>
          rbind (_resolveLocationPath newLocation md) (fun md1 =>
          rbind (_setCookiesFromResponse md1 buf) (fun md2 =>
          Ok ((MSTATE_NEW, change_method (parseHttpStatusCode buf) md2), h1)))
      end).
Proof.
  intros H Hp.
  assert (Hne : parseHttpStatusCode buf <> HTTP_STATUS_PARSE_ERR).
  { intros E. rewrite E in Hp. discriminate Hp. }
  destruct (_request_parsed _ _ _ _ _ _ _ _ H Hne) as (-> & _).
  unfold tryLogin, bind at 1. rewrite H. cbn [fst snd Z.eqb].
  unfold change_method.
  destruct (parseHttpStatusCode buf); try discriminate Hp; unfold_host;
    (destruct (findLocationHeaderValue buf) as [[loc |] | |]; cbn [rbind];
     [ destruct (_resolveLocationPath (Some loc) md) as [md1 | |]; cbn [rbind];
       [ destruct (_setCookiesFromResponse md1 buf) as [md2 | |]; reflexivity
       | reflexivity | reflexivity ]
     | reflexivity | reflexivity | reflexivity ]).
Qed.

Lemma tryLogin_refused (hS : Z) (md : ModuleDataT) (login pass : string)
    (h h1 : Host) (r : Z) (buf : option string) :
  _request hS md login pass h = Ok ((r, buf), h1) ->
  parseHttpStatusCode buf <> HTTP_STATUS_PARSE_ERR ->
  parseHttpStatusCode buf <> HTTP_OK ->
  is_redirect (parseHttpStatusCode buf) = false ->
  tryLogin hS md login pass h
  = Ok ((MSTATE_EXITING, md),
        mkHost (credentials h1) (connects h1) (sends h1) (lines h1)
          LOGIN_RESULT_UNKNOWN ((pass, LOGIN_RESULT_UNKNOWN) :: passResults h1)
          (sent h1) (disconnected h1)).
Proof.
  intros H Hne Hok Hred.
  destruct (_request_parsed _ _ _ _ _ _ _ _ H Hne) as (-> & _).
  unfold tryLogin, bind at 1. rewrite H. cbn [fst snd Z.eqb].
  destruct (parseHttpStatusCode buf); try discriminate Hred;
    try (now contradiction Hne); try (now contradiction Hok); reflexivity.
Qed.

(** What the redirect branch leaves of the form type. *)
Lemma _resolveLocationPath_frame (loc : option string) (md md1 : ModuleDataT) :
  _resolveLocationPath loc md = Ok md1 ->
  formType md1 = formType md
  /\ changedRequestType md1 = changedRequestType md
  /\ cookieJar md1 = cookieJar md
  /\ denySignal md1 = denySignal md.
Proof.
  unfold _resolveLocationPath. intros H.
  destruct loc as [loc |]; [| discriminate H].
  destruct (_pathType (Some (strip_parameters loc))); invert_ok; auto.
Qed.

Lemma _setCookiesFromResponse_frame (md md2 : ModuleDataT) (buf : option string) :
  _setCookiesFromResponse md buf = Ok md2 ->
  exists jar, md2 = set_cookieJar jar md.
Proof.
  unfold _setCookiesFromResponse. intros H.
  destruct buf as [b |].
  - destruct (cookies_loop _ _ _) as [jar | |]; cbn [rbind] in H; invert_ok.
    now exists jar.
  - invert_ok. exists (cookieJar md2). now destruct md2.
Qed.

(** C1 (what the code does where the claim asks for a verdict).  When the
    first line of the response does not parse, [tryLogin] returns
    [MSTATE_EXITING] and the host is as [_request] left it: [iResult] is what
    it was and no password is recorded, where every other error path of
    [tryLogin] and [_request] calls [_setPasswordHelper]. *)
Theorem tryLogin_parse_error_unrecorded (hS : Z) (md : ModuleDataT)
    (login pass line : string) (h h1 : Host) (r : Z) :
  _request hS md login pass h = Ok ((r, Some line), h1) ->
  parseHttpStatusCode (Some line) = HTTP_STATUS_PARSE_ERR ->
  tryLogin hS md login pass h = Ok ((MSTATE_EXITING, md), h1)
  /\ passResults h1 = passResults h
  /\ iResult h1 = iResult h.
Proof.
  intros H Hp. split; [exact (tryLogin_parse_error _ _ _ _ _ _ _ _ H Hp) |].
  destruct (_request_result _ _ _ _ _ _ _ _ H) as [(_ & _ & E1 & E2) | [E _]];
    [auto | discriminate E].
Qed.

Lemma change_method_frame (statusCode : HttpStatusCodeT) (md : ModuleDataT) :
  (formType (change_method statusCode md) = formType md
   /\ changedRequestType (change_method statusCode md) = changedRequestType md
   /\ (formType md = FORM_POST -> is_301_or_302 statusCode = false))
  \/ (formType md = FORM_POST /\ is_301_or_302 statusCode = true
      /\ formType (change_method statusCode md) = FORM_GET
      /\ changedRequestType (change_method statusCode md) = true).
Proof.
  unfold change_method.
  destruct (formType md) eqn:Hf, (is_301_or_302 statusCode) eqn:Hs; cbn;
    try (left; repeat split; auto; discriminate).
  right. auto.
Qed.

(** What a followed redirect does to the record. *)
Lemma redirect_frame (statusCode : HttpStatusCodeT) (loc : option string)
    (buf : option string) (md md1 md2 : ModuleDataT) :
  _resolveLocationPath loc md = Ok md1 ->
  _setCookiesFromResponse md1 buf = Ok md2 ->
  formType md2 = formType md /\ changedRequestType md2 = changedRequestType md.
Proof.
  intros H1 H2.
  destruct (_resolveLocationPath_frame _ _ _ H1) as (E1 & E2 & _).
  destruct (_setCookiesFromResponse_frame _ _ _ H2) as [jar ->].
  cbn. auto.
Qed.

(** C3.  Let [buf] be the response [tryLogin] has received and [md'] the
    record it leaves.  After a 307 or a 308 the form type and
    [changedRequestType] are those of before.  After a 301 or a 302 either
    they are those of before, or the form type was POST, is now GET, and
    [changedRequestType] is set; a POST form stays POST only when the
    redirect is not followed.  No redirect leaves a GET form anything but
    GET. *)
Theorem tryLogin_redirect_method (hS : Z) (md md' : ModuleDataT)
    (login pass : string) (h h1 h' : Host) (r : Z) (buf : option string)
    (st : ModuleStateT) :
  _request hS md login pass h = Ok ((r, buf), h1) ->
  tryLogin hS md login pass h = Ok ((st, md'), h') ->
  let statusCode := parseHttpStatusCode buf in
  (statusCode = HTTP_TEMPORARY_REDIRECT \/ statusCode = HTTP_PERMANENT_REDIRECT ->
     formType md' = formType md
     /\ changedRequestType md' = changedRequestType md)
  /\ (statusCode = HTTP_MOVED_PERMANENTLY \/ statusCode = HTTP_FOUND ->
        (formType md' = formType md
         /\ changedRequestType md' = changedRequestType md
         /\ (formType md = FORM_POST -> st = MSTATE_EXITING))
        \/ (formType md = FORM_POST /\ formType md' = FORM_GET
            /\ changedRequestType md' = true /\ st = MSTATE_NEW))
  /\ (is_redirect statusCode = true -> formType md = FORM_GET -> formType md' = FORM_GET).
Proof.
  intros Hreq Hlog statusCode.
  assert (Hred : is_redirect statusCode = true ->
            (st = MSTATE_EXITING /\ md' = md)
            \/ (st = MSTATE_NEW
                /\ exists md2, md' = change_method statusCode md2
                               /\ formType md2 = formType md
                               /\ changedRequestType md2 = changedRequestType md)).
  { intros Hr. rewrite (tryLogin_redirect _ _ _ _ _ _ _ _ Hreq Hr) in Hlog.
    destruct (findLocationHeaderValue buf) as [[loc |] | |]; cbn [rbind] in Hlog;
      invert_ok; [| now left].
    destruct (_resolveLocationPath (Some loc) md) as [md1 | |] eqn:H1;
      cbn [rbind] in Hlog; invert_ok.
    destruct (_setCookiesFromResponse md1 buf) as [md2 | |] eqn:H2;
      cbn [rbind] in Hlog; invert_ok.
    right. split; [reflexivity |]. exists md2. split; [reflexivity |].
    exact (redirect_frame statusCode _ _ _ _ _ H1 H2). }
  split; [| split].
  - intros Hs.
    destruct Hred as [[_ ->] | (_ & md2 & -> & E1 & E2)];
      [destruct Hs as [-> | ->]; reflexivity | auto |].
    unfold change_method.
    replace (is_301_or_302 statusCode) with false
      by (destruct Hs as [-> | ->]; reflexivity).
    rewrite andb_false_r. auto.
  - intros Hs.
    assert (H3 : is_301_or_302 statusCode = true)
      by (destruct Hs as [-> | ->]; reflexivity).
    destruct Hred as [[-> ->] | (-> & md2 & -> & E1 & E2)];
      [destruct Hs as [-> | ->]; reflexivity | left; auto |].
    destruct (change_method_frame statusCode md2) as [(F1 & F2 & F3) | (F1 & F2 & F3 & F4)].
    + left. rewrite F1, F2, E1, E2. repeat split; auto.
      intros Hp. rewrite <- E1 in Hp. rewrite (F3 Hp) in H3. discriminate H3.
    + right. rewrite <- E1. auto.
  - intros Hr Hg.
    destruct (Hred Hr) as [[_ ->] | (_ & md2 & -> & E1 & E2)]; [exact Hg |].
    unfold change_method. rewrite E1, Hg. cbn. now rewrite E1.
Qed.

(** ** The search for the deny signal *)

Lemma case_prefix_split (needle hay : string) :
  case_prefix needle hay = true <->
  exists mid post : string, hay = mid ++ post /\ case_equal mid needle = true.
Proof.
  revert hay. induction needle as [| a p IH]; intros hay.
  - split.
    + intros _. exists EmptyString, hay. split; reflexivity.
    + reflexivity.
  - destruct hay as [| b s]; cbn [case_prefix].
    + split; [discriminate |].
      intros (mid & post & E & Hm).
      destruct mid; [discriminate Hm | discriminate E].
    + rewrite andb_true_iff, IH. split.
      * intros (Hab & mid & post & -> & Hm).
        exists (String b mid), post. split; [reflexivity |].
        cbn [case_equal]. rewrite Ascii.eqb_sym, Hab. exact Hm.
      * intros (mid & post & E & Hm).
        destruct mid as [| x mid]; [discriminate Hm |].
        cbn [append] in E. inversion E; subst.
        cbn [case_equal] in Hm. apply andb_true_iff in Hm. destruct Hm as [Hx Hm].
        split; [now rewrite Ascii.eqb_sym | now exists mid, post].
Qed.

Lemma strcasestr_split (hay needle : string) :
  strcasestr hay needle <> None <->
  exists pre suf : string, hay = pre ++ suf /\ case_prefix needle suf = true.
Proof.
  induction hay as [| c hay IH]; cbn [strcasestr].
  - destruct (case_prefix needle EmptyString) eqn:E.
    + split; [| discriminate]. intros _. now exists EmptyString, EmptyString.
    + split; [intros H; now contradiction H |].
      intros (pre & suf & Hs & Hp).
      destruct pre; [| discriminate Hs]. cbn in Hs. subst suf. congruence.
  - destruct (case_prefix needle (String c hay)) eqn:E.
    + split; [| discriminate]. intros _. now exists EmptyString, (String c hay).
    + rewrite IH. split.
      * intros (pre & suf & -> & Hp). now exists (String c pre), suf.
      * intros (pre & suf & Hs & Hp).
        destruct pre as [| x pre]; cbn [append] in Hs.
        -- subst suf. congruence.
        -- inversion Hs; subst. now exists pre, suf.
Qed.

Lemma contains_signal_substring (deny line : string) :
  contains_signal deny line = true <-> case_substring deny line.
Proof.
  unfold contains_signal, case_substring.
  assert (H : strcasestr line deny <> None <->
              exists pre mid post, line = pre ++ mid ++ post /\ case_equal mid deny = true).
  { rewrite strcasestr_split. split.
    - intros (pre & suf & -> & Hp).
      apply case_prefix_split in Hp. destruct Hp as (mid & post & -> & Hm).
      now exists pre, mid, post.
    - intros (pre & mid & post & -> & Hm).
      exists pre, (mid ++ post). split; [reflexivity |].
      apply case_prefix_split. now exists mid, post. }
  rewrite <- H.
  destruct (strcasestr line deny); split; congruence.
Qed.

Lemma deny_scan_found (d : string) (pending : list (option string)) (buf : option string) :
  exists rest : list (option string),
    deny_scan (Some d) buf pending
    = Ok (existsb (contains_signal d) (received_lines (buf :: pending)), rest).
Proof.
  revert buf. induction pending as [| l pending IH]; intros buf.
  - destruct buf as [[| c r] |]; cbn [deny_scan received_lines existsb]; eauto.
    unfold contains_signal.
    destruct (strcasestr (String c r) d); cbn [orb]; eauto.
  - destruct buf as [[| c r] |]; cbn [deny_scan existsb];
      try (cbn [received_lines existsb]; eauto; fail).
    change (received_lines (Some (String c r) :: l :: pending))
      with (String c r :: received_lines (l :: pending)).
    cbn [existsb]. unfold contains_signal at 1.
    destruct (strcasestr (String c r) d); cbn [orb]; [eauto | apply IH].
Qed.

Lemma restore_request_denySignal (md : ModuleDataT) :
  denySignal (if changedRequestType md then restore_request md else md) = denySignal md.
Proof.
  now destruct (changedRequestType md).
Qed.

(** C4.  When [tryLogin] receives 200 OK with [changedRequestType] set, the
    record it leaves has [changedRequestType] cleared, the form type POST,
    the resource path that [resourcePathOld] held, [resourcePathOld] absent
    and an empty cookie jar; the other fields, the deny signal among them,
    are those of before, and the search for the deny signal comes after:
    with a deny signal present [tryLogin] returns [MSTATE_NEW]. *)
Theorem tryLogin_ok_restores (hS : Z) (md : ModuleDataT) (login pass : string)
    (h h1 : Host) (r : Z) (buf : option string) :
  _request hS md login pass h = Ok ((r, buf), h1) ->
  parseHttpStatusCode buf = HTTP_OK ->
  changedRequestType md = true ->
  let md' := restore_request md in
  (forall st md'' h', tryLogin hS md login pass h = Ok ((st, md''), h') ->
     st = MSTATE_NEW /\ md'' = md')
  /\ (forall d, denySignal md = Some d ->
        exists h', tryLogin hS md login pass h = Ok ((MSTATE_NEW, md'), h'))
  /\ changedRequestType md' = false
  /\ formType md' = FORM_POST
  /\ resourcePath md' = resourcePathOld md
  /\ resourcePathOld md' = None
  /\ cookieJar md' = Some EmptyString
  /\ denySignal md' = denySignal md
  /\ md' = mkModuleData (resourcePathOld md) None (hostHeader md) (userAgentHeader md)
             (denySignal md) (formData md) (formRest md) (formUserKey md)
             (formPassKey md) (customHeaders md) (nCustomHeaders md)
             (Some EmptyString) FORM_POST false.
Proof.
  intros Hreq Hok Hc md'.
  pose proof (tryLogin_ok _ _ _ _ _ _ _ _ Hreq Hok) as E.
  rewrite Hc in E. cbn zeta in E. fold md' in E.
  split; [| split; [| repeat split]].
  - intros st md'' h' Hlog. rewrite E in Hlog.
    destruct (deny_scan (denySignal md') buf (lines h1)) as [fr | |];
      cbn [rbind] in Hlog; invert_ok. auto.
  - intros d Hd. rewrite E.
    change (denySignal md') with (denySignal md). rewrite Hd.
    destruct (deny_scan_found d (lines h1) buf) as [rest ->].
    cbn [rbind]. eauto.
Qed.

(** C9 (as the code has it).  After 200 OK the search for the deny signal
    reads the buffer in hand, which begins with the status line, and then
    the lines received after it, up to the first that is NULL or empty.  The
    verdict is FAIL if and only if one of these contains the deny signal,
    letters compared without case, and SUCCESS otherwise; the verdict and
    the password are recorded and [tryLogin] returns [MSTATE_NEW]. *)
Theorem tryLogin_deny_signal (hS : Z) (md : ModuleDataT) (login pass d : string)
    (h h1 : Host) (r : Z) (buf : option string) :
  _request hS md login pass h = Ok ((r, buf), h1) ->
  parseHttpStatusCode buf = HTTP_OK ->
  denySignal md = Some d ->
  let md' := if changedRequestType md then restore_request md else md in
  let scanned := received_lines (buf :: lines h1) in
  exists h' : Host,
    tryLogin hS md login pass h = Ok ((MSTATE_NEW, md'), h')
    /\ (iResult h' = LOGIN_RESULT_FAIL <->
        exists line, In line scanned /\ case_substring d line)
    /\ (iResult h' = LOGIN_RESULT_SUCCESS <->
        forall line, In line scanned -> ~ case_substring d line)
    /\ passResults h' = (pass, iResult h') :: passResults h1.
Proof.
  intros Hreq Hok Hd md' scanned.
  pose proof (tryLogin_ok _ _ _ _ _ _ _ _ Hreq Hok) as E. cbn zeta in E.
  fold md' in E. unfold md' in E at 1. rewrite restore_request_denySignal, Hd in E.
  destruct (deny_scan_found d (lines h1) buf) as [rest Hscan].
  rewrite Hscan in E. cbn [rbind fst snd] in E. fold scanned in E.
  eexists. split; [exact E |]. cbn [iResult passResults].
  assert (Hex : existsb (contains_signal d) scanned = true <->
                exists line, In line scanned /\ case_substring d line).
  { rewrite existsb_exists. split; intros (line & Hin & Hl); exists line;
      (split; [exact Hin | now apply contains_signal_substring]). }
  destruct (existsb (contains_signal d) scanned) eqn:Hfound.
  - split; [| split; [| reflexivity]].
    + split; [intros _; now apply Hex | reflexivity].
    + split; [discriminate |]. intros Hall.
      destruct (proj1 Hex eq_refl) as (line & Hin & Hl). now destruct (Hall line Hin).
  - split; [| split; [| reflexivity]].
    + split; [discriminate |]. intros Hx. apply Hex in Hx. discriminate Hx.
    + split; [| reflexivity]. intros _ line Hin Hl.
      assert (Hx : false = true) by (apply Hex; eauto). discriminate Hx.
Qed.

(** ** abort() *)

Lemma rbind_aborted {A B : Type} (r : result A) (k : A -> result B) :
  aborted r = false -> (forall a, aborted (k a) = false) ->
  aborted (rbind r k) = false.
Proof.
  destruct r; cbn; auto.
Qed.

Lemma bind_aborted {A B : Type} (c : M A) (k : A -> M B) (h : Host) :
  aborted (c h) = false -> (forall a h', aborted (k a h') = false) ->
  aborted (bind c k h) = false.
Proof.
  unfold bind. destruct (c h) as [[a h'] | |]; cbn; auto.
Qed.

Lemma poke_aborted (buf : list ascii) (j : nat) (bs : list ascii) :
  aborted (poke buf j bs) = false.
Proof.
  unfold poke. now destruct (_ <=? _)%nat.
Qed.

Lemma urlencodeup_loop_aborted (s : list ascii) (st : list ascii * nat) :
  aborted (urlencodeup_loop s st) = false.
Proof.
  revert st. induction s as [| c s IH]; intros [buf j]; [reflexivity |].
  cbn [urlencodeup_loop]. apply rbind_aborted; [| exact IH].
  unfold urlencodeup_step. destruct (is_unreserved c);
    (apply rbind_aborted; [apply poke_aborted | reflexivity]).
Qed.

Lemma urlencodeup_aborted (s : string) : aborted (urlencodeup s) = false.
Proof.
  unfold urlencodeup. apply rbind_aborted; [apply urlencodeup_loop_aborted |].
  intros st. apply rbind_aborted; [apply poke_aborted | reflexivity].
Qed.

(** [abort()] is reached on a form of unknown type, and only there. *)
Lemma prepareRequestParamString_aborted (md : ModuleDataT) (login pass : string) :
  formType md <> FORM_UNKNOWN ->
  aborted (prepareRequestParamString md login pass) = false.
Proof.
  intros Hf. unfold prepareRequestParamString.
  apply rbind_aborted; [apply urlencodeup_aborted |].
  intros enc.
  destruct (formType md); [now contradiction Hf | |];
    destruct (formUserKey md), (formPassKey md); reflexivity.
Qed.

Lemma prepareRequestString_aborted (md : ModuleDataT) (login pass : string) :
  formType md <> FORM_UNKNOWN ->
  aborted (prepareRequestString md login pass) = false.
Proof.
  intros Hf. unfold prepareRequestString. apply rbind_aborted.
  - destruct (changedRequestType md);
      [reflexivity | now apply prepareRequestParamString_aborted].
  - intros [params n].
    destruct (formType md); [reflexivity | |];
      unfold GET_REQUEST_FMT_STR, POST_REQUEST_FMT_STR;
      destruct (resourcePath md), (hostHeader md), (userAgentHeader md),
        (customHeaders md), (cookieJar md); reflexivity.
Qed.

Lemma _request_aborted (hS : Z) (md : ModuleDataT) (login pass : string) (h : Host) :
  aborted (_request hS md login pass h) = false.
Proof.
  unfold _request.
  destruct (formType md) eqn:Hf; [reflexivity | |];
    (apply bind_aborted;
     [ unfold _sendRequest; apply bind_aborted;
       [ unfold lift; apply rbind_aborted;
         [apply prepareRequestString_aborted; congruence | reflexivity]
       | intros rs h'; unfold_host; now destruct (sends h') ]
     | intros s h'; destruct s; unfold_host;
       [destruct (lines h') as [| [l |] ls]; reflexivity | reflexivity] ]).
Qed.

Lemma scan_eol_aborted (s : string) : aborted (scan_eol s) = false.
Proof.
  induction s as [| c s IH]; [reflexivity |].
  cbn [scan_eol]. destruct (_ || _); [reflexivity |].
  now apply rbind_aborted.
Qed.

Lemma _findHeaderValue_aborted (header : string) (src : option string) :
  aborted (_findHeaderValue header src) = false.
Proof.
  unfold _findHeaderValue. destruct src as [s |]; [| reflexivity].
  destruct (strcasestr s header); [| reflexivity].
  apply rbind_aborted; [apply scan_eol_aborted | reflexivity].
Qed.

Lemma cookies_loop_aborted (fuel : nat) (jar : option string) (pos : string) :
  aborted (cookies_loop fuel jar pos) = false.
Proof.
  revert jar pos. induction fuel as [| fuel IH]; intros jar pos; [reflexivity |].
  cbn [cookies_loop]. apply rbind_aborted; [apply _findHeaderValue_aborted |].
  intros [[value pos'] |]; [| reflexivity].
  destruct jar; [apply IH | reflexivity].
Qed.

Lemma deny_scan_aborted (deny buf : option string) (pending : list (option string)) :
  aborted (deny_scan deny buf pending) = false.
Proof.
  revert buf. induction pending as [| l pending IH]; intros buf;
    destruct buf as [[| c r] |]; cbn [deny_scan]; try reflexivity;
    (destruct deny as [d |]; [| reflexivity]);
    destruct (strcasestr (String c r) d); try reflexivity; apply IH.
Qed.

Lemma redirect_aborted (statusCode : HttpStatusCodeT) (md : ModuleDataT)
    (pass : string) (buf : option string) (h : Host) :
  aborted
    ((newLocation <- lift (findLocationHeaderValue buf) ;;
      match newLocation with
      | None =>
          _setPasswordHelper pass LOGIN_RESULT_UNKNOWN ;;
          ret (MSTATE_EXITING, md)
      | Some _ =>
          md1 <- lift (_resolveLocationPath newLocation md) ;;
          md2 <- lift (_setCookiesFromResponse md1 buf) ;;
          ret (MSTATE_NEW,
               if FormTypeT_eqb (formType md2) FORM_POST && is_301_or_302 statusCode
               then set_formType FORM_GET (set_changedRequestType true md2)
               else md2)
      end) h) = false.
Proof.
  apply bind_aborted.
  { unfold lift, findLocationHeaderValue.
    repeat (apply rbind_aborted; [| reflexivity]). apply _findHeaderValue_aborted. }
  intros [loc |] h2; [| reflexivity].
  apply bind_aborted.
  { unfold lift, _resolveLocationPath. apply rbind_aborted; [| reflexivity].
    now destruct (_pathType _). }
  intros md1 h3. apply bind_aborted; [| reflexivity].
  unfold lift, _setCookiesFromResponse. apply rbind_aborted; [| reflexivity].
  destruct buf; [| reflexivity].
  apply rbind_aborted; [apply cookies_loop_aborted | reflexivity].
Qed.

Lemma tryLogin_aborted (hS : Z) (md : ModuleDataT) (login pass : string) (h : Host) :
  aborted (tryLogin hS md login pass h) = false.
Proof.
  unfold tryLogin. apply bind_aborted; [apply _request_aborted |].
  intros [r buf] h1. cbn [fst snd].
  destruct (r =? 0); [reflexivity |]. cbn zeta.
  destruct (parseHttpStatusCode buf); try reflexivity;
    try apply redirect_aborted.
  apply bind_aborted; [| reflexivity].
  unfold search_deny_signal. apply rbind_aborted; [apply deny_scan_aborted | reflexivity].
Qed.

(** ** The loop of initModule *)

Lemma default_form_frame (md : ModuleDataT) :
  formType (default_form md) = FORM_POST
  /\ resourcePath (default_form md) = resourcePath md
  /\ resourcePathOld (default_form md) = resourcePathOld md
  /\ changedRequestType (default_form md) = changedRequestType md.
Proof. repeat split. Qed.

Lemma parse_formData_frame (fd : string) (md md' : ModuleDataT) :
  parse_formData fd md = Ok md' ->
  resourcePath md' = resourcePath md
  /\ resourcePathOld md' = resourcePathOld md
  /\ changedRequestType md' = changedRequestType md.
Proof.
  unfold parse_formData. intros H.
  destruct (strtok_r fd is_question_mark) as [[pTemp rest] |]; [| discriminate H].
  destruct (next_token is_ampersand rest) as [user rest1].
  destruct (next_token is_ampersand rest1) as [pass rest2].
  destruct (next_token no_delimiter rest2) as [more rest3].
  invert_ok. repeat split.
Qed.

(** The form that [MSTATE_INITIALIZE] settles on. *)
Lemma initialize_form (md : ModuleDataT) :
  forall md1 : ModuleDataT,
    match formData md with
    | None => Ok (default_form md)
    | Some fd =>
        rbind (if is_null (formUserKey md) then parse_formData fd md else Ok md)
          (fun md =>
             if FormTypeT_eqb (formType md) FORM_UNKNOWN
                || is_null (formUserKey md) || is_null (formPassKey md)
             then Ok (default_form md)
             else Ok md)
    end = Ok md1 ->
    (formType md1 = FORM_POST \/ formType md1 = FORM_GET)
    /\ resourcePath md1 = resourcePath md
    /\ resourcePathOld md1 = resourcePathOld md
    /\ changedRequestType md1 = changedRequestType md.
Proof.
  intros md1 H.
  assert (Hfinal : forall m : ModuleDataT,
            (if FormTypeT_eqb (formType m) FORM_UNKNOWN
                || is_null (formUserKey m) || is_null (formPassKey m)
             then Ok (default_form m) else Ok m) = Ok md1 ->
            (formType md1 = FORM_POST \/ formType md1 = FORM_GET)
            /\ resourcePath md1 = resourcePath m
            /\ resourcePathOld md1 = resourcePathOld m
            /\ changedRequestType md1 = changedRequestType m).
  { intros m Hm.
    destruct (FormTypeT_eqb (formType m) FORM_UNKNOWN) eqn:Hu; cbn [orb] in Hm.
    - invert_ok. split; [now left | repeat split].
    - destruct (is_null (formUserKey m) || is_null (formPassKey m)); invert_ok.
      + split; [now left | repeat split].
      + split; [| repeat split].
        destruct (formType md1); [discriminate Hu | now right | now left]. }
  destruct (formData md) as [fd |].
  - destruct (is_null (formUserKey md)); cbn [rbind] in H.
    + destruct (parse_formData fd md) as [m | |] eqn:Hp; cbn [rbind] in H;
        try discriminate H.
      destruct (parse_formData_frame _ _ _ Hp) as (E1 & E2 & E3).
      destruct (Hfinal m H) as (F0 & F1 & F2 & F3).
      rewrite <- E1, <- E2, <- E3. auto.
    + now apply Hfinal.
  - invert_ok. split; [now left | repeat split].
Qed.

Lemma initialize_record (srv : sServer) (port : Z) (md md' : ModuleDataT) :
  initialize srv port md = Ok md' ->
  (formType md' = FORM_POST \/ formType md' = FORM_GET)
  /\ resourcePath md' <> None
  /\ resourcePathOld md' = resourcePathOld md
  /\ changedRequestType md' = changedRequestType md.
Proof.
  unfold initialize. intros H.
  set (md0 := if is_null (resourcePath md) then _ else md) in H.
  set (md1 := if is_null (hostHeader md0) then _ else md0) in H.
  assert (H0 : resourcePath md1 <> None /\ resourcePathOld md1 = resourcePathOld md
               /\ changedRequestType md1 = changedRequestType md).
  { unfold md1, md0.
    destruct (resourcePath md) eqn:Hr; cbn [is_null];
      destruct (hostHeader _); cbn [is_null]; cbn; rewrite ?Hr;
      repeat split; discriminate. }
  destruct H0 as (G1 & G2 & G3).
  match type of H with rbind ?x _ = _ => destruct x as [md2 | |] eqn:Hform end;
    cbn [rbind] in H; try discriminate H.
  destruct (initialize_form md1 md2 Hform) as (F0 & F1 & F2 & F3).
  invert_ok. rewrite <- F1 in G1. rewrite <- G2, <- G3, <- F2, <- F3.
  clear - F0 G1.
  destruct md2 as [rp rpo hh ua ds fd fr fu fp ch n cj ft crt]. cbn in *.
  destruct ua, ds, ch, cj; cbn; auto.
Qed.

Lemma initialize_aborted (srv : sServer) (port : Z) (md : ModuleDataT) :
  aborted (initialize srv port md) = false.
Proof.
  unfold initialize. apply rbind_aborted; [| reflexivity].
  destruct (formData _) as [fd |]; [| reflexivity].
  apply rbind_aborted.
  - destruct (is_null _); [| reflexivity].
    unfold parse_formData.
    destruct (strtok_r fd is_question_mark) as [[pTemp rest] |]; [| reflexivity].
    destruct (next_token is_ampersand rest) as [user rest1].
    destruct (next_token is_ampersand rest1) as [pass rest2].
    now destruct (next_token no_delimiter rest2) as [more rest3].
  - intros m. now destruct (_ || _).
Qed.

(** [MSTATE_INITIALIZE] completes unless FORM-DATA holds no token before
    the question mark. *)
Lemma initialize_total (srv : sServer) (port : Z) (md : ModuleDataT) :
  (forall fd, formData md = Some fd -> formUserKey md = None ->
              strtok_r fd is_question_mark <> None) ->
  exists md', initialize srv port md = Ok md'.
Proof.
  intros Htok. unfold initialize.
  set (md0 := if is_null (resourcePath md) then _ else md).
  set (md1 := if is_null (hostHeader md0) then _ else md0).
  assert (E1 : formData md1 = formData md /\ formUserKey md1 = formUserKey md).
  { unfold md1, md0. destruct (is_null (resourcePath md));
      destruct (is_null (hostHeader _)); split; reflexivity. }
  destruct E1 as [E1 E2]. rewrite E1.
  destruct (formData md) as [fd |] eqn:Hfd; [| cbn [rbind]; eauto].
  rewrite E2.
  destruct (formUserKey md) as [uk |] eqn:Huk; cbn [is_null rbind].
  - destruct (_ || _); cbn [rbind]; eauto.
  - unfold parse_formData.
    specialize (Htok fd eq_refl eq_refl).
    destruct (strtok_r fd is_question_mark) as [[pTemp rest] |]; [| now contradiction Htok].
    destruct (next_token is_ampersand rest) as [user rest1].
    destruct (next_token is_ampersand rest1) as [pass rest2].
    destruct (next_token no_delimiter rest2) as [more rest3].
    cbn [rbind]. destruct (_ || _); cbn [rbind]; eauto.
Qed.

Lemma pUser_result (cs : sCredentialSet) (h h' : Host) (u : string) :
  pUser cs h = Ok (u, h') -> psUser cs = Some u /\ h' = h.
Proof.
  unfold pUser. destruct (psUser cs); unfold ret; intros H; invert_ok; auto.
Qed.

Lemma next_credentials_state (st st' : ModuleStateT) (cs cs' : sCredentialSet) (h h' : Host) :
  next_credentials st cs h = Ok ((st', cs'), h') ->
  st' = st \/ st' = MSTATE_EXITING \/ st' = MSTATE_NEW.
Proof.
  unfold next_credentials, pUser. intros H. unfold_host.
  repeat (destruct_match; unfold_host; invert_ok); auto.
Qed.

(** One turn of the loop, by the state it starts in. *)
Lemma initModule_step_inv (srv : sServer) (m m' : Machine) (h h' : Host) :
  initModule_step srv m h = Ok (Continue m', h') ->
  (nState m = MSTATE_INITIALIZE /\ nState m' = MSTATE_NEW
   /\ initialize srv (nPort srv) (moduleData m) = Ok (moduleData m'))
  \/ (nState m = MSTATE_NEW /\ nState m' = MSTATE_RUNNING
      /\ moduleData m' = moduleData m)
  \/ (nState m = MSTATE_RUNNING
      /\ exists u st h1,
           tryLogin (hSocket m) (moduleData m) u (pPass (psCredSet m)) h
           = Ok ((st, moduleData m'), h1)
           /\ (nState m' = st \/ nState m' = MSTATE_EXITING \/ nState m' = MSTATE_NEW))
  \/ (nState m = MSTATE_EXITING /\ nState m' = MSTATE_COMPLETE
      /\ moduleData m' = moduleData m).
Proof.
  unfold initModule_step. intros H.
  destruct (nState m) eqn:Hs.
  - left. unfold bind, lift, ret in H.
    destruct (initialize srv (nPort srv) (moduleData m)) as [md | |];
      cbn [rbind] in H; invert_ok. auto.
  - right; left. unfold_host.
    repeat (destruct_match; unfold_host; invert_ok); auto.
  - right; right; left. split; [reflexivity |].
    unfold bind at 1 in H.
    destruct (pUser (psCredSet m) h) as [[u h0] | |] eqn:Hu; try discriminate H.
    destruct (pUser_result _ _ _ _ Hu) as [_ ->].
    unfold bind at 1 in H.
    destruct (tryLogin (hSocket m) (moduleData m) u (pPass (psCredSet m)) h)
      as [[[st md'] h1] | |] eqn:Hlog; try discriminate H.
    unfold bind at 1 in H. cbn [fst snd] in H.
    destruct (next_credentials st (psCredSet m) h1) as [[[st' cs'] h2] | |] eqn:Hn;
      try discriminate H.
    unfold ret in H. invert_ok. cbn [nState moduleData].
    exists u, st, h1. split; [exact Hlog |].
    exact (next_credentials_state _ _ _ _ _ _ Hn).
  - right; right; right. unfold_host.
    repeat (destruct_match; unfold_host; invert_ok); auto.
  - unfold ret in H. invert_ok.
Qed.

Lemma pUser_aborted (cs : sCredentialSet) (h : Host) : aborted (pUser cs h) = false.
Proof.
  unfold pUser. now destruct (psUser cs).
Qed.

Lemma next_credentials_aborted (st : ModuleStateT) (cs : sCredentialSet) (h : Host) :
  aborted (next_credentials st cs h) = false.
Proof.
  unfold next_credentials. apply bind_aborted; [reflexivity |].
  intros r h1. destruct (LoginResultT_eqb r LOGIN_RESULT_UNKNOWN); [reflexivity |].
  apply bind_aborted; [unfold getNextCredSet; now destruct (credentials h1) |].
  intros [cs' |] h2; [| reflexivity].
  destruct (iStatus cs'); try reflexivity;
    (apply bind_aborted; [apply pUser_aborted | reflexivity]).
Qed.

Lemma initModule_step_aborted (srv : sServer) (m : Machine) (h : Host) :
  aborted (initModule_step srv m h) = false.
Proof.
  unfold initModule_step. destruct (nState m).
  - apply bind_aborted; [| reflexivity].
    unfold lift. apply rbind_aborted; [apply initialize_aborted | reflexivity].
  - apply bind_aborted; [now destruct (0 <? hSocket m) |].
    intros _ h1. apply bind_aborted; [unfold medusaConnect; now destruct (connects h1) |].
    intros s h2. now destruct (s <? 0).
  - apply bind_aborted; [apply pUser_aborted |].
    intros u h1. apply bind_aborted; [apply tryLogin_aborted |].
    intros [st md'] h2. apply bind_aborted; [apply next_credentials_aborted | reflexivity].
  - apply bind_aborted; [now destruct (0 <? hSocket m) | reflexivity].
  - reflexivity.
Qed.

Lemma initModule_enter_state (md : ModuleDataT) (h h' : Host) (m : Machine) :
  initModule_enter md h = Ok (m, h') ->
  moduleData m = md
  /\ (nState m = MSTATE_INITIALIZE \/ nState m = MSTATE_COMPLETE).
Proof.
  unfold initModule_enter. intros H. unfold_host.
  repeat (destruct_match; unfold_host; invert_ok); auto.
Qed.

(** The line [_request] returns is the one the host had first in store. *)
Lemma _request_line (hS : Z) (md : ModuleDataT) (login pass : string)
    (h h1 : Host) (r : Z) (b : string) :
  _request hS md login pass h = Ok ((r, Some b), h1) ->
  lines h = Some b :: lines h1.
Proof.
  unfold _request, _sendRequest. intros H.
  destruct (formType md); unfold_host; invert_ok;
    (destruct (prepareRequestString md login pass) as [[rq n] | |]; cbn [rbind] in H;
     [| discriminate H | discriminate H]);
    repeat (destruct_match; unfold_host; invert_ok; cbn in *); congruence.
Qed.

(** The record [tryLogin] leaves: the one it was given, the one restored
    after 200 OK, or the one of a followed redirect. *)
Lemma tryLogin_record (hS : Z) (md md' : ModuleDataT) (login pass : string)
    (h h' : Host) (st : ModuleStateT) :
  tryLogin hS md login pass h = Ok ((st, md'), h') ->
  exists (r : Z) (buf : option string) (h1 : Host),
    _request hS md login pass h = Ok ((r, buf), h1)
    /\ ((st = MSTATE_EXITING /\ md' = md)
        \/ (st = MSTATE_NEW /\ parseHttpStatusCode buf = HTTP_OK
            /\ md' = if changedRequestType md then restore_request md else md)
        \/ (st = MSTATE_NEW /\ is_redirect (parseHttpStatusCode buf) = true
            /\ exists loc md1 md2,
                 findLocationHeaderValue buf = Ok (Some loc)
                 /\ _resolveLocationPath (Some loc) md = Ok md1
                 /\ _setCookiesFromResponse md1 buf = Ok md2
                 /\ md' = change_method (parseHttpStatusCode buf) md2)).
Proof.
  intros Hlog.
  destruct (_request hS md login pass h) as [[[r buf] h1] | |] eqn:Hreq;
    try (unfold tryLogin, bind in Hlog; rewrite Hreq in Hlog; discriminate Hlog).
  exists r, buf, h1. split; [reflexivity |].
  destruct (is_redirect (parseHttpStatusCode buf)) eqn:Hr.
  - rewrite (tryLogin_redirect _ _ _ _ _ _ _ _ Hreq Hr) in Hlog.
    destruct (findLocationHeaderValue buf) as [[loc |] | |]; cbn [rbind] in Hlog;
      invert_ok; [| left; auto].
    destruct (_resolveLocationPath (Some loc) md) as [md1 | |] eqn:H1;
      cbn [rbind] in Hlog; invert_ok.
    destruct (_setCookiesFromResponse md1 buf) as [md2 | |] eqn:H2;
      cbn [rbind] in Hlog; invert_ok.
    right; right. split; [reflexivity |]. split; [reflexivity |].
    exists loc, md1, md2. auto.
  - destruct (parseHttpStatusCode buf) eqn:Hp; try discriminate Hr;
      try (rewrite (tryLogin_refused _ _ _ _ _ _ _ _ Hreq) in Hlog
             by (rewrite Hp; (discriminate || reflexivity));
           invert_ok; left; auto; fail).
    + right; left. rewrite (tryLogin_ok _ _ _ _ _ _ _ _ Hreq Hp) in Hlog.
      cbn zeta in Hlog.
      destruct (deny_scan _ buf (lines h1)) as [fr | |]; cbn [rbind] in Hlog; invert_ok.
      auto.
    + rewrite (tryLogin_parse_error _ _ _ _ _ _ _ _ Hreq Hp) in Hlog. invert_ok.
      left; auto.
Qed.

Lemma tryLogin_formType (hS : Z) (md md' : ModuleDataT) (login pass : string)
    (h h' : Host) (st : ModuleStateT) :
  tryLogin hS md login pass h = Ok ((st, md'), h') ->
  formType md = FORM_POST \/ formType md = FORM_GET ->
  formType md' = FORM_POST \/ formType md' = FORM_GET.
Proof.
  intros Hlog Hf.
  destruct (tryLogin_record _ _ _ _ _ _ _ _ Hlog)
    as (r & buf & h1 & Hreq & [[_ ->] | [(_ & _ & ->) | (_ & _ & loc & md1 & md2 & _ & H1 & H2 & ->)]]).
  - exact Hf.
  - destruct (changedRequestType md); [now left | exact Hf].
  - destruct (redirect_frame (parseHttpStatusCode buf) _ _ _ _ _ H1 H2) as [E _].
    destruct (change_method_frame (parseHttpStatusCode buf) md2)
      as [(F & _) | (_ & _ & F & _)]; rewrite F; [now rewrite E | now right].
Qed.

Lemma reachable_formType (P : Machine -> Host -> Prop) (srv : sServer)
    (m : Machine) (h : Host) :
  reachable_by P srv m h ->
  nState m = MSTATE_NEW \/ nState m = MSTATE_RUNNING \/ nState m = MSTATE_EXITING ->
  formType (moduleData m) = FORM_POST \/ formType (moduleData m) = FORM_GET.
Proof.
  induction 1 as [form0 form deny data agent custom n h m h' Henter
                 | m h m' h' Hreach IH _ Hstep]; intros Hs.
  - destruct (initModule_enter_state _ _ _ _ Henter) as [_ [E | E]];
      rewrite E in Hs; destruct Hs as [Hs | [Hs | Hs]]; discriminate Hs.
  - destruct (initModule_step_inv _ _ _ _ _ Hstep)
      as [(_ & _ & Hi) | [(E & _ & ->) | [(E & u & st & h1 & Hlog & _) | (_ & E & _)]]].
    + now destruct (initialize_record _ _ _ _ Hi).
    + apply IH. auto.
    + apply (tryLogin_formType _ _ _ _ _ _ _ _ Hlog). apply IH. auto.
    + rewrite E in Hs. destruct Hs as [Hs | [Hs | Hs]]; discriminate Hs.
Qed.

(** C10.  [abort()] is never reached.  [MSTATE_INITIALIZE], when it
    completes, leaves the form type POST or GET (an unknown type is replaced
    by the POST default), and it completes whenever FORM-DATA holds a token
    before its question mark; the form type is POST or GET in every state
    from which [tryLogin] is called; [_request] on a form of unknown type
    returns the value of [MSTATE_EXITING] with the host untouched, so before
    any request is built; and neither [tryLogin] nor a turn of the loop of
    [initModule] ends in [abort()], whatever the record and the host. *)
Theorem abort_unreachable :
  (forall (srv : sServer) (port : Z) (md md' : ModuleDataT),
     initialize srv port md = Ok md' ->
     formType md' = FORM_POST \/ formType md' = FORM_GET)
  /\ (forall (srv : sServer) (port : Z) (md : ModuleDataT),
        (forall fd, formData md = Some fd -> formUserKey md = None ->
                    strtok_r fd is_question_mark <> None) ->
        exists md', initialize srv port md = Ok md')
  /\ (forall (srv : sServer) (m : Machine) (h : Host),
        reachable srv m h ->
        nState m = MSTATE_RUNNING ->
        formType (moduleData m) = FORM_POST \/ formType (moduleData m) = FORM_GET)
  /\ (forall (hS : Z) (md : ModuleDataT) (login pass : string) (h : Host),
        formType md = FORM_UNKNOWN ->
        _request hS md login pass h = Ok ((MSTATE_EXITING_value, None), h))
  /\ (forall (md : ModuleDataT) (login pass : string),
        aborted (prepareRequestParamString md login pass) = true ->
        formType md = FORM_UNKNOWN)
  /\ (forall (hS : Z) (md : ModuleDataT) (login pass : string) (h : Host),
        aborted (tryLogin hS md login pass h) = false)
  /\ (forall (srv : sServer) (m : Machine) (h : Host),
        aborted (initModule_step srv m h) = false).
Proof.
  split; [| split; [| split; [| split; [| split; [| split]]]]].
  - intros srv port md md' H. now destruct (initialize_record _ _ _ _ H).
  - apply initialize_total.
  - intros srv m h Hreach Hs. apply (reachable_formType _ _ _ _ Hreach). auto.
  - apply _request_form_unknown.
  - intros md login pass H.
    destruct (formType md) eqn:Hf; [reflexivity | |];
      rewrite prepareRequestParamString_aborted in H by congruence; discriminate H.
  - apply tryLogin_aborted.
  - apply initModule_step_aborted.
Qed.

(** ** resourcePathOld and changedRequestType *)

Lemma reachable_relative_record (srv : sServer) (m : Machine) (h : Host) :
  (forall b t, resolvePath b t <> None) ->
  reachable_by relative_turn srv m h ->
  ((nState m = MSTATE_INITIALIZE \/ nState m = MSTATE_COMPLETE)
   /\ changedRequestType (moduleData m) = false)
  \/ (resourcePath (moduleData m) <> None
      /\ (changedRequestType (moduleData m) = true ->
          resourcePathOld (moduleData m) <> None)).
Proof.
  intros Hrp.
  induction 1 as [form0 form deny data agent custom n h m h' Henter
                 | m h m' h' Hreach IH Hrel Hstep].
  - left. destruct (initModule_enter_state _ _ _ _ Henter) as [-> E]. auto.
  - destruct (initModule_step_inv _ _ _ _ _ Hstep)
      as [(E & _ & Hi) | [(E & _ & Hmd) | [(E & u & st & h1 & Hlog & _) | (E & _ & Hmd)]]].
    + right. destruct (initialize_record _ _ _ _ Hi) as (_ & F1 & F2 & F3).
      split; [exact F1 |]. rewrite F3.
      destruct IH as [[_ ->] | [_ IH]]; [discriminate | now rewrite F2].
    + right. rewrite Hmd.
      destruct IH as [[[E' | E'] _] | IH]; [congruence | congruence | exact IH].
    + right.
      destruct IH as [[[E' | E'] _] | [Hpath Hold]]; [congruence | congruence |].
      destruct (tryLogin_record _ _ _ _ _ _ _ _ Hlog)
        as (r & buf & h2 & Hreq
            & [[_ ->] | [(_ & _ & ->) | (_ & Hred & loc & md1 & md2 & Hloc & H1 & H2 & ->)]]).
      * auto.
      * destruct (changedRequestType (moduleData m)) eqn:Hc;
          [| split; [exact Hpath | congruence]].
        cbn. split; [auto | discriminate].
      * assert (Hb : exists b, buf = Some b).
        { apply parse_status_buffer. intros Hp. rewrite Hp in Hred. discriminate Hred. }
        destruct Hb as [b ->].
        pose proof (_request_line _ _ _ _ _ _ _ _ Hreq) as Hline.
        pose proof (Hrel E (Some b) (lines h2) loc Hline Hred Hloc) as Hty.
        unfold _resolveLocationPath in H1. rewrite Hty in H1. invert_ok.
        destruct (_setCookiesFromResponse_frame _ _ _ H2) as [jar ->].
        unfold change_method. destruct (_ && _); cbn; auto.
    + right. rewrite Hmd.
      destruct IH as [[[E' | E'] _] | IH]; [congruence | congruence | exact IH].
Qed.

(** C5 (as the code has it).  Along a call of [initModule] in which every
    redirect that is followed has a relative Location, and with a
    [resolvePath] that returns a path, [resourcePathOld] is present in every
    state of the loop in which [changedRequestType] is set. *)
Theorem resourcePathOld_when_changed (srv : sServer) (m : Machine) (h : Host) :
  (forall b t, resolvePath b t <> None) ->
  reachable_by relative_turn srv m h ->
  changedRequestType (moduleData m) = true ->
  resourcePathOld (moduleData m) <> None.
Proof.
  intros Hrp Hreach Hc.
  destruct (reachable_relative_record srv m h Hrp Hreach) as [[_ E] | [_ H]];
    [congruence | auto].
Qed.

(** ** The loop of _setCookiesFromResponse *)

Lemma scan_eol_length (s v rest : string) :
  scan_eol s = Ok (v, rest) -> (String.length rest <= String.length s)%nat.
Proof.
  revert v rest. induction s as [| c s IH]; intros v rest H; [discriminate H |].
  cbn [scan_eol] in H. destruct (_ || _); invert_ok; [reflexivity |].
  destruct (scan_eol s) as [[v' rest'] | |]; cbn [rbind fst snd] in H; invert_ok.
  cbn [String.length]. specialize (IH _ _ eq_refl). lia.
Qed.

Lemma strcasestr_suffix (hay needle suf : string) :
  strcasestr hay needle = Some suf ->
  case_prefix needle suf = true /\ (String.length suf <= String.length hay)%nat.
Proof.
  induction hay as [| c hay IH]; cbn [strcasestr].
  - destruct (case_prefix needle EmptyString) eqn:E; intros H;
      [invert_ok; auto | discriminate H].
  - destruct (case_prefix needle (String c hay)) eqn:E; intros H; invert_ok; [auto |].
    destruct (IH H). cbn [String.length]. auto.
Qed.

Lemma case_prefix_length (p s : string) :
  case_prefix p s = true -> (String.length p <= String.length s)%nat.
Proof.
  revert s. induction p as [| a p IH]; intros s H; cbn [String.length]; [lia |].
  destruct s as [| b s]; cbn [case_prefix] in H; [discriminate H |].
  apply andb_true_iff in H. destruct H as [_ H]. specialize (IH _ H).
  cbn [String.length]. lia.
Qed.

Lemma drop_length (n : nat) (s : string) :
  String.length (drop n s) = (String.length s - n)%nat.
Proof.
  revert s. induction n as [| n IH]; intros s; cbn [drop]; [lia |].
  destruct s as [| c s]; cbn [String.length]; [reflexivity | apply IH].
Qed.

Lemma skip_spaces_length (s : string) :
  (String.length (skip_spaces s) <= String.length s)%nat.
Proof.
  induction s as [| c s IH]; cbn [skip_spaces]; [lia |].
  destruct (isspace c); cbn [String.length]; lia.
Qed.

Lemma _findHeaderValue_advance (header pos value pos' : string) :
  (0 < String.length header)%nat ->
  _findHeaderValue header (Some pos) = Ok (Some (value, pos')) ->
  (String.length pos' < String.length pos)%nat.
Proof.
  unfold _findHeaderValue. intros Hh H.
  destruct (strcasestr pos header) as [loc |] eqn:Hs; invert_ok.
  destruct (strcasestr_suffix _ _ _ Hs) as [Hp Hl].
  apply case_prefix_length in Hp.
  destruct (scan_eol _) as [[v rest] |  |] eqn:He; cbn [rbind] in H; invert_ok.
  apply scan_eol_length in He.
  pose proof (skip_spaces_length (drop (String.length header) loc)) as Hk.
  rewrite drop_length in Hk. lia.
Qed.

(** The fuel of [cookies_loop] does not matter once it is above the length
    of what is left of the response: the loop never runs out of it. *)
Lemma cookies_loop_fuel (fuel fuel' : nat) (jar : option string) (pos : string) :
  (String.length pos < fuel)%nat -> (String.length pos < fuel')%nat ->
  cookies_loop fuel jar pos = cookies_loop fuel' jar pos.
Proof.
  revert fuel' jar pos.
  induction fuel as [| fuel IH]; intros fuel' jar pos H H'; [lia |].
  destruct fuel' as [| fuel']; [lia |].
  cbn [cookies_loop].
  destruct (_findHeaderValue (CRLF ++ "Set-Cookie:") (Some pos))
    as [[[value pos'] |] | |] eqn:Hf; cbn [rbind]; try reflexivity.
  destruct jar as [j |]; [| reflexivity].
  apply _findHeaderValue_advance in Hf; [| cbn; lia].
  apply IH; lia.
Qed.

(** ** The status line, the other way round *)

Lemma strchr_space_found (b : string) :
  no_space b = false -> exists ptr, strchr b " " = Some ptr.
Proof.
  induction b as [| c b IH]; intros H; [discriminate H |].
  cbn [no_space] in H. cbn [strchr].
  destruct (Ascii.eqb c " "); [eexists; reflexivity |].
  cbn [negb andb] in H. auto.
Qed.

Lemma status_of_number_parsed (n : Z) : status_of_number n <> HTTP_STATUS_PARSE_ERR.
Proof.
  unfold status_of_number.
  repeat match goal with
         | |- context [if ?b then _ else _] => destruct b
         end; discriminate.
Qed.

(** X1. [parseHttpStatusCode] returns [HTTP_STATUS_PARSE_ERR] for a NULL
    buffer and for a buffer without a space, and for no other: once the
    line holds a space, the result is one of the nine statuses or
    [HTTP_STATUS_NOT_IMPL]. *)
Theorem parseHttpStatusCode_parse_err (buf : option string) :
  parseHttpStatusCode buf = HTTP_STATUS_PARSE_ERR
  <-> (buf = None \/ exists b, buf = Some b /\ no_space b = true).
Proof.
  split.
  - intros H. destruct buf as [b |]; [right | left; reflexivity].
    exists b. split; [reflexivity |].
    destruct (no_space b) eqn:E; [reflexivity | exfalso].
    destruct (strchr_space_found b E) as [ptr Hp].
    rewrite (parseHttpStatusCode_at_space b ptr Hp) in H.
    exact (status_of_number_parsed _ H).
  - intros [-> | [b [-> Hb]]]; [reflexivity |].
    unfold parseHttpStatusCode. now rewrite strchr_no_space.
Qed.

(** ** The three kinds of path *)

Lemma http_prefix_found (p : string) :
  (4 < String.length p)%nat ->
  strcasestr (substring 0 4 p) "http" <> None ->
  matches_http p = true.
Proof.
  destruct p as [| a [| b [| c [| d [| e r]]]]]; cbn [String.length]; try lia.
  intros _. unfold matches_http.
  cbn [substring strcasestr case_prefix].
  destruct (Ascii.eqb (tolower "h") (tolower a)); cbn [andb];
    [| rewrite ?andb_false_r; intros H; now contradiction H].
  destruct (Ascii.eqb (tolower "t") (tolower b)); cbn [andb];
    [| rewrite ?andb_false_r; intros H; now contradiction H].
  destruct (Ascii.eqb (tolower "t") (tolower c)); cbn [andb];
    [| rewrite ?andb_false_r; intros H; now contradiction H].
  destruct (Ascii.eqb (tolower "p") (tolower d)); cbn [andb];
    [reflexivity | rewrite ?andb_false_r; intros H; now contradiction H].
Qed.

(** X2. [_pathType] sorts every path into exactly one kind: absolute when
    it starts with a slash, a URI when it is longer than four bytes and
    starts with http in any case, relative otherwise (the empty path and
    the four bytes http among them). *)
Theorem _pathType_classes (t : string) :
  (_pathType (Some t) = PATHTYPE_ABSOLUTE <-> exists r, t = String "/" r)
  /\ (_pathType (Some t) = PATHTYPE_URI
      <-> matches_http t = true /\ (4 < String.length t)%nat)
  /\ (_pathType (Some t) = PATHTYPE_RELATIVE
      <-> (forall r, t <> String "/" r)
          /\ (matches_http t = false \/ (String.length t <= 4)%nat)).
Proof.
  assert (Hslash : forall r, _pathType (Some (String "/" r)) = PATHTYPE_ABSOLUTE)
    by reflexivity.
  assert (Hother : (forall r, t <> String "/" r) ->
                   _pathType (Some t)
                   = match (if 4 <? strlen t
                            then strcasestr (substring 0 4 t) "http" else None) with
                     | Some _ => PATHTYPE_URI
                     | None => PATHTYPE_RELATIVE
                     end).
  { intros Hn. unfold _pathType. destruct t as [| c r]; [reflexivity |].
    destruct (Ascii.eqb_spec c "/") as [-> | Hc]; [now contradiction (Hn r) |].
    destruct c as [[] [] [] [] [] [] [] []]; try reflexivity. now contradiction Hc. }
  assert (Hcases : (exists r, t = String "/" r) \/ (forall r, t <> String "/" r)).
  { destruct t as [| c r]; [right; discriminate |].
    destruct (Ascii.eqb_spec c "/") as [-> | Hc]; [left; now exists r |].
    right. intros r' E. inversion E. contradiction. }
  assert (Hno : forall r, matches_http (String "/" r) = false) by reflexivity.
  destruct Hcases as [[r ->] | Hn].
  - rewrite Hslash, Hno. repeat split; try discriminate.
    + now exists r.
    + intros [E _]; discriminate E.
    + intros [E _]. now contradiction (E r).
  - rewrite (Hother Hn).
    destruct (4 <? strlen t) eqn:E4.
    + assert (H4 : (4 < String.length t)%nat).
      { apply Z.ltb_lt in E4. unfold strlen in E4. lia. }
      destruct (strcasestr (substring 0 4 t) "http") eqn:Es.
      * assert (Hm : matches_http t = true).
        { apply http_prefix_found; [exact H4 | rewrite Es; discriminate]. }
        repeat split; try discriminate; auto.
        -- intros [r ->]. now contradiction (Hn r).
        -- intros [_ [E | E]]; [congruence | lia].
      * assert (Hm : matches_http t = false).
        { destruct (matches_http t) eqn:Em; [| reflexivity].
          pose proof (_pathType_http t Em H4) as Hu.
          rewrite (Hother Hn) in Hu. discriminate Hu. }
        repeat split; try discriminate; auto.
        -- intros [r ->]. now contradiction (Hn r).
        -- intros [E _]. congruence.
    + assert (Hle : (String.length t <= 4)%nat).
      { apply Z.ltb_ge in E4. unfold strlen in E4. lia. }
      repeat split; try discriminate; auto.
      * intros [r ->]. now contradiction (Hn r).
      * intros [_ Hg]. lia.
Qed.

(** ** The value of a header *)

Lemma strcasestr_pre (hay needle suf : string) :
  strcasestr hay needle = Some suf -> exists pre, hay = pre ++ suf.
Proof.
  induction hay as [| c hay IH]; cbn [strcasestr]; intros H.
  - destruct (case_prefix needle ""); [| discriminate H].
    inversion H. now exists "".
  - destruct (case_prefix needle (String c hay)).
    + inversion H. now exists "".
    + destruct (IH H) as [pre ->]. now exists (String c pre).
Qed.

Lemma case_equal_length (a b : string) :
  case_equal a b = true -> String.length a = String.length b.
Proof.
  revert b. induction a as [| x a IH]; intros [| y b] H; cbn in *;
    try discriminate; [reflexivity |].
  apply andb_true_iff in H. destruct H as [_ H]. now rewrite (IH b H).
Qed.

Lemma case_prefix_drop (p s : string) :
  case_prefix p s = true ->
  exists name, s = name ++ drop (String.length p) s /\ case_equal name p = true.
Proof.
  revert s. induction p as [| a p IH]; intros s H.
  - exists "". split; reflexivity.
  - destruct s as [| b s]; [discriminate H |].
    cbn [case_prefix] in H. apply andb_true_iff in H. destruct H as [Hc H].
    destruct (IH s H) as (name & E & Hn).
    exists (String b name). cbn [String.length drop append]. split.
    + now rewrite <- E.
    + cbn [case_equal]. rewrite Hn, andb_true_r.
      rewrite Ascii.eqb_sym. exact Hc.
Qed.

Lemma drop_app (name t : string) : drop (String.length name) (name ++ t) = t.
Proof.
  induction name as [| c name IH]; [now destruct t | exact IH].
Qed.

Lemma skip_spaces_split (s : string) :
  exists ws, s = ws ++ skip_spaces s /\ all_space ws = true.
Proof.
  induction s as [| c s IH].
  - exists "". split; reflexivity.
  - cbn [skip_spaces]. destruct (isspace c) eqn:E.
    + destruct IH as (ws & Es & Hw). exists (String c ws). split.
      * cbn [append]. now rewrite <- Es.
      * cbn [all_space]. now rewrite E, Hw.
    + exists "". split; reflexivity.
Qed.

Lemma skip_spaces_stop (s : string) :
  match skip_spaces s with
  | String c _ => isspace c = false
  | EmptyString => True
  end.
Proof.
  induction s as [| c s IH]; [exact I |].
  cbn [skip_spaces]. destruct (isspace c) eqn:E; [exact IH | exact E].
Qed.

Lemma skip_spaces_app (ws t : string) :
  all_space ws = true -> skip_spaces (ws ++ t) = skip_spaces t.
Proof.
  induction ws as [| c ws IH]; intros H; [reflexivity |].
  cbn [all_space] in H. apply andb_true_iff in H. destruct H as [Hc H].
  cbn [append skip_spaces]. rewrite Hc. auto.
Qed.

Lemma is_eol_space (c : ascii) : is_eol c = true -> isspace c = true.
Proof.
  unfold is_eol. intros H. apply orb_true_iff in H.
  destruct H as [H | H]; apply Ascii.eqb_eq in H; subst c; reflexivity.
Qed.

Lemma scan_eol_split (s v pos : string) :
  scan_eol s = Ok (v, pos) ->
  s = v ++ pos /\ no_eol v = true
  /\ exists e r, pos = String e r /\ is_eol e = true.
Proof.
  revert v pos. induction s as [| c s IH]; intros v pos H; [discriminate H |].
  cbn [scan_eol] in H.
  destruct (Ascii.eqb c CR || Ascii.eqb c LF) eqn:E.
  - inversion H; subst. repeat split. now exists c, s.
  - destruct (scan_eol s) as [[v' pos'] | |]; cbn [rbind fst snd] in H;
      try discriminate H.
    inversion H; subst.
    destruct (IH v' pos eq_refl) as (Es & Hv & He).
    repeat split.
    + cbn [append]. now rewrite <- Es.
    + cbn [no_eol]. unfold is_eol. now rewrite E, Hv.
    + exact He.
Qed.

Lemma scan_eol_value (v : string) (e : ascii) (r : string) :
  no_eol v = true -> is_eol e = true ->
  scan_eol (v ++ String e r) = Ok (v, String e r).
Proof.
  intros Hv He. induction v as [| c v IH].
  - cbn [append scan_eol]. unfold is_eol in He. now rewrite He.
  - cbn [no_eol] in Hv. apply andb_true_iff in Hv. destruct Hv as [Hc Hv].
    cbn [append scan_eol]. unfold is_eol in Hc.
    apply negb_true_iff in Hc. rewrite Hc, (IH Hv). reflexivity.
Qed.

Lemma scan_eol_none (t : string) : no_eol t = true -> scan_eol t = Fault.
Proof.
  induction t as [| c t IH]; intros H; [reflexivity |].
  cbn [no_eol] in H. apply andb_true_iff in H. destruct H as [Hc H].
  cbn [scan_eol]. unfold is_eol in Hc. apply negb_true_iff in Hc.
  now rewrite Hc, (IH H).
Qed.

Lemma no_eol_skip_spaces (t : string) :
  no_eol t = true -> no_eol (skip_spaces t) = true.
Proof.
  induction t as [| c t IH]; intros H; [reflexivity |].
  cbn [skip_spaces]. destruct (isspace c); [| exact H].
  cbn [no_eol] in H. apply andb_true_iff in H. now apply IH.
Qed.

Lemma header_value_skip (v t : string) :
  header_value v = true -> skip_spaces (v ++ t) = v ++ t.
Proof.
  destruct v as [| c v]; [discriminate |].
  cbn [header_value]. intros H. apply andb_true_iff in H. destruct H as [Hc _].
  apply negb_true_iff in Hc. cbn [append skip_spaces]. now rewrite Hc.
Qed.

(** X3. [_findHeaderValue] at the first occurrence of the header, found
    without regard to case: the white space after the name is skipped, line
    ends included, and the value runs to the next CR or LF.  So a value is
    never empty, starts with no white space and holds no line end, and the
    position handed back is at the line end after it.  Without the header
    the result is NULL; when no CR or LF follows the skipped white space,
    the scan leaves the buffer. *)
Theorem _findHeaderValue_value (header s : string) :
  (strcasestr s header = None -> _findHeaderValue header (Some s) = Ok None)
  /\ (forall value pos : string,
        _findHeaderValue header (Some s) = Ok (Some (value, pos)) ->
        header_value value = true
        /\ (exists e r, pos = String e r /\ is_eol e = true)
        /\ exists pre name ws : string,
             s = pre ++ name ++ ws ++ value ++ pos
             /\ strcasestr s header = Some (name ++ ws ++ value ++ pos)
             /\ case_equal name header = true
             /\ all_space ws = true)
  /\ (forall (name ws value : string) (e : ascii) (r : string),
        strcasestr s header = Some (name ++ ws ++ value ++ String e r) ->
        String.length name = String.length header ->
        all_space ws = true -> header_value value = true -> is_eol e = true ->
        _findHeaderValue header (Some s) = Ok (Some (value, String e r)))
  /\ (forall name ws t : string,
        strcasestr s header = Some (name ++ ws ++ t) ->
        String.length name = String.length header ->
        all_space ws = true -> no_eol t = true ->
        _findHeaderValue header (Some s) = Fault).
Proof.
  unfold _findHeaderValue. repeat split.
  - intros ->. reflexivity.
  - destruct (strcasestr s header) as [loc |] eqn:El; [| discriminate H].
    destruct (scan_eol _) as [[v p] | |] eqn:Es; cbn [rbind] in H; try discriminate H.
    inversion H; subst.
    destruct (scan_eol_split _ _ _ Es) as (E & Hv & e & r & -> & He).
    pose proof (skip_spaces_stop (drop (String.length header) loc)) as Hstop.
    rewrite E in Hstop.
    destruct value as [| c value].
    + cbn [append] in Hstop. apply is_eol_space in He. congruence.
    + cbn [append] in Hstop. cbn [header_value]. now rewrite Hstop, Hv.
  - destruct (strcasestr s header) as [loc |] eqn:El; [| discriminate H].
    destruct (scan_eol _) as [[v p] | |] eqn:Es; cbn [rbind] in H; try discriminate H.
    inversion H; subst.
    destruct (scan_eol_split _ _ _ Es) as (_ & _ & He). exact He.
  - destruct (strcasestr s header) as [loc |] eqn:El; [| discriminate H].
    destruct (scan_eol _) as [[v p] | |] eqn:Es; cbn [rbind] in H; try discriminate H.
    inversion H; subst.
    destruct (scan_eol_split _ _ _ Es) as (E & _ & _).
    destruct (strcasestr_pre _ _ _ El) as [pre Epre].
    destruct (strcasestr_suffix _ _ _ El) as [Hp _].
    destruct (case_prefix_drop _ _ Hp) as (name & En & Hn).
    destruct (skip_spaces_split (drop (String.length header) loc)) as (ws & Ew & Hw).
    exists pre, name, ws.
    assert (Eloc : loc = name ++ ws ++ value ++ pos).
    { rewrite En at 1. rewrite Ew at 1. now rewrite E. }
    rewrite <- Eloc. repeat split; auto.
  - intros name ws value e r El Hlen Hw Hv He. rewrite El.
    rewrite <- Hlen, drop_app, (skip_spaces_app _ _ Hw), (header_value_skip _ _ Hv).
    assert (Hn : no_eol value = true).
    { destruct value; [discriminate Hv |]. cbn [header_value] in Hv.
      apply andb_true_iff in Hv. tauto. }
    now rewrite (scan_eol_value _ _ _ Hn He).
  - intros name ws t El Hlen Hw Ht. rewrite El.
    rewrite <- Hlen, drop_app, (skip_spaces_app _ _ Hw).
    now rewrite (scan_eol_none _ (no_eol_skip_spaces _ Ht)).
Qed.


(** ** The encoder on every byte *)

Lemma escape_high (c : ascii) :
  is_ascii c = false ->
  snprintf sizeof_URL_ENCODE_BYTE_FMT
    (URL_ENCODE_BYTE_FMT (to_unsigned_int (char_to_int c)))
  = ["%"; "F"; "F"; "F"; "F"; "F"; NUL]%char.
Proof.
  destruct c as [[] [] [] [] [] [] [] []]; intros H; try discriminate H; reflexivity.
Qed.

Lemma is_alnum_ascii (c : ascii) : is_alnum c = true -> is_ascii c = true.
Proof.
  destruct c as [[] [] [] [] [] [] [] []]; intros H; try discriminate H; reflexivity.
Qed.

Lemma urlencodeup_byte_charset (c : ascii) :
  forallb url_charset (urlencodeup_byte c) = true.
Proof.
  unfold urlencodeup_byte. destruct (is_ascii c); [| reflexivity].
  apply percent_encode_byte_charset.
Qed.

Lemma urlencodeup_bytes_charset (s : list ascii) :
  forallb url_charset (urlencodeup_bytes s) = true.
Proof.
  induction s as [| c s IH]; [reflexivity |].
  unfold urlencodeup_bytes in *. cbn [flat_map].
  now rewrite forallb_app, IH, urlencodeup_byte_charset.
Qed.

Lemma urlencodeup_byte_length (c : ascii) :
  (1 <= List.length (urlencodeup_byte c) <= 3)%nat.
Proof.
  unfold urlencodeup_byte, percent_encode_byte.
  destruct (is_ascii c); [destruct (is_alnum c) |]; cbn [List.length]; lia.
Qed.

Lemma urlencodeup_bytes_length (s : list ascii) :
  (List.length s <= List.length (urlencodeup_bytes s) <= 3 * List.length s)%nat.
Proof.
  induction s as [| c s IH]; [cbn; lia |].
  unfold urlencodeup_bytes in *. cbn [flat_map List.length].
  rewrite length_app. pose proof (urlencodeup_byte_length c). lia.
Qed.

Lemma urlencodeup_bytes_ascii (s : list ascii) :
  forallb is_ascii s = true -> urlencodeup_bytes s = percent_encode s.
Proof.
  induction s as [| c s IH]; intros H; [reflexivity |].
  cbn [forallb] in H. apply andb_true_iff in H. destruct H as [Hc H].
  unfold urlencodeup_bytes, percent_encode in *. cbn [flat_map].
  rewrite (IH H). unfold urlencodeup_byte. now rewrite Hc.
Qed.

Lemma poke_fault_or (out tail bs : list ascii) :
  poke (out ++ tail) (List.length out) bs = Fault
  \/ ((List.length bs <= List.length tail)%nat
      /\ poke (out ++ tail) (List.length out) bs
         = Ok (out ++ bs ++ skipn (List.length bs) tail)%list).
Proof.
  destruct (Nat.le_gt_cases (List.length bs) (List.length tail)) as [H | H].
  - right. split; [exact H | now apply poke_app].
  - left. unfold poke. rewrite length_app.
    destruct (Nat.leb_spec (List.length out + List.length bs)
                (List.length out + List.length tail)); [lia | reflexivity].
Qed.

Lemma urlencodeup_loop_any (s out tail : list ascii) :
  (3 * List.length s + 1 <= List.length tail)%nat ->
  (urlencodeup_loop s ((out ++ tail)%list, List.length out) = Fault
   /\ high_bytes_early s = false)
  \/ exists tail',
       urlencodeup_loop s ((out ++ tail)%list, List.length out)
       = Ok (((out ++ urlencodeup_bytes s) ++ tail')%list,
             List.length (out ++ urlencodeup_bytes s)%list)
       /\ (1 <= List.length tail')%nat.
Proof.
  revert out tail.
  induction s as [| c s IH]; intros out tail Hlen.
  - right. exists tail. cbn [urlencodeup_loop urlencodeup_bytes flat_map].
    rewrite app_nil_r. split; [reflexivity | cbn [List.length] in Hlen; lia].
  - cbn [List.length] in Hlen.
    cbn [urlencodeup_loop urlencodeup_step high_bytes_early].
    rewrite is_unreserved_alnum.
    assert (Hcons : urlencodeup_bytes (c :: s)
                    = (urlencodeup_byte c ++ urlencodeup_bytes s)%list) by reflexivity.
    rewrite Hcons. unfold urlencodeup_byte, percent_encode_byte.
    destruct (is_alnum c) eqn:Ea.
    + rewrite (is_alnum_ascii c Ea). cbn [orb andb].
      rewrite poke_app by (cbn [List.length]; lia). cbn [rbind].
      destruct (IH (out ++ [c])%list (skipn 1 tail)) as [[E Hh] | (tail' & E & Ht)].
      { rewrite length_skipn. lia. }
      * left. split; [| exact Hh].
        rewrite length_app in E. cbn [List.length] in E.
        rewrite <- (app_assoc out [c]) in E. cbn [List.length]. exact E.
      * right. exists tail'. split; [| exact Ht].
        rewrite length_app in E. cbn [List.length] in E.
        rewrite <- (app_assoc out [c]) in E.
        cbn [List.length]. rewrite E. now rewrite <- !app_assoc.
    + destruct (is_ascii c) eqn:Ec.
      * cbn [orb andb]. rewrite (escape_ascii c Ec).
        rewrite poke_app by (cbn [List.length]; lia). cbn [rbind].
        destruct (IH (out ++ ["%"%char; hex_digit (code c / 16);
                              hex_digit (code c mod 16)])%list
                    (NUL :: skipn 4 tail)) as [[E Hh] | (tail' & E & Ht)].
        { cbn [List.length]. rewrite length_skipn. lia. }
        -- left. split; [| exact Hh].
           rewrite length_app in E. cbn [List.length] in E.
           rewrite <- (app_assoc out) in E.
           cbn [List.length app] in E |- *. exact E.
        -- right. exists tail'. split; [| exact Ht].
           rewrite length_app in E. cbn [List.length] in E.
           rewrite <- (app_assoc out) in E.
           cbn [List.length app] in E |- *. rewrite E. now rewrite <- !app_assoc.
      * cbn [orb]. rewrite (escape_high c Ec).
        destruct (poke_fault_or out tail ["%"; "F"; "F"; "F"; "F"; "F"; NUL]%char)
          as [Ef | [Hl Ep]].
        -- destruct (Nat.leb_spec 2 (List.length s)) as [H2 | H2].
           ++ exfalso.
              rewrite poke_app in Ef by (cbn [List.length]; lia). discriminate Ef.
           ++ left. rewrite Ef. split; reflexivity.
        -- rewrite Ep. cbn [rbind]. cbn [List.length] in Hl.
           destruct (IH (out ++ ["%"; "F"; "F"]%char)%list
                       ("F" :: "F" :: "F" :: NUL :: skipn 7 tail)%char)
             as [[E Hh] | (tail' & E & Ht)].
           { cbn [List.length]. rewrite length_skipn. lia. }
           ++ left. split; [| now rewrite Hh, andb_false_r].
              rewrite length_app in E. cbn [List.length] in E.
              rewrite <- (app_assoc out) in E.
              cbn [List.length app] in E |- *. exact E.
           ++ right. exists tail'. split; [| exact Ht].
              rewrite length_app in E. cbn [List.length] in E.
              rewrite <- (app_assoc out) in E.
              cbn [List.length app] in E |- *. rewrite E. now rewrite <- !app_assoc.
Qed.

Lemma urlencodeup_cases (s : string) :
  (urlencodeup s = Fault /\ high_bytes_early (list_ascii_of_string s) = false)
  \/ urlencodeup s
     = Ok (string_of_list_ascii (urlencodeup_bytes (list_ascii_of_string s))).
Proof.
  unfold urlencodeup.
  destruct (urlencodeup_loop_any (list_ascii_of_string s) []
              (repeat NUL (String.length s * 3 + 1)))
    as [[E Hh] | (tail' & E & Ht)].
  { rewrite repeat_length, length_list_ascii_of_string. lia. }
  - left. cbn [app List.length] in E. rewrite E. now split.
  - right. cbn [app List.length] in E. rewrite E. cbn [rbind fst snd].
    rewrite poke_app by (cbn [List.length]; lia). cbn [rbind].
    f_equal. cbn [List.length app].
    apply cstring_app, urlencodeup_bytes_charset.
Qed.

(** X4. [urlencodeup] on any bytes, not only ASCII: it never writes
    anything but [A-Za-z0-9%]; when it returns, a byte above 127 has become
    the three bytes [%FF], whatever the byte, so the result is at most
    three times as long as the input; and it does return when every byte
    above 127 has at least two bytes after it.  The buffer is left only by
    a byte above 127 among the last two. *)
Theorem urlencodeup_any_bytes (s : string) :
  let bytes := list_ascii_of_string s in
  (urlencodeup s = Fault
   \/ urlencodeup s = Ok (string_of_list_ascii (urlencodeup_bytes bytes)))
  /\ (high_bytes_early bytes = true ->
      urlencodeup s = Ok (string_of_list_ascii (urlencodeup_bytes bytes)))
  /\ (urlencodeup s = Fault -> high_bytes_early bytes = false)
  /\ forallb url_charset (urlencodeup_bytes bytes) = true
  /\ (List.length bytes <= List.length (urlencodeup_bytes bytes) <= 3 * List.length bytes)%nat
  /\ (forallb is_ascii bytes = true -> urlencodeup_bytes bytes = percent_encode bytes).
Proof.
  intros bytes. pose proof (urlencodeup_cases s) as H. fold bytes in H.
  repeat split.
  - destruct H as [[H _] | H]; [now left | now right].
  - intros Hh. destruct H as [[_ H] | H]; [congruence | exact H].
  - intros Hf. destruct H as [[_ H] | H]; [exact H | congruence].
  - apply urlencodeup_bytes_charset.
  - apply urlencodeup_bytes_length.
  - apply urlencodeup_bytes_length.
  - apply urlencodeup_bytes_ascii.
Qed.
(** ** What [_request] and [tryLogin] do to the host *)

Lemma _request_effect (hS : Z) (md : ModuleDataT) (login pass : string)
    (h h1 : Host) (r : Z) (buf : option string) :
  _request hS md login pass h = Ok ((r, buf), h1) ->
  credentials h1 = credentials h /\ connects h1 = connects h
  /\ disconnected h1 = disconnected h
  /\ ((formType md = FORM_UNKNOWN /\ h1 = h /\ buf = None /\ r = MSTATE_EXITING_value)
      \/ (exists rq n,
            prepareRequestString md login pass = Ok (rq, n)
            /\ sent h1 = (rq, n) :: sent h
            /\ ((buf = None /\ iResult h1 = LOGIN_RESULT_UNKNOWN
                 /\ passResults h1 = (pass, LOGIN_RESULT_UNKNOWN) :: passResults h
                 /\ (lines h1 = lines h \/ lines h = None :: lines h1))
                \/ (r = 1 /\ (exists b, buf = Some b /\ lines h = Some b :: lines h1)
                    /\ iResult h1 = iResult h /\ passResults h1 = passResults h)))).
Proof.
  unfold _request, _sendRequest. intros H.
  destruct (formType md) eqn:Ef; unfold_host.
  - invert_ok. repeat split. left. auto.
  - destruct (prepareRequestString md login pass) as [[rq n] | |]; cbn [rbind] in H;
      try discriminate H.
    repeat (destruct_match; unfold_host; invert_ok; cbn in * ).
    all: repeat split.
    all: right; exists rq, n; repeat split.
    all: try discriminate.
    all: try (left; repeat split; auto; fail).
    all: try (right; repeat split; eauto; fail).
  - destruct (prepareRequestString md login pass) as [[rq n] | |]; cbn [rbind] in H;
      try discriminate H.
    repeat (destruct_match; unfold_host; invert_ok; cbn in * ).
    all: repeat split.
    all: right; exists rq, n; repeat split.
    all: try discriminate.
    all: try (left; repeat split; auto; fail).
    all: try (right; repeat split; eauto; fail).
Qed.

Lemma deny_scan_rest (deny buf : option string) (pending rest : list (option string))
    (found : bool) :
  deny_scan deny buf pending = Ok (found, rest) ->
  exists read, pending = (read ++ rest)%list.
Proof.
  revert buf. induction pending as [| l pending IH]; intros buf H.
  - destruct buf as [[| c r] |]; cbn [deny_scan] in H; try (invert_ok; now exists []).
    destruct deny as [d |]; [| discriminate H].
    destruct (strcasestr (String c r) d); invert_ok; now exists [].
  - destruct buf as [[| c r] |]; cbn [deny_scan] in H; try (invert_ok; now exists []).
    destruct deny as [d |]; [| discriminate H].
    destruct (strcasestr (String c r) d); [invert_ok; now exists [] |].
    destruct (IH l H) as [read ->]. now exists (l :: read).
Qed.

Lemma tryLogin_request (hS : Z) (md md' : ModuleDataT) (login pass : string)
    (h h' : Host) (st : ModuleStateT) :
  tryLogin hS md login pass h = Ok ((st, md'), h') ->
  exists r buf h1, _request hS md login pass h = Ok ((r, buf), h1).
Proof.
  unfold tryLogin, bind. intros H.
  destruct (_request hS md login pass h) as [[[r buf] h1] | |];
    [eauto | discriminate H | discriminate H].
Qed.

(** The host after [tryLogin], from the host after [_request]. *)
Lemma tryLogin_effect (hS : Z) (md md' : ModuleDataT) (login pass : string)
    (h h' : Host) (st : ModuleStateT) :
  tryLogin hS md login pass h = Ok ((st, md'), h') ->
  exists r buf h1,
    _request hS md login pass h = Ok ((r, buf), h1)
    /\ credentials h' = credentials h1 /\ connects h' = connects h1
    /\ sends h' = sends h1 /\ sent h' = sent h1
    /\ disconnected h' = disconnected h1
    /\ (exists read, lines h1 = (read ++ lines h')%list)
    /\ ((st = MSTATE_EXITING /\ h' = h1
         /\ (r = 0 \/ parseHttpStatusCode buf = HTTP_STATUS_PARSE_ERR))
        \/ (st = MSTATE_NEW /\ h' = h1 /\ r = 1
            /\ is_redirect (parseHttpStatusCode buf) = true)
        \/ (st = MSTATE_EXITING /\ r = 1
            /\ parseHttpStatusCode buf <> HTTP_STATUS_PARSE_ERR
            /\ parseHttpStatusCode buf <> HTTP_OK
            /\ iResult h' = LOGIN_RESULT_UNKNOWN
            /\ passResults h' = (pass, LOGIN_RESULT_UNKNOWN) :: passResults h1)
        \/ (st = MSTATE_NEW /\ r = 1
            /\ parseHttpStatusCode buf = HTTP_OK
            /\ (iResult h' = LOGIN_RESULT_SUCCESS \/ iResult h' = LOGIN_RESULT_FAIL)
            /\ passResults h' = (pass, iResult h') :: passResults h1)).
Proof.
  intros H.
  destruct (tryLogin_request _ _ _ _ _ _ _ _ H) as (r & buf & h1 & Hreq).
  exists r, buf, h1. split; [exact Hreq |].
  destruct (Z.eqb_spec r 0) as [-> | Hr].
  { rewrite (tryLogin_no_data _ _ _ _ _ _ _ Hreq) in H. invert_ok.
    repeat split; try (now exists []). left. auto. }
  destruct (parseHttpStatusCode buf) eqn:Es.
  2-5: assert (Hred : is_redirect (parseHttpStatusCode buf) = true)
         by (rewrite Es; reflexivity);
       assert (Hne : parseHttpStatusCode buf <> HTTP_STATUS_PARSE_ERR)
         by (rewrite Es; discriminate);
       destruct (_request_parsed _ _ _ _ _ _ _ _ Hreq Hne) as (-> & _);
       rewrite (tryLogin_redirect _ _ _ _ _ _ _ _ Hreq Hred) in H;
       destruct (findLocationHeaderValue buf) as [[loc |] | |]; cbn [rbind] in H;
         try discriminate H;
       [ destruct (_resolveLocationPath (Some loc) md) as [md1 | |]; cbn [rbind] in H;
           try discriminate H;
         destruct (_setCookiesFromResponse md1 buf) as [md2 | |]; cbn [rbind] in H;
           try discriminate H;
         invert_ok; repeat split; try (now exists []);
         right; left; repeat split; rewrite Es; reflexivity
       | invert_ok; cbn; repeat split; try (now exists []);
         right; right; left; repeat split; discriminate ].
  - assert (Hne : parseHttpStatusCode buf <> HTTP_STATUS_PARSE_ERR)
      by (rewrite Es; discriminate).
    destruct (_request_parsed _ _ _ _ _ _ _ _ Hreq Hne) as (-> & _).
    rewrite (tryLogin_ok _ _ _ _ _ _ _ _ Hreq Es) in H. cbv zeta in H.
    destruct (deny_scan _ buf (lines h1)) as [[found rest] | |] eqn:Ed;
      cbn [rbind fst snd] in H; try discriminate H.
    invert_ok. cbn. repeat split.
    + exact (deny_scan_rest _ _ _ _ _ Ed).
    + right; right; right. repeat split. destruct found; auto.
  - (* HTTP_BAD_REQUEST *)
    assert (Hne : parseHttpStatusCode buf <> HTTP_STATUS_PARSE_ERR)
      by (rewrite Es; discriminate).
    destruct (_request_parsed _ _ _ _ _ _ _ _ Hreq Hne) as (-> & _).
    rewrite (tryLogin_refused _ _ _ _ _ _ _ _ Hreq) in H;
      try (rewrite Es; first [discriminate | reflexivity]).
    invert_ok; cbn; repeat split; try (now exists []).
    right; right; left; repeat split; discriminate.
  - assert (Hne : parseHttpStatusCode buf <> HTTP_STATUS_PARSE_ERR)
      by (rewrite Es; discriminate).
    destruct (_request_parsed _ _ _ _ _ _ _ _ Hreq Hne) as (-> & _).
    rewrite (tryLogin_refused _ _ _ _ _ _ _ _ Hreq) in H;
      try (rewrite Es; first [discriminate | reflexivity]).
    invert_ok; cbn; repeat split; try (now exists []).
    right; right; left; repeat split; discriminate.
  - assert (Hne : parseHttpStatusCode buf <> HTTP_STATUS_PARSE_ERR)
      by (rewrite Es; discriminate).
    destruct (_request_parsed _ _ _ _ _ _ _ _ Hreq Hne) as (-> & _).
    rewrite (tryLogin_refused _ _ _ _ _ _ _ _ Hreq) in H;
      try (rewrite Es; first [discriminate | reflexivity]).
    invert_ok; cbn; repeat split; try (now exists []).
    right; right; left; repeat split; discriminate.
  - assert (Hne : parseHttpStatusCode buf <> HTTP_STATUS_PARSE_ERR)
      by (rewrite Es; discriminate).
    destruct (_request_parsed _ _ _ _ _ _ _ _ Hreq Hne) as (-> & _).
    rewrite (tryLogin_refused _ _ _ _ _ _ _ _ Hreq) in H;
      try (rewrite Es; first [discriminate | reflexivity]).
    invert_ok; cbn; repeat split; try (now exists []).
    right; right; left; repeat split; discriminate.
  - assert (Hne : parseHttpStatusCode buf <> HTTP_STATUS_PARSE_ERR)
      by (rewrite Es; discriminate).
    destruct (_request_parsed _ _ _ _ _ _ _ _ Hreq Hne) as (-> & _).
    rewrite (tryLogin_refused _ _ _ _ _ _ _ _ Hreq) in H;
      try (rewrite Es; first [discriminate | reflexivity]).
    invert_ok; cbn; repeat split; try (now exists []).
    right; right; left; repeat split; discriminate.
  - rewrite (tryLogin_parse_error _ _ _ _ _ _ _ _ Hreq Es) in H. invert_ok.
    repeat split; try (now exists []). left. auto.
Qed.

(** The four ways [tryLogin] returns, by what they record. *)
Lemma tryLogin_outcomes (hS : Z) (md md' : ModuleDataT) (login pass : string)
    (h h' : Host) (st : ModuleStateT) :
  tryLogin hS md login pass h = Ok ((st, md'), h') ->
  exists r buf h1,
    _request hS md login pass h = Ok ((r, buf), h1)
    /\ ((st = MSTATE_EXITING
         /\ passResults h' = passResults h /\ iResult h' = iResult h)
        \/ (st = MSTATE_EXITING
            /\ iResult h' = LOGIN_RESULT_UNKNOWN
            /\ passResults h' = (pass, LOGIN_RESULT_UNKNOWN) :: passResults h)
        \/ (st = MSTATE_NEW
            /\ is_redirect (parseHttpStatusCode buf) = true
            /\ passResults h' = passResults h /\ iResult h' = iResult h)
        \/ (st = MSTATE_NEW
            /\ parseHttpStatusCode buf = HTTP_OK
            /\ (iResult h' = LOGIN_RESULT_SUCCESS \/ iResult h' = LOGIN_RESULT_FAIL)
            /\ passResults h' = (pass, iResult h') :: passResults h)).
Proof.
  intros H.
  destruct (tryLogin_effect _ _ _ _ _ _ _ _ H)
    as (r & buf & h1 & Hreq & _ & _ & _ & _ & _ & _ & Hcase).
  exists r, buf, h1. split; [exact Hreq |].
  destruct (_request_effect _ _ _ _ _ _ _ _ Hreq)
    as (_ & _ & _ & [(_ & -> & -> & _) | (rq & n & _ & _ & [(-> & Hi & Hp & _)
                                                          | (_ & _ & Hi & Hp)])]).
  - destruct Hcase as [(-> & -> & _) | [(_ & _ & _ & Hred)
                       | [(_ & _ & Hne & _) | (_ & _ & Hok & _)]]].
    + left. auto.
    + discriminate Hred.
    + now contradiction Hne.
    + discriminate Hok.
  - destruct Hcase as [(-> & -> & _) | [(_ & _ & _ & Hred)
                       | [(_ & _ & Hne & _) | (_ & _ & Hok & _)]]].
    + right; left. auto.
    + discriminate Hred.
    + now contradiction Hne.
    + discriminate Hok.
  - destruct Hcase as [(-> & -> & _) | [(-> & -> & _ & Hred)
                       | [(-> & _ & _ & _ & Hu & Hr) | (-> & _ & Hok & Hv & Hr)]]].
    + left. auto.
    + right; right; left. auto.
    + right; left. rewrite Hr, Hp. auto.
    + right; right; right. rewrite Hr, Hp. auto.
Qed.

(** X5. [tryLogin] records at most one verdict, for the password it
    was given, and leaves [iResult] alone when it records none.  A verdict
    recorded on the way to [MSTATE_EXITING] is UNKNOWN; one recorded on the
    way to [MSTATE_NEW] is SUCCESS or FAIL and follows a 200 OK.  A redirect
    that is followed records nothing. *)
Theorem tryLogin_verdict (hS : Z) (md md' : ModuleDataT) (login pass : string)
    (h h' : Host) (st : ModuleStateT) :
  tryLogin hS md login pass h = Ok ((st, md'), h') ->
  (passResults h' = passResults h /\ iResult h' = iResult h)
  \/ (passResults h' = (pass, iResult h') :: passResults h
      /\ (st = MSTATE_EXITING -> iResult h' = LOGIN_RESULT_UNKNOWN)
      /\ (st = MSTATE_NEW ->
          (iResult h' = LOGIN_RESULT_SUCCESS \/ iResult h' = LOGIN_RESULT_FAIL)
          /\ exists r buf h1,
               _request hS md login pass h = Ok ((r, buf), h1)
               /\ parseHttpStatusCode buf = HTTP_OK)).
Proof.
  intros H.
  destruct (tryLogin_outcomes _ _ _ _ _ _ _ _ H)
    as (r & buf & h1 & Hreq & [(_ & Hp & Hi) | [(-> & Hi & Hp)
                               | [(_ & _ & Hp & Hi) | (-> & Hok & Hv & Hp)]]]).
  - left. now split.
  - right. rewrite Hi. split; [exact Hp |]. split; [reflexivity |].
    intros E. discriminate E.
  - left. now split.
  - right. split; [exact Hp |]. split; [intros E; discriminate E |].
    intros _. split; [exact Hv |]. now exists r, buf, h1.
Qed.

(** X6. What [tryLogin] does to the host: it takes no credentials, makes
    and closes no connection, reads lines from the front of what the host
    delivers, and sends one request, the one [prepareRequestString] builds
    for the record and the credentials it was given.  Only a form of
    unknown type sends nothing, and then the host is left as it was. *)
Theorem tryLogin_host_frame (hS : Z) (md md' : ModuleDataT) (login pass : string)
    (h h' : Host) (st : ModuleStateT) :
  tryLogin hS md login pass h = Ok ((st, md'), h') ->
  credentials h' = credentials h
  /\ connects h' = connects h
  /\ disconnected h' = disconnected h
  /\ (exists read, lines h = (read ++ lines h')%list)
  /\ ((formType md = FORM_UNKNOWN /\ h' = h /\ st = MSTATE_EXITING)
      \/ exists rq n,
           prepareRequestString md login pass = Ok (rq, n)
           /\ sent h' = (rq, n) :: sent h).
Proof.
  intros H.
  destruct (tryLogin_effect _ _ _ _ _ _ _ _ H)
    as (r & buf & h1 & Hreq & Hc & Hn & _ & Hs & Hd & [read Hl] & Hcase).
  destruct (_request_effect _ _ _ _ _ _ _ _ Hreq) as (Hc1 & Hn1 & Hd1 & Hr).
  rewrite Hc, Hn, Hd, Hs. repeat split; auto.
  - destruct Hr as [(_ & -> & _) | (rq & n & _ & _ & [(_ & _ & _ & [E | E])
                                                     | (_ & (b & _ & E) & _)])].
    + now exists read.
    + exists read. now rewrite <- E.
    + exists (None :: read). rewrite E, Hl. reflexivity.
    + exists (Some b :: read). rewrite E, Hl. reflexivity.
  - destruct Hr as [(Hf & -> & -> & _) | (rq & n & Hp & Hsent & _)].
    + left. split; [exact Hf |].
      destruct Hcase as [(-> & -> & _) | [(_ & _ & _ & Hred)
                         | [(_ & _ & Hne & _) | (_ & _ & Hok & _)]]].
      * now split.
      * discriminate Hred.
      * now contradiction Hne.
      * discriminate Hok.
    + right. now exists rq, n.
Qed.

(** ** What [tryLogin] does to the record *)

Lemma same_form_refl (md : ModuleDataT) : same_form md md.
Proof. unfold same_form. tauto. Qed.

Lemma same_form_trans (a b c : ModuleDataT) :
  same_form a b -> same_form b c -> same_form a c.
Proof.
  unfold same_form. intros (?&?&?&?&?&?&?&?) (?&?&?&?&?&?&?&?).
  repeat split; congruence.
Qed.

Lemma _resolveLocationPath_form (loc : option string) (md md1 : ModuleDataT) :
  _resolveLocationPath loc md = Ok md1 ->
  same_form md1 md
  /\ (hostHeader md1 = hostHeader md
      \/ exists l, loc = Some l
                   /\ _pathType (Some (strip_parameters l)) = PATHTYPE_URI
                   /\ hostHeader md1 = Some (strip_parameters l)
                   /\ resourcePath md1 = Some (strip_parameters l)).
Proof.
  unfold _resolveLocationPath. intros H.
  destruct loc as [l |]; [| discriminate H].
  destruct (_pathType (Some (strip_parameters l))) eqn:E; invert_ok;
    (split; [apply same_form_refl || (unfold same_form; cbn; tauto) |]);
    try (now left).
  right. exists l. repeat split. exact E.
Qed.

Lemma change_method_form (statusCode : HttpStatusCodeT) (md : ModuleDataT) :
  same_form (change_method statusCode md) md
  /\ hostHeader (change_method statusCode md) = hostHeader md.
Proof.
  unfold change_method.
  destruct (FormTypeT_eqb (formType md) FORM_POST && is_301_or_302 statusCode);
    unfold same_form; cbn; tauto.
Qed.

Lemma restore_request_form (md : ModuleDataT) :
  same_form (if changedRequestType md then restore_request md else md) md
  /\ hostHeader (if changedRequestType md then restore_request md else md)
     = hostHeader md.
Proof.
  destruct (changedRequestType md); unfold same_form; cbn; tauto.
Qed.

Lemma tryLogin_same_form (hS : Z) (md md' : ModuleDataT) (login pass : string)
    (h h' : Host) (st : ModuleStateT) :
  tryLogin hS md login pass h = Ok ((st, md'), h') ->
  same_form md' md
  /\ (hostHeader md' = hostHeader md \/ exists hh, hostHeader md' = Some hh).
Proof.
  intros H.
  destruct (tryLogin_record _ _ _ _ _ _ _ _ H)
    as (r & buf & h1 & Hreq & [(_ & ->) | [(_ & _ & ->)
                                         | (_ & _ & loc & md1 & md2 & _ & H1 & H2 & ->)]]).
  - split; [apply same_form_refl | now left].
  - destruct (restore_request_form md) as [Hs Hh]. split; [exact Hs | now left].
  - destruct (_resolveLocationPath_form _ _ _ H1) as [Hs1 Hh1].
    destruct (_setCookiesFromResponse_frame _ _ _ H2) as [jar ->].
    destruct (change_method_form (parseHttpStatusCode buf) (set_cookieJar jar md1))
      as [Hs2 Hh2].
    assert (Hs3 : same_form (set_cookieJar jar md1) md1)
      by (unfold same_form; cbn; tauto).
    split; [exact (same_form_trans _ _ _ Hs2 (same_form_trans _ _ _ Hs3 Hs1)) |].
    rewrite Hh2. cbn [hostHeader set_cookieJar].
    destruct Hh1 as [E | (l & _ & _ & E & _)]; [now left | right; eauto].
Qed.

(** X7. What [tryLogin] does to the record: the user agent, the deny
    signal, the form data, its keys and rest, and the custom headers are
    only read.  On the way to [MSTATE_EXITING] the whole record is as it
    was.  The host header is as it was unless the line that [_request] has
    received is a redirect whose Location, cut at its question mark, is a
    URI and [tryLogin] follows it to [MSTATE_NEW]; then, and whenever such
    a redirect is followed, the host header and the resource path are that
    Location without its query, scheme and path included. *)
Theorem tryLogin_record_frame (hS : Z) (md md' : ModuleDataT) (login pass : string)
    (h h' : Host) (st : ModuleStateT) :
  tryLogin hS md login pass h = Ok ((st, md'), h') ->
  same_form md' md
  /\ (st = MSTATE_EXITING \/ st = MSTATE_NEW)
  /\ (st = MSTATE_EXITING -> md' = md)
  /\ exists (r : Z) (buf : option string) (h1 : Host),
       _request hS md login pass h = Ok ((r, buf), h1)
       /\ (hostHeader md' = hostHeader md
           \/ (st = MSTATE_NEW
               /\ is_redirect (parseHttpStatusCode buf) = true
               /\ exists loc : string,
                    findLocationHeaderValue buf = Ok (Some loc)
                    /\ _pathType (Some (strip_parameters loc)) = PATHTYPE_URI
                    /\ hostHeader md' = Some (strip_parameters loc)
                    /\ resourcePath md' = Some (strip_parameters loc)))
       /\ (st = MSTATE_NEW ->
           is_redirect (parseHttpStatusCode buf) = true ->
           forall loc : string,
             findLocationHeaderValue buf = Ok (Some loc) ->
             _pathType (Some (strip_parameters loc)) = PATHTYPE_URI ->
             hostHeader md' = Some (strip_parameters loc)
             /\ resourcePath md' = Some (strip_parameters loc)).
Proof.
  intros H. split; [exact (proj1 (tryLogin_same_form _ _ _ _ _ _ _ _ H)) |].
  destruct (tryLogin_record _ _ _ _ _ _ _ _ H)
    as (r & buf & h1 & Hreq & [(-> & ->) | [(-> & Hok & ->)
                                         | (-> & Hred & loc & md1 & md2 & Hl & H1 & H2 & ->)]]).
  - split; [now left |]. split; [reflexivity |].
    exists r, buf, h1. split; [exact Hreq |]. split; [now left |].
    intros E. discriminate E.
  - split; [now right |]. split; [discriminate |].
    exists r, buf, h1. split; [exact Hreq |].
    split; [left; exact (proj2 (restore_request_form md)) |].
    intros _ Hred. rewrite Hok in Hred. discriminate Hred.
  - split; [now right |]. split; [discriminate |].
    exists r, buf, h1. split; [exact Hreq |].
    destruct (_setCookiesFromResponse_frame _ _ _ H2) as [jar ->].
    assert (Eh : hostHeader (change_method (parseHttpStatusCode buf)
                               (set_cookieJar jar md1)) = hostHeader md1)
      by (rewrite (proj2 (change_method_form _ _)); reflexivity).
    assert (Er : resourcePath (change_method (parseHttpStatusCode buf)
                                 (set_cookieJar jar md1)) = resourcePath md1)
      by (unfold change_method; destruct (FormTypeT_eqb _ _ && _); reflexivity).
    rewrite Eh, Er. split.
    + destruct (_resolveLocationPath_form _ _ _ H1) as [_ [E | (l & El & Hu & Ehh & Ep)]];
        [now left | right].
      inversion El; subst l.
      split; [reflexivity |]. split; [exact Hred |]. now exists loc.
    + intros _ _ loc' Hl' Hu. rewrite Hl in Hl'. inversion Hl'; subst loc'.
      unfold _resolveLocationPath in H1. rewrite Hu in H1.
      inversion H1; subst md1. split; reflexivity.
Qed.

(** ** A turn that does not run into undefined behaviour *)

Lemma prepareRequestString_returns (md : ModuleDataT) (login pass rp : string) :
  configured md ->
  resourcePath md = Some rp ->
  changedRequestType md = true
  \/ high_bytes_early (list_ascii_of_string pass) = true ->
  exists rq n, prepareRequestString md login pass = Ok (Some rq, n).
Proof.
  intros ((hh & ua & d & uk & pk & ch & cj & Hh & Ha & _ & Hu & Hk & _ & _ & Hc & Hj)
          & Hf & _) Hr Hp.
  assert (HG : forall params,
            exists rq n',
              rbind (GET_REQUEST_FMT_STR (resourcePath md) (Some params)
                       (hostHeader md) (userAgentHeader md)
                       (customHeaders md) (cookieJar md))
                    (fun r => Ok (Some r, strlen r)) = Ok (Some rq, n')).
  { intros params. unfold GET_REQUEST_FMT_STR.
    rewrite Hr, Hh, Ha, Hc, Hj. cbn [fmt_s rbind]. eauto. }
  assert (HP : forall params n,
            exists rq n',
              rbind (POST_REQUEST_FMT_STR (resourcePath md) (hostHeader md)
                       (userAgentHeader md) (customHeaders md) (cookieJar md)
                       n (Some params))
                    (fun r => Ok (Some r, strlen r)) = Ok (Some rq, n')).
  { intros params n. unfold POST_REQUEST_FMT_STR.
    rewrite Hr, Hh, Ha, Hc, Hj. cbn [fmt_s rbind]. eauto. }
  unfold prepareRequestString.
  destruct (changedRequestType md).
  - cbn [rbind]. destruct Hf as [-> | ->]; [apply HP | apply HG].
  - destruct Hp as [Hp | Hp]; [discriminate Hp |].
    unfold prepareRequestParamString.
    destruct (urlencodeup_cases pass) as [[_ E] | ->]; [congruence |].
    rewrite Hu, Hk. cbn [rbind fmt_s].
    destruct Hf as [-> | ->]; cbn [rbind]; [apply HP | apply HG].
Qed.

Lemma _request_returns (hS : Z) (md : ModuleDataT) (login pass rp : string) (h : Host) :
  configured md ->
  resourcePath md = Some rp ->
  changedRequestType md = true
  \/ high_bytes_early (list_ascii_of_string pass) = true ->
  exists r buf h1, _request hS md login pass h = Ok ((r, buf), h1).
Proof.
  intros Hc Hr Hp.
  destruct (prepareRequestString_returns md login pass rp Hc Hr Hp) as (rq & n & E).
  destruct Hc as (_ & Hf & _).
  unfold _request, _sendRequest.
  destruct Hf as [-> | ->]; rewrite E; unfold_host;
    (destruct (sends h); cbn; [eauto |]);
    (destruct (_ <? 0); cbn; [eauto |]);
    destruct (lines h) as [| [ln |] lns]; cbn; eauto.
Qed.

(** X8. A turn of [tryLogin] that meets no redirect runs into no
    undefined behaviour and no [abort()] on a response that ends.  The
    record is as [MSTATE_INITIALIZE] leaves it, with a resource path; the
    password either is not encoded (a request whose method was changed) or
    has every byte above 127 at least two bytes before its end; the line the
    host delivers next is no redirect.  Then every pointer printed into the
    request is set, the encoder stays within its buffer, the deny signal
    searched for is set, and the lines of the host, which are finitely many,
    are read to the first that is absent or empty at most: [tryLogin]
    returns. *)
Theorem tryLogin_defined (hS : Z) (md : ModuleDataT) (login pass rp : string) (h : Host) :
  configured md ->
  resourcePath md = Some rp ->
  changedRequestType md = true
  \/ high_bytes_early (list_ascii_of_string pass) = true ->
  match lines h with
  | buf :: _ => is_redirect (parseHttpStatusCode buf) = false
  | [] => True
  end ->
  exists st md' h', tryLogin hS md login pass h = Ok ((st, md'), h').
Proof.
  intros Hc Hrp Hp Hline.
  destruct (_request_returns hS md login pass rp h Hc Hrp Hp) as (r & buf & h1 & Hreq).
  destruct Hc as ((hh & ua & d & uk & pk & ch & cj & _ & _ & Hd & _) & _).
  destruct (Z.eqb_spec r 0) as [-> | Hr].
  { rewrite (tryLogin_no_data _ _ _ _ _ _ _ Hreq). eauto. }
  destruct (parseHttpStatusCode buf) eqn:Es.
  2-5: exfalso;
       assert (Hne : parseHttpStatusCode buf <> HTTP_STATUS_PARSE_ERR)
         by (rewrite Es; discriminate);
       destruct (parse_status_buffer buf Hne) as [b ->];
       rewrite (_request_line _ _ _ _ _ _ _ _ Hreq) in Hline;
       rewrite Es in Hline; discriminate Hline.
  - rewrite (tryLogin_ok _ _ _ _ _ _ _ _ Hreq Es). cbv zeta.
    rewrite restore_request_denySignal, Hd.
    destruct (deny_scan_found d (lines h1) buf) as [rest ->]. cbn [rbind]. eauto.
  - rewrite (tryLogin_refused _ _ _ _ _ _ _ _ Hreq);
      try (rewrite Es; first [discriminate | reflexivity]). eauto.
  - rewrite (tryLogin_refused _ _ _ _ _ _ _ _ Hreq);
      try (rewrite Es; first [discriminate | reflexivity]). eauto.
  - rewrite (tryLogin_refused _ _ _ _ _ _ _ _ Hreq);
      try (rewrite Es; first [discriminate | reflexivity]). eauto.
  - rewrite (tryLogin_refused _ _ _ _ _ _ _ _ Hreq);
      try (rewrite Es; first [discriminate | reflexivity]). eauto.
  - rewrite (tryLogin_refused _ _ _ _ _ _ _ _ Hreq);
      try (rewrite Es; first [discriminate | reflexivity]). eauto.
  - rewrite (tryLogin_parse_error _ _ _ _ _ _ _ _ Hreq Es). eauto.
Qed.

(** ** Tokens *)

Lemma take_token_app (delim : ascii -> bool) (tok : string) (d : ascii) (rest : string) :
  free_of delim tok = true -> delim d = true ->
  take_token delim (tok ++ String d rest) = (tok, rest).
Proof.
  intros Hf Hd. induction tok as [| c tok IH].
  - cbn [append take_token]. now rewrite Hd.
  - cbn [free_of] in Hf. apply andb_true_iff in Hf. destruct Hf as [Hc Hf].
    apply negb_true_iff in Hc.
    cbn [append take_token]. now rewrite Hc, (IH Hf).
Qed.

Lemma take_token_end (delim : ascii -> bool) (tok : string) :
  free_of delim tok = true -> take_token delim tok = (tok, EmptyString).
Proof.
  intros Hf. induction tok as [| c tok IH]; [reflexivity |].
  cbn [free_of] in Hf. apply andb_true_iff in Hf. destruct Hf as [Hc Hf].
  apply negb_true_iff in Hc.
  cbn [take_token]. now rewrite Hc, (IH Hf).
Qed.

Lemma token_cons (delim : ascii -> bool) (tok : string) :
  token delim tok = true ->
  exists c r, tok = String c r /\ delim c = false /\ free_of delim tok = true.
Proof.
  unfold token. destruct tok as [| c r]; [discriminate |].
  cbn [String.eqb negb andb free_of]. intros H.
  exists c, r. split; [reflexivity |].
  apply andb_true_iff in H. destruct H as [Hc Hr].
  apply negb_true_iff in Hc. cbn [free_of]. now rewrite Hc, Hr.
Qed.

Lemma strtok_r_token (delim : ascii -> bool) (tok : string) (d : ascii) (rest : string) :
  token delim tok = true -> delim d = true ->
  strtok_r (tok ++ String d rest) delim = Some (tok, rest).
Proof.
  intros Ht Hd. destruct (token_cons _ _ Ht) as (c & r & -> & Hc & Hf).
  unfold strtok_r. cbn [append skip_delims]. rewrite Hc.
  change (String c (r ++ String d rest)) with (String c r ++ String d rest).
  now rewrite (take_token_app _ _ _ _ Hf Hd).
Qed.

Lemma strtok_r_last (delim : ascii -> bool) (tok : string) :
  token delim tok = true -> strtok_r tok delim = Some (tok, EmptyString).
Proof.
  intros Ht. destruct (token_cons _ _ Ht) as (c & r & -> & Hc & Hf).
  unfold strtok_r. cbn [skip_delims]. rewrite Hc.
  now rewrite (take_token_end _ _ Hf).
Qed.

Lemma take_token_nonempty (delim : ascii -> bool) (c : ascii) (r tok rest : string) :
  delim c = false -> take_token delim (String c r) = (tok, rest) ->
  tok <> EmptyString.
Proof.
  intros Hc. cbn [take_token]. rewrite Hc.
  destruct (take_token delim r). intros H. inversion H. discriminate.
Qed.

Lemma skip_delims_stop (delim : ascii -> bool) (s : string) :
  match skip_delims delim s with
  | String c _ => delim c = false
  | EmptyString => True
  end.
Proof.
  induction s as [| c s IH]; [exact I |].
  cbn [skip_delims]. destruct (delim c) eqn:E; [exact IH | exact E].
Qed.

Lemma strtok_r_nonempty (delim : ascii -> bool) (s tok rest : string) :
  strtok_r s delim = Some (tok, rest) -> tok <> EmptyString.
Proof.
  unfold strtok_r. pose proof (skip_delims_stop delim s) as Hs.
  destruct (skip_delims delim s) as [| c r]; [discriminate |].
  intros H. apply (take_token_nonempty delim c r tok rest Hs).
  now inversion H.
Qed.

Lemma next_token_nonempty (delim : ascii -> bool) (s tok rest : string) :
  next_token delim s = (Some tok, rest) -> tok <> EmptyString.
Proof.
  unfold next_token. destruct (strtok_r s delim) as [[t r] |] eqn:E; [| discriminate].
  intros H. inversion H; subst. exact (strtok_r_nonempty _ _ _ _ E).
Qed.

Lemma through_first_token_token (delim : ascii -> bool) (tok : string) (d : ascii)
    (rest : string) :
  token delim tok = true -> delim d = true ->
  through_first_token delim (tok ++ String d rest) = tok.
Proof.
  intros Ht Hd. destruct (token_cons _ _ Ht) as (c & r & -> & Hc & Hf).
  cbn [append through_first_token]. rewrite Hc.
  change (String c (r ++ String d rest)) with (String c r ++ String d rest).
  now rewrite (take_token_app _ _ _ _ Hf Hd).
Qed.

Lemma free_of_no_delimiter (s : string) : free_of no_delimiter s = true.
Proof.
  induction s as [| c s IH]; [reflexivity | exact IH].
Qed.

(** [strtok_r] with the empty set of delimiters: the rest of the text, or
    NULL at its end. *)
Lemma next_token_rest (s : string) :
  next_token no_delimiter s
  = (match s with
     | EmptyString => None
     | String _ _ => Some s
     end, EmptyString).
Proof.
  destruct s as [| c r]; [reflexivity |].
  unfold next_token, strtok_r. cbn [skip_delims no_delimiter].
  now rewrite (take_token_end _ _ (free_of_no_delimiter (String c r))).
Qed.

(** ** MSTATE_INITIALIZE *)

Lemma parse_formData_form_data (method user pass : string) (rest : option string)
    (md : ModuleDataT) :
  token is_question_mark method = true ->
  token is_ampersand user = true ->
  token is_ampersand pass = true ->
  parse_formData (form_data method user pass rest) md
  = Ok (set_formRest (or_else (stored_rest rest) (formRest md))
          (set_formPassKey (Some pass)
             (set_formUserKey (Some user)
                (set_formType
                   (if case_equal method POST_STR then FORM_POST
                    else if case_equal method GET_STR then FORM_GET
                    else FORM_UNKNOWN)
                   (set_formData (Some method) md))))).
Proof.
  intros Hm Hu Hp. unfold parse_formData, form_data.
  cbn [append].
  rewrite (strtok_r_token is_question_mark method "?"%char _ Hm eq_refl).
  rewrite (through_first_token_token is_question_mark method "?"%char _ Hm eq_refl).
  unfold next_token at 1.
  rewrite (strtok_r_token is_ampersand user "&"%char _ Hu eq_refl).
  destruct rest as [r |].
  - cbn [append]. unfold next_token at 1.
    rewrite (strtok_r_token is_ampersand pass "&"%char _ Hp eq_refl).
    rewrite next_token_rest. destruct r as [| c r]; reflexivity.
  - assert (E : pass ++ "" = pass).
    { clear. induction pass as [| c p IH]; [reflexivity |]. cbn. now rewrite IH. }
    rewrite E. unfold next_token at 1.
    rewrite (strtok_r_last _ _ Hp). reflexivity.
Qed.

Lemma initialize_parsed (srv : sServer) (port : Z) (form0 : FormTypeT)
    (form deny agent custom : option string) (n : Z)
    (method user pass : string) (rest : option string) :
  token is_question_mark method = true ->
  token is_ampersand user = true ->
  token is_ampersand pass = true ->
  initialize srv port
    (go_moduleData form0 form deny (Some (form_data method user pass rest))
       agent custom n)
  = let ft := if case_equal method POST_STR then FORM_POST
              else if case_equal method GET_STR then FORM_GET
              else FORM_UNKNOWN in
    let known := negb (FormTypeT_eqb ft FORM_UNKNOWN) in
    Ok (mkModuleData (or_else form (Some "/")) None
          (Some (pHost srv ++ ":" ++ fmt_d port))
          (or_else agent (Some MODULE_DEFAULT_USER_AGENT))
          (or_else deny (Some MODULE_DEFAULT_DENY_SIGNAL))
          (Some method)
          (if known then stored_rest rest else Some EmptyString)
          (Some (if known then user else MODULE_DEFAULT_USERNAME_KEY))
          (Some (if known then pass else MODULE_DEFAULT_PASSWORD_KEY))
          (or_else custom (Some EmptyString)) n (Some EmptyString)
          (if known then ft else FORM_POST) false).
Proof.
  intros Hm Hu Hp.
  assert (E : forall md,
             parse_formData (form_data method user pass rest) md
             = Ok (set_formRest (or_else (stored_rest rest) (formRest md))
                     (set_formPassKey (Some pass)
                        (set_formUserKey (Some user)
                           (set_formType
                              (if case_equal method POST_STR then FORM_POST
                               else if case_equal method GET_STR then FORM_GET
                               else FORM_UNKNOWN)
                              (set_formData (Some method) md))))))
    by (intros md; now apply parse_formData_form_data).
  generalize dependent (form_data method user pass rest). intros fd E.
  generalize dependent (case_equal method POST_STR). intros bp.
  generalize dependent (case_equal method GET_STR). intros bg E.
  generalize dependent (stored_rest rest). intros sr E.
  unfold initialize.
  destruct form, agent, deny, custom; cbn -[parse_formData]; rewrite E; cbn [rbind];
    destruct bp, bg, sr; reflexivity.
Qed.

(** X9. FORM-DATA as [MSTATE_INITIALIZE] reads it.  For a text
    [method?user&pass] or [method?user&pass&rest] whose method holds no
    question mark and whose keys hold no ampersand, none of them empty: a
    method that is get or post in any case gives that form type, the two
    keys as they stand and the rest, a rest that is missing or empty being
    stored as NULL; any other method gives a POST form with the default
    keys and an empty rest, the keys of the text being dropped.  What is left
    in [formData] is the method. *)
Theorem initialize_form_data (srv : sServer) (port : Z) (form0 : FormTypeT)
    (form deny agent custom : option string) (n : Z)
    (method user pass : string) (rest : option string) :
  token is_question_mark method = true ->
  token is_ampersand user = true ->
  token is_ampersand pass = true ->
  exists md' : ModuleDataT,
    initialize srv port
      (go_moduleData form0 form deny (Some (form_data method user pass rest))
         agent custom n)
    = Ok md'
    /\ formData md' = Some method
    /\ (case_equal method POST_STR = true ->
        formType md' = FORM_POST /\ formUserKey md' = Some user
        /\ formPassKey md' = Some pass /\ formRest md' = stored_rest rest)
    /\ (case_equal method GET_STR = true ->
        formType md' = FORM_GET /\ formUserKey md' = Some user
        /\ formPassKey md' = Some pass /\ formRest md' = stored_rest rest)
    /\ (case_equal method POST_STR = false -> case_equal method GET_STR = false ->
        formType md' = FORM_POST
        /\ formUserKey md' = Some MODULE_DEFAULT_USERNAME_KEY
        /\ formPassKey md' = Some MODULE_DEFAULT_PASSWORD_KEY
        /\ formRest md' = Some EmptyString).
Proof.
  intros Hm Hu Hp.
  rewrite (initialize_parsed srv port form0 form deny agent custom n
             method user pass rest Hm Hu Hp).
  cbv zeta.
  assert (Hx : case_equal method POST_STR = true -> case_equal method GET_STR = true ->
               False).
  { intros H1 H2. apply case_equal_length in H1, H2. rewrite H1 in H2. discriminate H2. }
  revert Hx.
  generalize (case_equal method POST_STR) as bp.
  generalize (case_equal method GET_STR) as bg.
  intros bg bp Hx.
  destruct bp, bg; cbn; eexists; (split; [reflexivity |]); cbn;
    repeat split; intros; try discriminate; try reflexivity;
    exfalso; apply Hx; reflexivity.
Qed.

Lemma parse_formData_shape (fd : string) (md md1 : ModuleDataT) :
  parse_formData fd md = Ok md1 ->
  exists (ft : FormTypeT) (user pass more : option string) (method : string),
    md1 = set_formRest (or_else more (formRest md))
            (set_formPassKey (or_else pass (formPassKey md))
               (set_formUserKey (or_else user (formUserKey md))
                  (set_formType ft (set_formData (Some method) md))))
    /\ (forall u, user = Some u -> u <> EmptyString)
    /\ (forall p, pass = Some p -> p <> EmptyString).
Proof.
  unfold parse_formData. intros H.
  destruct (strtok_r fd is_question_mark) as [[pTemp rest] |]; [| discriminate H].
  destruct (next_token is_ampersand rest) as [user rest1] eqn:Eu.
  destruct (next_token is_ampersand rest1) as [pass rest2] eqn:Ep.
  destruct (next_token no_delimiter rest2) as [more rest3].
  invert_ok. do 5 eexists. split; [reflexivity |]. split.
  - intros u ->. exact (next_token_nonempty _ _ _ _ Eu).
  - intros p ->. exact (next_token_nonempty _ _ _ _ Ep).
Qed.

Lemma initialize_form_keys (md md1 : ModuleDataT) :
  formUserKey md = None -> formPassKey md = None ->
  match formData md with
  | None => Ok (default_form md)
  | Some fd =>
      rbind (if is_null (formUserKey md) then parse_formData fd md else Ok md)
        (fun md =>
           if FormTypeT_eqb (formType md) FORM_UNKNOWN
              || is_null (formUserKey md) || is_null (formPassKey md)
           then Ok (default_form md)
           else Ok md)
  end = Ok md1 ->
  (hostHeader md1 = hostHeader md
   /\ userAgentHeader md1 = userAgentHeader md
   /\ denySignal md1 = denySignal md
   /\ customHeaders md1 = customHeaders md
   /\ nCustomHeaders md1 = nCustomHeaders md
   /\ cookieJar md1 = cookieJar md)
  /\ (exists uk pk, formUserKey md1 = Some uk /\ formPassKey md1 = Some pk
                    /\ uk <> EmptyString /\ pk <> EmptyString)
  /\ (formData md = None -> md1 = default_form md).
Proof.
  intros Hk Hk' H.
  assert (Hd : forall m : ModuleDataT,
            exists uk pk, formUserKey (default_form m) = Some uk
                          /\ formPassKey (default_form m) = Some pk
                          /\ uk <> EmptyString /\ pk <> EmptyString).
  { intros m. do 2 eexists. repeat split; discriminate. }
  destruct (formData md) as [fd |].
  - rewrite Hk in H. cbn [is_null] in H.
    destruct (parse_formData fd md) as [m | |] eqn:Ep; cbn [rbind] in H;
      try discriminate H.
    apply parse_formData_shape in Ep.
    destruct Ep as (ft & user & pass & more & method & -> & Hu & Hp).
    cbn [formUserKey formPassKey set_formRest set_formPassKey set_formUserKey
         set_formType set_formData] in H.
    rewrite Hk, Hk' in H.
    split; [| split; [| discriminate]].
    + destruct ft, user as [u |], pass as [p |]; cbn in H; invert_ok;
        repeat split.
    + destruct ft, user as [u |], pass as [p |]; cbn in H; invert_ok;
        try apply Hd; exists u, p; repeat split; auto.
  - invert_ok. split; [repeat split |]. split; [apply Hd | reflexivity].
Qed.

(** The record after [MSTATE_INITIALIZE], field by field. *)
Lemma initialize_go_fields (srv : sServer) (port : Z) (form0 : FormTypeT)
    (form deny data agent custom : option string) (n : Z) (md' : ModuleDataT) :
  initialize srv port (go_moduleData form0 form deny data agent custom n) = Ok md' ->
  exists (fd fr : option string) (uk pk : string) (ft : FormTypeT),
    md' = mkModuleData (or_else form (Some "/")) None
            (Some (pHost srv ++ ":" ++ fmt_d port))
            (or_else agent (Some MODULE_DEFAULT_USER_AGENT))
            (or_else deny (Some MODULE_DEFAULT_DENY_SIGNAL))
            fd fr (Some uk) (Some pk)
            (or_else custom (Some EmptyString)) n (Some EmptyString) ft false
    /\ (ft = FORM_POST \/ ft = FORM_GET)
    /\ uk <> EmptyString /\ pk <> EmptyString
    /\ (data = None ->
        ft = FORM_POST /\ uk = MODULE_DEFAULT_USERNAME_KEY
        /\ pk = MODULE_DEFAULT_PASSWORD_KEY /\ fr = Some EmptyString).
Proof.
  unfold initialize. intros H.
  set (md0 := if is_null (resourcePath _) then _ else _) in H.
  set (md1 := if is_null (hostHeader md0) then _ else md0) in H.
  assert (E1 : md1 = mkModuleData (or_else form (Some "/")) None
                       (Some (pHost srv ++ ":" ++ fmt_d port)) agent deny data
                       None None None custom n None form0 false)
    by (unfold md1, md0; destruct form; reflexivity).
  clearbody md1. clear md0. subst md1.
  match type of H with rbind ?x _ = _ => destruct x as [md2 | |] eqn:Hform end;
    cbn [rbind] in H; try discriminate H.
  destruct (initialize_form _ _ Hform) as (F0 & F1 & F2 & F3).
  apply initialize_form_keys in Hform; [| reflexivity | reflexivity].
  destruct Hform
    as ((G1 & G2 & G3 & G4 & G5 & G6) & (uk & pk & K1 & K2 & K3 & K4) & Hnone).
  cbn in F1, F2, F3, G1, G2, G3, G4, G5, G6, Hnone.
  assert (Hdef : data = None ->
                 formType md2 = FORM_POST
                 /\ formUserKey md2 = Some MODULE_DEFAULT_USERNAME_KEY
                 /\ formPassKey md2 = Some MODULE_DEFAULT_PASSWORD_KEY
                 /\ formRest md2 = Some EmptyString).
  { intros E. rewrite (Hnone E). repeat split. }
  clear Hnone.
  destruct md2 as [rp rpo hh ua ds fd fr fu fp ch nc cj ft crt].
  cbn in F0, F1, F2, F3, G1, G2, G3, G4, G5, G6, K1, K2, Hdef. subst.
  exists fd, fr, uk, pk, ft.
  split; [destruct agent, deny, custom; cbn in H; invert_ok; reflexivity |].
  split; [exact F0 |]. split; [exact K3 |]. split; [exact K4 |].
  intros E. destruct (Hdef E) as (D1 & D2 & D3 & D4).
  inversion D2. inversion D3. auto.
Qed.

(** X10. [MSTATE_INITIALIZE] on the record [go] hands over: an option
    of the user is kept and a missing one gets its default, the host header
    is the host and the port, the cookie jar is empty, no redirect is under
    way, and the form is POST or GET with two keys that are present and not
    empty.  Without FORM-DATA the form is POST with the default keys and an
    empty rest. *)
Theorem initialize_defaults (srv : sServer) (port : Z) (form0 : FormTypeT)
    (form deny data agent custom : option string) (n : Z) (md' : ModuleDataT) :
  initialize srv port (go_moduleData form0 form deny data agent custom n) = Ok md' ->
  resourcePath md' = or_else form (Some "/")
  /\ hostHeader md' = Some (pHost srv ++ ":" ++ fmt_d port)
  /\ userAgentHeader md' = or_else agent (Some MODULE_DEFAULT_USER_AGENT)
  /\ denySignal md' = or_else deny (Some MODULE_DEFAULT_DENY_SIGNAL)
  /\ customHeaders md' = or_else custom (Some EmptyString)
  /\ nCustomHeaders md' = n
  /\ cookieJar md' = Some EmptyString
  /\ resourcePathOld md' = None
  /\ changedRequestType md' = false
  /\ (formType md' = FORM_POST \/ formType md' = FORM_GET)
  /\ (exists uk pk, formUserKey md' = Some uk /\ formPassKey md' = Some pk
                    /\ uk <> EmptyString /\ pk <> EmptyString)
  /\ (data = None ->
      formType md' = FORM_POST
      /\ formUserKey md' = Some MODULE_DEFAULT_USERNAME_KEY
      /\ formPassKey md' = Some MODULE_DEFAULT_PASSWORD_KEY
      /\ formRest md' = Some EmptyString).
Proof.
  intros H.
  destruct (initialize_go_fields _ _ _ _ _ _ _ _ _ _ H)
    as (fd & fr & uk & pk & ft & -> & Hf & Hu & Hp & Hd).
  cbn [resourcePath hostHeader userAgentHeader denySignal customHeaders
       nCustomHeaders cookieJar resourcePathOld changedRequestType formType
       formUserKey formPassKey formRest].
  do 9 (split; [reflexivity |]).
  split; [exact Hf |].
  split; [now exists uk, pk |].
  intros E. destruct (Hd E) as (-> & -> & -> & ->). repeat split.
Qed.



(** ** The options of [go] *)

Lemma append_nil_r (s : string) : s ++ EmptyString = s.
Proof.
  induction s as [| c s IH]; [reflexivity |]. cbn [append]. now rewrite IH.
Qed.

Lemma append_assoc (a b c : string) : (a ++ b) ++ c = a ++ b ++ c.
Proof.
  induction a as [| x a IH]; [reflexivity |]. cbn [append]. now rewrite IH.
Qed.

Lemma header_lines_snoc (prefix : string) (vs : list string) (v : string) :
  header_lines prefix (vs ++ [v]) = header_lines prefix vs ++ prefix ++ v ++ CRLF.
Proof.
  induction vs as [| w vs IH].
  - cbn [app header_lines append]. now rewrite append_nil_r.
  - cbn [app header_lines]. rewrite IH. now rewrite !append_assoc.
Qed.

Lemma header_lines_crlf (prefix : string) (vs : list string) :
  crlf_terminated (header_lines prefix vs).
Proof.
  destruct vs as [| v vs] using rev_ind; [now left | right].
  rewrite header_lines_snoc.
  exists (header_lines prefix vs ++ prefix ++ v). now rewrite !append_assoc.
Qed.

Lemma setOption_value (value : string) (dst : option string) :
  setOption value dst = match value with
                        | EmptyString => dst
                        | String _ _ => Some value
                        end.
Proof.
  unfold setOption. rewrite next_token_rest. now destruct value.
Qed.

Lemma go_option_record (form0 : FormTypeT) (arg : string) (md md' : ModuleDataT) :
  options_record form0 md -> go_option arg md = Ok md' -> options_record form0 md'.
Proof.
  intros (form & deny & data & agent & vs & -> & Hvs). unfold go_option.
  destruct (strtok_r arg is_colon) as [[opt rest] |]; [| discriminate].
  destruct (EQ_TO_STR_CONST opt "FORM").
  { intros H; invert_ok. now exists (setOption rest form), deny, data, agent, vs. }
  destruct (EQ_TO_STR_CONST opt "DENY-SIGNAL").
  { intros H; invert_ok. now exists form, (setOption rest deny), data, agent, vs. }
  destruct (EQ_TO_STR_CONST opt "FORM-DATA").
  { intros H; invert_ok. now exists form, deny, (setOption rest data), agent, vs. }
  destruct (EQ_TO_STR_CONST opt "USER-AGENT").
  { intros H; invert_ok. now exists form, deny, data, (setOption rest agent), vs. }
  destruct (EQ_TO_STR_CONST opt "CUSTOM-HEADER").
  2: { intros H; invert_ok. now exists form, deny, data, agent, vs. }
  rewrite next_token_rest. cbn [fst].
  destruct rest as [| c r].
  { intros H; invert_ok. now exists form, deny, data, agent, vs. }
  cbn [go_moduleData nCustomHeaders customHeaders].
  intros H. exists form, deny, data, agent, (vs ++ [String c r])%list. split.
  - destruct vs as [| v vs].
    + cbn in H. invert_ok. reflexivity.
    + assert (E : (Z.of_nat (List.length (v :: vs)) =? 0) = false).
      { apply Z.eqb_neq. cbn [List.length]. lia. }
      rewrite E in H. cbn [custom_headers_of rbind] in H. invert_ok.
      unfold go_moduleData, set_nCustomHeaders, set_customHeaders.
      cbn -[Z.of_nat Z.add header_lines custom_headers_of List.length app].
      assert (En : Z.of_nat (List.length (v :: vs)) + 1
                   = Z.of_nat (List.length ((v :: vs) ++ [String c r])))
        by (rewrite length_app; cbn [List.length]; lia).
      assert (Eh : Some (header_lines "" (v :: vs) ++ String c r ++ CRLF)
                   = custom_headers_of ((v :: vs) ++ [String c r])).
      { unfold custom_headers_of. cbn [app].
        change (v :: vs ++ [String c r])%list with ((v :: vs) ++ [String c r])%list.
        rewrite header_lines_snoc. reflexivity. }
      rewrite <- En, <- Eh. reflexivity.
  - apply Forall_app. split; [exact Hvs |]. constructor; [discriminate | constructor].
Qed.

Lemma go_option_returns (form0 : FormTypeT) (arg : string) (md : ModuleDataT) :
  options_record form0 md ->
  strtok_r arg is_colon <> None ->
  exists md', go_option arg md = Ok md'.
Proof.
  intros (form & deny & data & agent & vs & -> & Hvs) Ht. unfold go_option.
  destruct (strtok_r arg is_colon) as [[opt rest] |]; [| now contradiction Ht].
  destruct (EQ_TO_STR_CONST opt "FORM"); [eauto |].
  destruct (EQ_TO_STR_CONST opt "DENY-SIGNAL"); [eauto |].
  destruct (EQ_TO_STR_CONST opt "FORM-DATA"); [eauto |].
  destruct (EQ_TO_STR_CONST opt "USER-AGENT"); [eauto |].
  destruct (EQ_TO_STR_CONST opt "CUSTOM-HEADER"); [| eauto].
  destruct (fst (next_token no_delimiter rest)); [| eauto].
  cbn [go_moduleData nCustomHeaders customHeaders].
  destruct vs as [| v vs]; [cbn; eauto |].
  assert (E : (Z.of_nat (List.length (v :: vs)) =? 0) = false).
  { apply Z.eqb_neq. cbn [List.length]. lia. }
  rewrite E. cbn [custom_headers_of rbind]. eauto.
Qed.

Lemma strtok_r_only (delim : ascii -> bool) (s : string) :
  only delim s = false -> strtok_r s delim <> None.
Proof.
  unfold strtok_r. induction s as [| c s IH]; [discriminate |].
  cbn [only skip_delims]. destruct (delim c); [exact IH | discriminate].
Qed.

Lemma go_options_returns (form0 : FormTypeT) (argv : list string) (md : ModuleDataT) :
  options_record form0 md ->
  Forall (fun arg => only is_colon arg = false) argv ->
  exists md', go_options argv md = Ok md'.
Proof.
  revert md. induction argv as [| arg argv IH]; intros md Hr Ha.
  - now exists md.
  - inversion Ha as [| ? ? Harg Hrest]; subst.
    destruct (go_option_returns form0 arg md Hr (strtok_r_only _ _ Harg)) as [md1 E].
    cbn [go_options]. rewrite E. cbn [rbind].
    exact (IH md1 (go_option_record _ _ _ _ Hr E) Hrest).
Qed.

Lemma newModuleData_record (form0 : FormTypeT) : options_record form0 (newModuleData form0).
Proof.
  exists None, None, None, None, []. split; [reflexivity | constructor].
Qed.

Lemma values_of_single (name arg opt rest : string) :
  strtok_r arg is_colon = Some (opt, rest) ->
  values_of name [arg]
  = if String.eqb opt name
    then match rest with
         | EmptyString => []
         | String _ _ => [rest]
         end
    else [].
Proof.
  intros E. cbn [values_of]. unfold option_of. rewrite E, next_token_rest. cbn [fst].
  destruct rest; destruct (String.eqb opt name); reflexivity.
Qed.

Lemma values_of_none (name arg : string) :
  strtok_r arg is_colon = None -> values_of name [arg] = [].
Proof.
  intros E. cbn [values_of]. unfold option_of. now rewrite E.
Qed.

Lemma values_of_cons (name arg : string) (argv : list string) :
  values_of name (arg :: argv) = (values_of name [arg] ++ values_of name argv)%list.
Proof.
  cbn [values_of]. destruct (option_of arg) as [[n [v |]] |]; try reflexivity.
  destruct (String.eqb n name); reflexivity.
Qed.

Lemma values_of_nonempty (name : string) (argv : list string) :
  Forall (fun v => v <> EmptyString) (values_of name argv).
Proof.
  induction argv as [| arg argv IH]; [constructor |].
  rewrite values_of_cons. apply Forall_app. split; [| exact IH].
  destruct (strtok_r arg is_colon) as [[opt rest] |] eqn:E.
  - rewrite (values_of_single _ _ _ _ E).
    destruct (String.eqb opt name); [| constructor].
    destruct rest; constructor; [discriminate | constructor].
  - rewrite (values_of_none _ _ E). constructor.
Qed.

Lemma last_some_app (l1 l2 : list string) (d : option string) :
  last (map Some (l1 ++ l2)) d = last (map Some l2) (last (map Some l1) d).
Proof.
  revert d. induction l1 as [| v l1 IH]; intros d; [reflexivity |].
  assert (E : forall (l : list string) (x y : option string),
            last (x :: map Some l) y = last (map Some l) x).
  { clear. induction l as [| w l IH]; intros x y; [reflexivity |].
    cbn [map]. change (last (x :: Some w :: map Some l) y)
      with (last (Some w :: map Some l) y).
    now rewrite !IH. }
  cbn [app map]. rewrite !E. rewrite IH.
  destruct l1; reflexivity.
Qed.

(** One turn of the loop, on the values of its argument. *)
Lemma go_option_values (form0 : FormTypeT) (arg : string)
    (f d da a : option string) (vs : list string) (md : ModuleDataT) :
  go_option arg (go_moduleData form0 f d da a
                   (custom_headers_of vs) (Z.of_nat (List.length vs))) = Ok md ->
  md = go_moduleData form0
         (last (map Some (values_of "FORM" [arg])) f)
         (last (map Some (values_of "DENY-SIGNAL" [arg])) d)
         (last (map Some (values_of "FORM-DATA" [arg])) da)
         (last (map Some (values_of "USER-AGENT" [arg])) a)
         (custom_headers_of (vs ++ values_of "CUSTOM-HEADER" [arg]))
         (Z.of_nat (List.length (vs ++ values_of "CUSTOM-HEADER" [arg]))).
Proof.
  unfold go_option.
  destruct (strtok_r arg is_colon) as [[opt rest] |] eqn:E; [| discriminate].
  rewrite !(values_of_single _ _ _ _ E). unfold EQ_TO_STR_CONST.
  destruct (String.eqb_spec opt "FORM") as [-> | _].
  { intros H; invert_ok. rewrite setOption_value, app_nil_r.
    now destruct rest. }
  destruct (String.eqb_spec opt "DENY-SIGNAL") as [-> | _].
  { intros H; invert_ok. rewrite setOption_value, app_nil_r.
    now destruct rest. }
  destruct (String.eqb_spec opt "FORM-DATA") as [-> | _].
  { intros H; invert_ok. rewrite setOption_value, app_nil_r.
    now destruct rest. }
  destruct (String.eqb_spec opt "USER-AGENT") as [-> | _].
  { intros H; invert_ok. rewrite setOption_value, app_nil_r.
    now destruct rest. }
  destruct (String.eqb_spec opt "CUSTOM-HEADER") as [-> | _].
  2: { intros H; invert_ok. now rewrite app_nil_r. }
  rewrite next_token_rest. cbn [fst].
  destruct rest as [| c r].
  { intros H; invert_ok. now rewrite app_nil_r. }
  cbn [go_moduleData nCustomHeaders customHeaders last map].
  intros H.
  assert (En : Z.of_nat (List.length vs) + 1
               = Z.of_nat (List.length (vs ++ [String c r])))
    by (rewrite length_app; cbn [List.length]; lia).
  destruct vs as [| v vs].
  - cbn in H. invert_ok. reflexivity.
  - assert (E0 : (Z.of_nat (List.length (v :: vs)) =? 0) = false).
    { apply Z.eqb_neq. cbn [List.length]. lia. }
    rewrite E0 in H. cbn [custom_headers_of rbind] in H. invert_ok.
    unfold go_moduleData, set_nCustomHeaders, set_customHeaders.
    cbn -[Z.of_nat Z.add header_lines custom_headers_of List.length app].
    assert (Eh : Some (header_lines "" (v :: vs) ++ String c r ++ CRLF)
                 = custom_headers_of ((v :: vs) ++ [String c r])).
    { unfold custom_headers_of. cbn [app].
      change (v :: vs ++ [String c r])%list with ((v :: vs) ++ [String c r])%list.
      rewrite header_lines_snoc. reflexivity. }
    rewrite <- En, <- Eh. reflexivity.
Qed.

Lemma go_options_values (form0 : FormTypeT) (argv : list string) :
  forall (f d da a : option string) (vs : list string) (md : ModuleDataT),
    go_options argv (go_moduleData form0 f d da a
                       (custom_headers_of vs) (Z.of_nat (List.length vs))) = Ok md ->
    md = go_moduleData form0
           (last (map Some (values_of "FORM" argv)) f)
           (last (map Some (values_of "DENY-SIGNAL" argv)) d)
           (last (map Some (values_of "FORM-DATA" argv)) da)
           (last (map Some (values_of "USER-AGENT" argv)) a)
           (custom_headers_of (vs ++ values_of "CUSTOM-HEADER" argv))
           (Z.of_nat (List.length (vs ++ values_of "CUSTOM-HEADER" argv))).
Proof.
  induction argv as [| arg argv IH]; intros f d da a vs md H.
  - cbn in H. invert_ok. now rewrite app_nil_r.
  - cbn [go_options] in H.
    destruct (go_option arg _) as [md1 | |] eqn:E; cbn [rbind] in H;
      try discriminate H.
    apply go_option_values in E. subst md1.
    apply IH in H. subst md.
    rewrite !(values_of_cons _ arg argv), !last_some_app, !app_assoc.
    reflexivity.
Qed.

Lemma values_of_pairs (name : string) (pairs : list (string * string)) :
  Forall (fun kv => token is_colon (fst kv) = true /\ snd kv <> EmptyString) pairs ->
  values_of name (map (fun kv => fst kv ++ ":" ++ snd kv) pairs)
  = map snd (filter (fun kv => String.eqb (fst kv) name) pairs).
Proof.
  induction 1 as [| [k v] pairs [Hk Hv] _ IH]; [reflexivity |].
  cbn [map fst snd filter] in *.
  rewrite values_of_cons, IH.
  assert (E : strtok_r (k ++ ":" ++ v) is_colon = Some (k, v)).
  { cbn [append]. exact (strtok_r_token is_colon k ":"%char v Hk eq_refl). }
  rewrite (values_of_single _ _ _ _ E).
  destruct (String.eqb k name); [| reflexivity].
  destruct v; [now contradiction Hv | reflexivity].
Qed.

(** X11. The record [go] hands to [initModule], whatever the
    arguments.  FORM, DENY-SIGNAL, FORM-DATA and USER-AGENT hold the last
    value the arguments give them and are NULL without one; the custom
    headers are the values of CUSTOM-HEADER in the order of the arguments,
    each followed by CRLF, their counter is their number, and without any
    the field is NULL; nothing else is set, so no redirect is under way and
    the form type is as zeroed.  The options are read to the end when every
    argument holds a byte that is no colon.  For arguments [NAME:value],
    the name without colon and the value not empty, the values of an
    option are those of the arguments with its name. *)
Theorem go_options_record (form0 : FormTypeT) (argv : list string) :
  (forall md : ModuleDataT,
     go_options argv (newModuleData form0) = Ok md ->
     md = go_moduleData form0
            (last_value "FORM" argv) (last_value "DENY-SIGNAL" argv)
            (last_value "FORM-DATA" argv) (last_value "USER-AGENT" argv)
            (custom_headers_of (values_of "CUSTOM-HEADER" argv))
            (Z.of_nat (List.length (values_of "CUSTOM-HEADER" argv)))
     /\ (forall headers, customHeaders md = Some headers ->
           headers = header_lines EmptyString (values_of "CUSTOM-HEADER" argv)
           /\ crlf_terminated headers))
  /\ (Forall (fun arg => only is_colon arg = false) argv ->
      exists md, go_options argv (newModuleData form0) = Ok md)
  /\ (forall (name : string) (pairs : list (string * string)),
        argv = map (fun kv => fst kv ++ ":" ++ snd kv) pairs ->
        Forall (fun kv => token is_colon (fst kv) = true /\ snd kv <> EmptyString)
          pairs ->
        values_of name argv
        = map snd (filter (fun kv => String.eqb (fst kv) name) pairs))
  /\ (forall name : string, Forall (fun v => v <> EmptyString) (values_of name argv)).
Proof.
  split; [| split; [| split]].
  - intros md H.
    apply (go_options_values form0 argv None None None None []) in H.
    cbn [app] in H. split; [exact H |].
    intros headers Hh. rewrite H in Hh.
    assert (E : headers = header_lines EmptyString (values_of "CUSTOM-HEADER" argv)).
    { destruct (values_of "CUSTOM-HEADER" argv); [discriminate Hh |].
      cbn [go_moduleData customHeaders custom_headers_of] in Hh. now inversion Hh. }
    split; [exact E |]. rewrite E. apply header_lines_crlf.
  - apply (go_options_returns form0), newModuleData_record.
  - intros name pairs -> Hp. now apply values_of_pairs.
  - intros name. apply values_of_nonempty.
Qed.

Lemma strtok_r_option (key value : string) :
  token is_colon key = true ->
  strtok_r (key ++ ":" ++ value) is_colon = Some (key, value).
Proof.
  intros Hk. cbn [append]. exact (strtok_r_token is_colon key ":"%char value Hk eq_refl).
Qed.

(** X12. One argument of [go].  [NAME:value] stores the value in the
    field of the option, over what was there: the last of several wins.
    The value is all that follows the first colon, further colons
    included.  A name without a value and a name that is none of the five
    leave the record as it is.  CUSTOM-HEADER appends its value and CRLF to
    the headers and counts it. *)
Theorem go_option_table (md : ModuleDataT) (value : string) :
  value <> EmptyString ->
  go_option ("FORM:" ++ value) md = Ok (set_resourcePath (Some value) md)
  /\ go_option ("DENY-SIGNAL:" ++ value) md = Ok (set_denySignal (Some value) md)
  /\ go_option ("FORM-DATA:" ++ value) md = Ok (set_formData (Some value) md)
  /\ go_option ("USER-AGENT:" ++ value) md = Ok (set_userAgentHeader (Some value) md)
  /\ (nCustomHeaders md = 0 ->
      go_option ("CUSTOM-HEADER:" ++ value) md
      = Ok (set_nCustomHeaders 1 (set_customHeaders (Some (value ++ CRLF)) md)))
  /\ (forall headers : string,
        nCustomHeaders md <> 0 -> customHeaders md = Some headers ->
        go_option ("CUSTOM-HEADER:" ++ value) md
        = Ok (set_nCustomHeaders (nCustomHeaders md + 1)
                (set_customHeaders (Some (headers ++ value ++ CRLF)) md)))
  /\ (forall name : string, In name option_names ->
        go_option name md = Ok md /\ go_option (name ++ ":") md = Ok md)
  /\ (forall name : string,
        token is_colon name = true -> ~ In name option_names ->
        go_option (name ++ ":" ++ value) md = Ok md).
Proof.
  intros Hv.
  assert (Hs : forall dst, setOption value dst = Some value).
  { intros dst. rewrite setOption_value. destruct value; [now contradiction Hv | reflexivity]. }
  assert (Hn : fst (next_token no_delimiter value) = Some value).
  { rewrite next_token_rest. destruct value; [now contradiction Hv | reflexivity]. }
  repeat split.
  - unfold go_option.
    change ("FORM:" ++ value) with ("FORM" ++ ":" ++ value).
    rewrite (strtok_r_option "FORM" value eq_refl).
    cbn [EQ_TO_STR_CONST String.eqb Ascii.eqb Bool.eqb andb]. cbn. now rewrite Hs.
  - unfold go_option.
    change ("DENY-SIGNAL:" ++ value) with ("DENY-SIGNAL" ++ ":" ++ value).
    rewrite (strtok_r_option "DENY-SIGNAL" value eq_refl).
    cbn. now rewrite Hs.
  - unfold go_option.
    change ("FORM-DATA:" ++ value) with ("FORM-DATA" ++ ":" ++ value).
    rewrite (strtok_r_option "FORM-DATA" value eq_refl).
    cbn. now rewrite Hs.
  - unfold go_option.
    change ("USER-AGENT:" ++ value) with ("USER-AGENT" ++ ":" ++ value).
    rewrite (strtok_r_option "USER-AGENT" value eq_refl).
    cbn. now rewrite Hs.
  - intros H0. unfold go_option.
    change ("CUSTOM-HEADER:" ++ value) with ("CUSTOM-HEADER" ++ ":" ++ value).
    rewrite (strtok_r_option "CUSTOM-HEADER" value eq_refl).
    cbn -[next_token Z.eqb Z.add]. rewrite Hn, H0. reflexivity.
  - intros headers H0 Hh. unfold go_option.
    change ("CUSTOM-HEADER:" ++ value) with ("CUSTOM-HEADER" ++ ":" ++ value).
    rewrite (strtok_r_option "CUSTOM-HEADER" value eq_refl).
    cbn -[next_token Z.eqb Z.add]. rewrite Hn, Hh.
    apply Z.eqb_neq in H0. rewrite H0. reflexivity.
  - destruct H as [<- | [<- | [<- | [<- | [<- | []]]]]]; now destruct md.
  - destruct H as [<- | [<- | [<- | [<- | [<- | []]]]]]; now destruct md.
  - intros name Hk Hnot. unfold go_option. rewrite (strtok_r_option name value Hk).
    unfold EQ_TO_STR_CONST.
    repeat match goal with
           | |- context [String.eqb name ?k] =>
               destruct (String.eqb_spec name k) as [-> | _];
               [exfalso; apply Hnot; cbn; tauto |]
           end.
    reflexivity.
Qed.
(** ** The cookie jar *)

Lemma cookies_loop_present (fuel : nat) (j pos : string) (jar : option string) :
  cookies_loop fuel (Some j) pos = Ok jar -> exists j', jar = Some j'.
Proof.
  revert j pos. induction fuel as [| fuel IH]; intros j pos H.
  - cbn in H. invert_ok. now exists j.
  - cbn [cookies_loop] in H.
    destruct (_findHeaderValue (CRLF ++ "Set-Cookie:") (Some pos))
      as [[[v pos'] |] | |]; cbn [rbind] in H; try discriminate H.
    + exact (IH _ _ H).
    + invert_ok. now exists j.
Qed.
(** ** The loop of [initModule] *)

Lemma next_credentials_host (st st' : ModuleStateT) (cs cs' : sCredentialSet)
    (h h' : Host) :
  next_credentials st cs h = Ok ((st', cs'), h') ->
  connects h' = connects h /\ disconnected h' = disconnected h
  /\ passResults h' = passResults h /\ iResult h' = iResult h
  /\ (st' = st \/ st' = MSTATE_EXITING \/ st' = MSTATE_NEW).
Proof.
  unfold next_credentials, pUser. intros H. unfold_host.
  repeat (destruct_match; unfold_host; invert_ok; cbn in * ); auto 10.
Qed.

Lemma tryLogin_connections (hS : Z) (md md' : ModuleDataT) (login pass : string)
    (h h' : Host) (st : ModuleStateT) :
  tryLogin hS md login pass h = Ok ((st, md'), h') ->
  connects h' = connects h /\ disconnected h' = disconnected h
  /\ (st = MSTATE_NEW \/ st = MSTATE_EXITING)
  /\ credentials h' = credentials h.
Proof.
  intros H.
  destruct (tryLogin_effect _ _ _ _ _ _ _ _ H)
    as (r & buf & h1 & Hreq & Hc & Hn & _ & _ & Hd & _ & Hcase).
  destruct (_request_effect _ _ _ _ _ _ _ _ Hreq) as (Hc1 & Hn1 & Hd1 & _).
  rewrite Hn, Hd, Hc. repeat split; auto.
  destruct Hcase as [(-> & _) | [(-> & _) | [(-> & _) | (-> & _)]]]; auto.
Qed.

(** One turn of the loop, state by state. *)
Lemma initModule_step_cases (srv : sServer) (m : Machine) (h h' : Host) (s : Step) :
  initModule_step srv m h = Ok (s, h') ->
  (nState m = MSTATE_COMPLETE /\ s = Return SUCCESS /\ h' = h)
  \/ (nState m = MSTATE_INITIALIZE /\ h' = h
      /\ exists md, initialize srv (nPort srv) (moduleData m) = Ok md
                    /\ s = Continue (mkMachine MSTATE_NEW (hSocket m) md (psCredSet m)))
  \/ (nState m = MSTATE_NEW
      /\ disconnected h' = (socket_in_hand m ++ disconnected h)%list
      /\ exists sock,
           ((connects h = [] /\ connects h' = [] /\ sock = -1)
            \/ connects h = sock :: connects h')
           /\ ((sock < 0 /\ s = Return FAILURE
                /\ iResult h' = LOGIN_RESULT_UNKNOWN
                /\ passResults h'
                   = (pPass (psCredSet m), LOGIN_RESULT_UNKNOWN) :: passResults h)
               \/ (0 <= sock
                   /\ s = Continue (mkMachine MSTATE_RUNNING sock (moduleData m)
                                      (psCredSet m)))))
  \/ (nState m = MSTATE_RUNNING
      /\ connects h' = connects h /\ disconnected h' = disconnected h
      /\ exists u st md' h1 st' cs',
           psUser (psCredSet m) = Some u
           /\ tryLogin (hSocket m) (moduleData m) u (pPass (psCredSet m)) h
              = Ok ((st, md'), h1)
           /\ next_credentials st (psCredSet m) h1 = Ok ((st', cs'), h')
           /\ (st' = MSTATE_NEW \/ st' = MSTATE_EXITING)
           /\ s = Continue (mkMachine st' (hSocket m) md' cs'))
  \/ (nState m = MSTATE_EXITING
      /\ connects h' = connects h
      /\ disconnected h' = (socket_in_hand m ++ disconnected h)%list
      /\ s = Continue (mkMachine MSTATE_COMPLETE (-1) (moduleData m) (psCredSet m))).
Proof.
  unfold initModule_step, socket_in_hand. intros H.
  destruct (nState m) eqn:Es.
  - right; left. unfold_host.
    destruct (initialize srv (nPort srv) (moduleData m)) as [md | |];
      cbn [rbind] in H; invert_ok. repeat split. now exists md.
  - right; right; left. split; [reflexivity |]. unfold_host.
    destruct (0 <? hSocket m); cbn in H;
      destruct (connects h) as [| sock cs] eqn:Ec; cbn in H;
      try (destruct (Z.ltb_spec sock 0)); invert_ok; cbn;
      (split; [reflexivity |]);
      first [ solve [exists (-1); split;
                       [left; repeat split; auto | left; repeat split; lia]]
            | solve [exists sock; split; [now right | left; repeat split; lia]]
            | solve [exists sock; split; [now right | right; repeat split; lia]] ].
  - right; right; right; left. split; [reflexivity |].
    unfold bind at 1 in H. unfold pUser in H.
    destruct (psUser (psCredSet m)) as [u |] eqn:Eu; [| discriminate H].
    unfold ret at 1 in H. unfold bind at 1 in H.
    destruct (tryLogin (hSocket m) (moduleData m) u (pPass (psCredSet m)) h)
      as [[[st md'] h1] | |] eqn:Et; try discriminate H.
    unfold bind at 1 in H. cbn [fst snd] in H.
    destruct (next_credentials st (psCredSet m) h1) as [[[st' cs'] h2] | |] eqn:En;
      try discriminate H.
    unfold ret in H. cbn [fst snd] in H. invert_ok.
    destruct (tryLogin_connections _ _ _ _ _ _ _ _ Et) as (C1 & D1 & Hst & _).
    destruct (next_credentials_host _ _ _ _ _ _ En) as (C2 & D2 & _ & _ & Hst').
    split; [congruence |]. split; [congruence |].
    exists u, st, md', h1, st', cs'. repeat split; auto.
    destruct Hst' as [-> | [-> | ->]]; auto.
  - right; right; right; right. unfold_host.
    destruct (0 <? hSocket m); cbn in H; invert_ok; repeat split.
  - left. unfold_host. invert_ok. auto.
Qed.

Lemma initModule_step_turns (srv : sServer) (m m' : Machine) (h h' : Host) :
  initModule_step srv m h = Ok (Continue m', h') ->
  exists used : list Z,
    connects h = (used ++ connects h')%list
    /\ Forall (fun s => 0 <= s) used
    /\ (turns_left m' h' < turns_left m h)%nat.
Proof.
  intros H. unfold turns_left.
  destruct (initModule_step_cases _ _ _ _ _ H)
    as [(_ & E & _) | [(-> & -> & md & _ & E)
        | [(-> & _ & sock & Hc & [(_ & E & _) | (Hpos & E)])
          | [(-> & Hc & _ & u & st & md' & h1 & st' & cs' & _ & _ & _ & Hst & E)
            | (-> & Hc & _ & E)]]]];
    try discriminate E; inversion E; subst m'; cbn [nState].
  - exists []. split; [reflexivity |]. split; [constructor | lia].
  - destruct Hc as [(_ & _ & ->) | ->]; [lia |].
    exists [sock]. split; [reflexivity |].
    split; [repeat constructor; exact Hpos | cbn [List.length]; lia].
  - exists []. rewrite Hc. split; [reflexivity |]. split; [constructor |].
    destruct Hst as [-> | ->]; lia.
  - exists []. rewrite Hc. split; [reflexivity |]. split; [constructor | lia].
Qed.

Lemma initModule_run_turns (srv : sServer) (n : nat) (m m' : Machine) (h h' : Host) :
  initModule_run srv n m h = Ok (Continue m', h') ->
  exists used : list Z,
    connects h = (used ++ connects h')%list
    /\ Forall (fun s => 0 <= s) used
    /\ (turns_left m' h' + n <= turns_left m h)%nat.
Proof.
  revert m h. induction n as [| n IH]; intros m h H.
  - cbn in H. inversion H; subst. exists [].
    split; [reflexivity |]. split; [constructor | lia].
  - cbn [initModule_run] in H. unfold bind in H.
    destruct (initModule_step srv m h) as [[[m1 | r] h1] | |] eqn:E;
      try discriminate H.
    destruct (initModule_step_turns _ _ _ _ _ E) as (u1 & E1 & F1 & H1).
    destruct (IH _ _ H) as (u2 & E2 & F2 & H2).
    exists (u1 ++ u2)%list.
    split; [rewrite E1, E2; apply app_assoc |].
    split; [apply Forall_app; now split | lia].
Qed.

Lemma initModule_enter_host (md : ModuleDataT) (h h0 : Host) (m : Machine) :
  initModule_enter md h = Ok (m, h0) ->
  connects h0 = connects h /\ disconnected h0 = disconnected h
  /\ hSocket m = -1 /\ moduleData m = md
  /\ (nState m = MSTATE_INITIALIZE \/ nState m = MSTATE_COMPLETE).
Proof.
  unfold initModule_enter. intros H. unfold_host.
  repeat (destruct_match; unfold_host; invert_ok; cbn in * ); auto 10.
Qed.

Lemma initModule_enter_returns (md : ModuleDataT) (h : Host) :
  exists m h0, initModule_enter md h = Ok (m, h0).
Proof.
  unfold initModule_enter. unfold_host.
  destruct (credentials h) as [| [cs |] r]; cbn; eauto.
  destruct (psUser cs); cbn; eauto.
Qed.

(** X13. The loop of [initModule] does not spin without connecting:
    when [go] is still in the loop after [turns] turns, the connect function
    has been called at least [(turns - 2) / 2] times in them and has given
    a socket each time, since every passage from [MSTATE_NEW] to
    [MSTATE_RUNNING] takes a connection and [tryLogin] never asks for
    [MSTATE_RUNNING] again.  Nothing else bounds the loop: it goes on as
    long as redirects are followed and connections are given.  What [go]
    returns once the loop has ended is SUCCESS, also when [initModule] has
    returned FAILURE; [abort()] is not reached. *)
Theorem go_turns_per_connection (form0 : FormTypeT) (srv : sServer)
    (argv : list string) (turns : nat) (h : Host) :
  aborted (go form0 srv argv turns h) = false
  /\ (forall (r : ReturnT) (h' : Host),
        go form0 srv argv turns h = Ok (Return r, h') -> r = SUCCESS)
  /\ (forall (m' : Machine) (h' : Host),
        go form0 srv argv turns h = Ok (Continue m', h') ->
        exists used : list Z,
          connects h = (used ++ connects h')%list
          /\ Forall (fun s => 0 <= s) used
          /\ (turns <= 2 * List.length used + 2)%nat).
Proof.
  assert (Hao : forall argv md, aborted (go_options argv md) = false).
  { clear. induction argv as [| arg argv IH]; intros md; [reflexivity |].
    cbn [go_options]. apply rbind_aborted; [| exact IH].
    unfold go_option.
    destruct (strtok_r arg is_colon) as [[opt rest] |]; [| reflexivity].
    repeat match goal with
           | |- context [if EQ_TO_STR_CONST ?a ?b then _ else _] =>
               destruct (EQ_TO_STR_CONST a b); [try reflexivity |]
           end; try reflexivity.
    destruct (fst (next_token no_delimiter rest)); [| reflexivity].
    destruct (nCustomHeaders md =? 0); [reflexivity |].
    now destruct (customHeaders md). }
  assert (Har : forall n m h, aborted (initModule_run srv n m h) = false).
  { clear. induction n as [| n IH]; intros m h; [reflexivity |].
    cbn [initModule_run]. apply bind_aborted; [apply initModule_step_aborted |].
    intros [m' | r] h'; [apply IH | reflexivity]. }
  unfold go, bind, lift.
  specialize (Hao argv (newModuleData form0)).
  destruct (go_options argv (newModuleData form0)) as [md | |]; cbn [rbind];
    [| repeat split; discriminate | discriminate Hao].
  destruct (initModule_enter_returns md h) as (m & h0 & Ee).
  destruct (initModule_enter_host _ _ _ _ Ee) as (Ec & _ & _ & _ & Hs).
  rewrite Ee.
  specialize (Har turns m h0).
  destruct (initModule_run srv turns m h0) as [[[m1 | r1] h1] | |] eqn:Er;
    try discriminate Har.
  - split; [reflexivity |]. split; [intros r h' H; discriminate H |].
    intros m' h' H. unfold ret in H. inversion H; subst m' h'.
    destruct (initModule_run_turns _ _ _ _ _ _ Er) as (used & Eu & Hu & Ht).
    exists used. rewrite <- Ec. split; [exact Eu |].
    split; [exact Hu |].
    unfold turns_left in Ht. rewrite Eu, length_app in Ht.
    destruct Hs as [Hs | Hs]; rewrite Hs in Ht; destruct (nState m1); lia.
  - split; [reflexivity |]. split; [| intros m' h' H; discriminate H].
    intros r h' H. unfold ret in H. now inversion H.
  - repeat split; discriminate.
Qed.

(** ** Connections *)

Lemma initModule_run_sockets (srv : sServer) (n : nat) (m : Machine) (h h' : Host)
    (r : ReturnT) :
  (nState m = MSTATE_COMPLETE -> socket_in_hand m = []) ->
  initModule_run srv n m h = Ok (Return r, h') ->
  exists opened : list Z,
    connects h = (opened ++ connects h')%list
    /\ disconnected h'
       = (rev (closed_sockets opened) ++ socket_in_hand m ++ disconnected h)%list
    /\ (r = FAILURE ->
        iResult h' = LOGIN_RESULT_UNKNOWN
        /\ exists p rest, passResults h' = (p, LOGIN_RESULT_UNKNOWN) :: rest).
Proof.
  revert m h. induction n as [| n IH]; intros m h Hc H; [discriminate H |].
  cbn [initModule_run] in H. unfold bind in H.
  destruct (initModule_step srv m h) as [[s h1] | |] eqn:E; try discriminate H.
  destruct (initModule_step_cases _ _ _ _ _ E)
    as [(Es & -> & ->) | [(Es & -> & md & _ & ->)
        | [(Es & Hd & sock & Hk & [(Hneg & -> & Hi & Hp) | (Hpos & ->)])
          | [(Es & Hk & Hd & u & st & md' & h2 & st' & cs' & _ & _ & _ & Hst & ->)
            | (Es & Hk & Hd & ->)]]]].
  - unfold ret in H. invert_ok. exists []. rewrite (Hc Es).
    split; [reflexivity |]. split; [reflexivity |]. intros Hr. discriminate Hr.
  - apply IH in H; [| cbn [nState]; discriminate].
    destruct H as (opened & H1 & H2 & H3). exists opened.
    split; [exact H1 |]. split; [exact H2 | exact H3].
  - unfold ret in H. invert_ok.
    assert (Ho : exists opened, connects h = (opened ++ connects h')%list
                                /\ closed_sockets opened = []).
    { destruct Hk as [(E1 & E2 & _) | E1].
      - exists []. rewrite E1, E2. now split.
      - exists [sock]. split; [exact E1 |].
        unfold closed_sockets. cbn [filter].
        destruct (Z.ltb_spec 0 sock); [lia | reflexivity]. }
    destruct Ho as (opened & E1 & E2). exists opened. rewrite E2.
    split; [exact E1 |]. split; [exact Hd |]. intros _. split; [exact Hi |].
    now exists (pPass (psCredSet m)), (passResults h).
  - apply IH in H; [| cbn [nState]; discriminate].
    destruct H as (opened & H1 & H2 & H3).
    destruct Hk as [(_ & _ & ->) | Hk]; [lia |].
    exists (sock :: opened). split; [rewrite Hk, H1; reflexivity |].
    split; [| exact H3].
    rewrite H2, Hd. unfold closed_sockets, socket_in_hand at 1.
    cbn [filter hSocket]. destruct (0 <? sock); cbn [rev];
      now rewrite <- ?app_assoc.
  - apply IH in H; [| cbn [nState]; destruct Hst as [-> | ->]; discriminate].
    destruct H as (opened & H1 & H2 & H3).
    exists opened. rewrite Hk in H1. rewrite Hd in H2.
    split; [exact H1 |]. split; [exact H2 | exact H3].
  - apply IH in H; [| reflexivity].
    destruct H as (opened & H1 & H2 & H3).
    exists opened. rewrite Hk in H1. rewrite Hd in H2.
    split; [exact H1 |]. split; [exact H2 | exact H3].
Qed.

(** X14. [initModule] closes what it opens.  When it returns, the
    connections it has taken from the host are a front part of those the
    host had to give, and the sockets handed to [medusaDisconnect] are
    those of them that are above 0, each once and in the order they were
    opened: none is left open, none is closed twice (a socket 0 is never
    closed).  When it returns FAILURE the last verdict recorded is
    UNKNOWN. *)
Theorem initModule_closes_connections (srv : sServer) (md : ModuleDataT) (n : nat)
    (m : Machine) (h h0 h' : Host) (r : ReturnT) :
  initModule_enter md h = Ok (m, h0) ->
  initModule_run srv n m h0 = Ok (Return r, h') ->
  exists opened : list Z,
    connects h = (opened ++ connects h')%list
    /\ disconnected h' = (rev (closed_sockets opened) ++ disconnected h)%list
    /\ (r = FAILURE ->
        iResult h' = LOGIN_RESULT_UNKNOWN
        /\ exists p rest, passResults h' = (p, LOGIN_RESULT_UNKNOWN) :: rest).
Proof.
  intros He Hr.
  destruct (initModule_enter_host _ _ _ _ He) as (Ec & Ed & Es & _).
  assert (Hh : socket_in_hand m = []) by (unfold socket_in_hand; now rewrite Es).
  destruct (initModule_run_sockets srv n m h0 h' r (fun _ => Hh) Hr)
    as (opened & H1 & H2 & H3).
  exists opened. rewrite Hh, Ec, Ed in *.
  split; [exact H1 |]. split; [exact H2 | exact H3].
Qed.
(** ** The record in the loop *)

Lemma or_else_some (o : option string) (d : string) : exists v, or_else o (Some d) = Some v.
Proof. destruct o; cbn; eauto. Qed.

Lemma initialize_configured (srv : sServer) (port : Z) (form0 : FormTypeT)
    (form deny data agent custom : option string) (n : Z) (md' : ModuleDataT) :
  initialize srv port (go_moduleData form0 form deny data agent custom n) = Ok md' ->
  configured md'.
Proof.
  intros H.
  destruct (initialize_go_fields _ _ _ _ _ _ _ _ _ _ H)
    as (fd & fr & uk & pk & ft & -> & Hf & Hu & Hp & _).
  destruct (or_else_some agent MODULE_DEFAULT_USER_AGENT) as [ua Eu].
  destruct (or_else_some deny MODULE_DEFAULT_DENY_SIGNAL) as [d Ed].
  destruct (or_else_some custom EmptyString) as [ch Ec].
  split; [| split; [exact Hf | intros E; discriminate E]].
  exists (pHost srv ++ ":" ++ fmt_d port), ua, d, uk, pk, ch, EmptyString.
  cbn. rewrite Eu, Ed, Ec. repeat split; auto.
Qed.

Lemma _setCookiesFromResponse_present (md md' : ModuleDataT) (buf : option string)
    (j : string) :
  cookieJar md = Some j ->
  _setCookiesFromResponse md buf = Ok md' ->
  exists j', md' = set_cookieJar (Some j') md.
Proof.
  unfold _setCookiesFromResponse. intros Hj H.
  destruct buf as [r |].
  - rewrite Hj in H.
    destruct (cookies_loop _ _ _) as [jar | |] eqn:El; cbn [rbind] in H;
      try discriminate H.
    invert_ok. destruct (cookies_loop_present _ _ _ _ El) as (j' & ->).
    now exists j'.
  - invert_ok. exists j. destruct md'. cbn in Hj. now subst.
Qed.

Lemma tryLogin_configured (hS : Z) (md md' : ModuleDataT) (login pass : string)
    (h h' : Host) (st : ModuleStateT) :
  configured md ->
  tryLogin hS md login pass h = Ok ((st, md'), h') ->
  configured md'.
Proof.
  intros ((hh & ua & d & uk & pk & ch & cj & C1 & C2 & C3 & C4 & C5 & C6 & C7 & C8 & C9)
          & Cf & Cc) H.
  destruct (tryLogin_same_form _ _ _ _ _ _ _ _ H)
    as ((S1 & S2 & _ & _ & S5 & S6 & S7 & _) & Hhost).
  assert (Hh : exists hh', hostHeader md' = Some hh').
  { destruct Hhost as [E | E]; [rewrite E; eauto | exact E]. }
  destruct Hh as [hh' Hh].
  assert (Hjar : (exists cj', cookieJar md' = Some cj')
                 /\ (changedRequestType md' = true -> formType md' = FORM_GET)).
  { destruct (tryLogin_record _ _ _ _ _ _ _ _ H)
      as (r & buf & h1 & Hreq & [(_ & ->) | [(_ & _ & ->)
           | (_ & _ & loc & md1 & md2 & _ & H1 & H2 & ->)]]).
    - split; [now exists cj | exact Cc].
    - destruct (changedRequestType md) eqn:Ec.
      + split; [now exists EmptyString |].
        cbn. intros E. discriminate E.
      + split; [now exists cj |]. intros E. congruence.
    - destruct (_resolveLocationPath_frame _ _ _ H1) as (F1 & F2 & F3 & _).
      rewrite <- F3 in C9.
      destruct (_setCookiesFromResponse_present _ _ _ _ C9 H2) as (cj' & ->).
      unfold change_method. cbn [formType changedRequestType set_cookieJar].
      destruct (FormTypeT_eqb (formType md1) FORM_POST && _); cbn.
      + split; [now exists cj' | reflexivity].
      + split; [now exists cj' |]. rewrite F1, F2. exact Cc. }
  destruct Hjar as [(cj' & J1) Hc'].
  split; [| split; [exact (tryLogin_formType _ _ _ _ _ _ _ _ H Cf) | exact Hc']].
  exists hh', ua, d, uk, pk, ch, cj'.
  rewrite S1, S2, S5, S6, S7. repeat split; auto.
Qed.

Lemma reachable_record (P : Machine -> Host -> Prop) (srv : sServer)
    (m : Machine) (h : Host) :
  reachable_by P srv m h ->
  (nState m = MSTATE_INITIALIZE \/ nState m = MSTATE_COMPLETE)
  \/ configured (moduleData m).
Proof.
  induction 1 as [form0 form deny data agent custom n h m h' He
                 | m h m' h' Hr IH _ Hs].
  - left. exact (proj2 (initModule_enter_state _ _ _ _ He)).
  - destruct (initModule_step_inv _ _ _ _ _ Hs)
      as [(Es & _ & Hi) | [(Es & _ & E) | [(Es & u & st & h1 & Hl & _) | (Es & Hn & E)]]].
    + right. clear IH Hs.
      assert (Hg : exists form0 form deny data agent custom n,
                 moduleData m = go_moduleData form0 form deny data agent custom n).
      { clear - Hr Es. induction Hr as [form0 form deny data agent custom n h m h' He
                                       | m h m' h' Hr IH _ Hs].
        - destruct (initModule_enter_state _ _ _ _ He) as [-> _]. eauto 10.
        - destruct (initModule_step_inv _ _ _ _ _ Hs)
            as [(_ & E & _) | [(_ & E & _) | [(_ & u & st & h1 & Hl & E) | (_ & E & _)]]];
            try congruence.
          destruct (tryLogin_connections _ _ _ _ _ _ _ _ Hl) as (_ & _ & Hst & _).
          destruct E as [E | [E | E]]; destruct Hst; congruence. }
      destruct Hg as (form0 & form & deny & data & agent & custom & n & Eg).
      rewrite Eg in Hi. exact (initialize_configured _ _ _ _ _ _ _ _ _ _ Hi).
    + right. rewrite E. destruct IH as [[E' | E'] | IH]; [congruence | congruence | exact IH].
    + right. destruct IH as [[E' | E'] | IH]; [congruence | congruence |].
      exact (tryLogin_configured _ _ _ _ _ _ _ _ IH Hl).
    + destruct IH as [[E' | E'] | IH]; [congruence | congruence |].
      right. now rewrite E.
Qed.

(** X15. The record in the loop.  In every state of [MSTATE_NEW],
    [MSTATE_RUNNING] and [MSTATE_EXITING] that a call of [initModule] by [go]
    goes through, whatever the host delivers and whatever redirects were
    followed: the host header, the user agent, the deny signal, both keys,
    the custom headers and the cookie jar are present, so a request prints
    no NULL for them and the search for the deny signal reads no NULL; the keys are not empty; the form is POST or GET; and a method
    that was changed was changed to GET.  A request whose method was
    changed carries no parameters: it is the same for all credentials. *)
Theorem reachable_configured (P : Machine -> Host -> Prop) (srv : sServer)
    (m : Machine) (h : Host) :
  reachable_by P srv m h ->
  nState m = MSTATE_NEW \/ nState m = MSTATE_RUNNING \/ nState m = MSTATE_EXITING ->
  configured (moduleData m)
  /\ (changedRequestType (moduleData m) = true ->
      formType (moduleData m) = FORM_GET
      /\ forall login pass login' pass' : string,
           prepareRequestString (moduleData m) login pass
           = prepareRequestString (moduleData m) login' pass').
Proof.
  intros Hr Hs.
  destruct (reachable_record _ _ _ _ Hr) as [[E | E] | Hc].
  - destruct Hs as [Hs | [Hs | Hs]]; congruence.
  - destruct Hs as [Hs | [Hs | Hs]]; congruence.
  - split; [exact Hc |]. intros Hch. split; [exact (proj2 (proj2 Hc) Hch) |].
    intros login pass login' pass'. unfold prepareRequestString. now rewrite Hch.
Qed.
(** ** The outcomes of [_request] *)

(** X16. The four ways [_request] returns.  A form of unknown type:
    nothing is built or sent, the host is as it was.  Otherwise the request
    that [prepareRequestString] builds is handed to [medusaSend], once, and:
    when the send fails, no line is read, UNKNOWN is recorded for the
    password and the value of [MSTATE_EXITING] is returned; when no line
    comes back, UNKNOWN is recorded and 0 is returned; when a line comes
    back, it is the buffer, 1 is returned and no verdict is recorded.  One
    line at most is read. *)
Theorem _request_outcomes (hS : Z) (md : ModuleDataT) (login pass : string)
    (h h1 : Host) (r : Z) (buf : option string) :
  _request hS md login pass h = Ok ((r, buf), h1) ->
  (formType md = FORM_UNKNOWN /\ r = MSTATE_EXITING_value /\ buf = None /\ h1 = h)
  \/ exists rq n,
       prepareRequestString md login pass = Ok (rq, n)
       /\ sent h1 = (rq, n) :: sent h
       /\ ((r = MSTATE_EXITING_value /\ buf = None /\ lines h1 = lines h
            /\ unknown_recorded pass h h1
            /\ (sends h = [] \/ exists s rest, sends h = s :: rest /\ s < 0))
           \/ (r = 0 /\ buf = None /\ unknown_recorded pass h h1
               /\ (lines h = [] \/ lines h = None :: lines h1))
           \/ (r = 1 /\ iResult h1 = iResult h /\ passResults h1 = passResults h
               /\ exists b, buf = Some b /\ lines h = Some b :: lines h1)).
Proof.
  unfold _request, _sendRequest, unknown_recorded. intros H.
  destruct (formType md) eqn:Ef; unfold_host.
  - invert_ok. left. auto.
  - right.
    destruct (prepareRequestString md login pass) as [[rq n] | |]; cbn [rbind] in H;
      try discriminate H.
    exists rq, n. split; [reflexivity |].
    destruct (sends h) as [| s ss] eqn:Es; cbn in H.
    + invert_ok. cbn. split; [reflexivity |]. left. repeat split; auto.
    + destruct (Z.ltb_spec s 0); cbn in H.
      * invert_ok. cbn. split; [reflexivity |]. left. repeat split; eauto.
      * destruct (lines h) as [| [b |] ls] eqn:El; cbn in H; invert_ok; cbn;
          (split; [reflexivity |]); right.
        -- left. repeat split; auto.
        -- right. repeat split; eauto.
        -- left. repeat split; auto.
  - right.
    destruct (prepareRequestString md login pass) as [[rq n] | |]; cbn [rbind] in H;
      try discriminate H.
    exists rq, n. split; [reflexivity |].
    destruct (sends h) as [| s ss] eqn:Es; cbn in H.
    + invert_ok. cbn. split; [reflexivity |]. left. repeat split; auto.
    + destruct (Z.ltb_spec s 0); cbn in H.
      * invert_ok. cbn. split; [reflexivity |]. left. repeat split; eauto.
      * destruct (lines h) as [| [b |] ls] eqn:El; cbn in H; invert_ok; cbn;
          (split; [reflexivity |]); right.
        -- left. repeat split; auto.
        -- right. repeat split; eauto.
        -- left. repeat split; auto.
Qed.

(** ** A host without credentials *)

(** X17. When the host has no credentials to begin with
    ([getNextCredSet] fails, or the first set has no user), [initModule]
    returns SUCCESS at once: the loop is not entered, so the record is not
    initialised, no connection is made, nothing is sent or received and no
    verdict is recorded. *)
Theorem initModule_without_credentials (srv : sServer) (md : ModuleDataT) (h : Host)
    (n : nat) :
  no_first_user h = true ->
  exists m h0,
    initModule_enter md h = Ok (m, h0)
    /\ initModule_run srv (S n) m h0 = Ok (Return SUCCESS, h0)
    /\ moduleData m = md
    /\ connects h0 = connects h /\ disconnected h0 = disconnected h
    /\ sends h0 = sends h /\ sent h0 = sent h /\ lines h0 = lines h
    /\ passResults h0 = passResults h /\ iResult h0 = iResult h.
Proof.
  unfold no_first_user, initModule_enter. intros Hn. unfold_host.
  destruct (credentials h) as [| [cs |] rest] eqn:Ec; cbn.
  - do 2 eexists. split; [reflexivity |]. repeat split.
  - destruct (psUser cs); [discriminate Hn |].
    do 2 eexists. split; [reflexivity |]. repeat split.
  - do 2 eexists. split; [reflexivity |]. repeat split.
Qed.
(** ** After a verdict *)

Lemma next_credentials_cases (st st' : ModuleStateT) (cs cs' : sCredentialSet)
    (h h' : Host) :
  next_credentials st cs h = Ok ((st', cs'), h') ->
  (iResult h = LOGIN_RESULT_UNKNOWN /\ st' = st /\ cs' = cs /\ h' = h)
  \/ (iResult h <> LOGIN_RESULT_UNKNOWN
      /\ credentials h' = tl (credentials h)
      /\ ((st' = MSTATE_EXITING /\ cs' = cs /\ hd_error (credentials h) = None)
          \/ (st' = MSTATE_EXITING /\ cs' = cs
              /\ hd_error (credentials h) = Some None)
          \/ exists c,
               hd_error (credentials h) = Some (Some c) /\ cs' = c
               /\ ((iStatus c = CREDENTIAL_DONE /\ st' = MSTATE_EXITING)
                   \/ (iStatus c = CREDENTIAL_NEW_USER /\ st' = MSTATE_NEW
                       /\ psUser c <> None)
                   \/ (iStatus c = CREDENTIAL_SAME_USER /\ st' = st
                       /\ psUser c <> None)))).
Proof.
  unfold next_credentials, pUser. intros H. unfold_host.
  destruct (iResult h) eqn:Ei; cbn [LoginResultT_eqb] in H.
  - invert_ok. left. auto.
  - right. split; [discriminate |].
    destruct (credentials h) as [| [c |] rest] eqn:Ec; cbn in H.
    + invert_ok. rewrite Ec. split; [reflexivity |]. left. auto.
    + destruct (iStatus c) eqn:Es; cbn in H;
        try (destruct (psUser c) eqn:Eu; cbn in H; try discriminate H);
        invert_ok; cbn; (split; [reflexivity |]); right; right;
        exists cs'; (split; [reflexivity |]); (split; [reflexivity |]);
        first [ solve [left; auto]
              | solve [right; left; repeat split; auto; congruence]
              | solve [right; right; repeat split; auto; congruence] ].
    + invert_ok. cbn. split; [reflexivity |]. right. left. auto.
  - right. split; [discriminate |].
    destruct (credentials h) as [| [c |] rest] eqn:Ec; cbn in H.
    + invert_ok. rewrite Ec. split; [reflexivity |]. left. auto.
    + destruct (iStatus c) eqn:Es; cbn in H;
        try (destruct (psUser c) eqn:Eu; cbn in H; try discriminate H);
        invert_ok; cbn; (split; [reflexivity |]); right; right;
        exists cs'; (split; [reflexivity |]); (split; [reflexivity |]);
        first [ solve [left; auto]
              | solve [right; left; repeat split; auto; congruence]
              | solve [right; right; repeat split; auto; congruence] ].
    + invert_ok. cbn. split; [reflexivity |]. right. left. auto.
Qed.

Lemma list_not_cons {A : Type} (x : A) (l : list A) : l <> x :: l.
Proof.
  intros E. apply (f_equal (@List.length A)) in E. cbn in E. lia.
Qed.

(** X18. The turn of [MSTATE_RUNNING] in which a verdict is recorded.
    The verdict is for the password in hand.  When it is UNKNOWN the loop
    goes to [MSTATE_EXITING] with the credentials it had and takes no more
    from the host: whatever is left is not tried.  When it is SUCCESS or
    FAIL the loop takes the next credential set from the host, once, and
    goes on with [MSTATE_NEW], on a new connection, or to [MSTATE_EXITING]
    when there is none or the set says that the credentials are done; it
    never goes on in [MSTATE_RUNNING], on the connection it has. *)
Theorem initModule_after_verdict (srv : sServer) (m m' : Machine) (h h' : Host)
    (p : string) (v : LoginResultT) :
  nState m = MSTATE_RUNNING ->
  initModule_step srv m h = Ok (Continue m', h') ->
  passResults h' = (p, v) :: passResults h ->
  p = pPass (psCredSet m)
  /\ iResult h' = v
  /\ (v = LOGIN_RESULT_UNKNOWN ->
      nState m' = MSTATE_EXITING /\ psCredSet m' = psCredSet m
      /\ moduleData m' = moduleData m
      /\ credentials h' = credentials h)
  /\ (v <> LOGIN_RESULT_UNKNOWN ->
      credentials h' = tl (credentials h)
      /\ (nState m' = MSTATE_NEW \/ nState m' = MSTATE_EXITING)
      /\ (nState m' = MSTATE_NEW ->
          exists c, hd_error (credentials h) = Some (Some c)
                    /\ psCredSet m' = c /\ psUser c <> None
                    /\ iStatus c <> CREDENTIAL_DONE)).
Proof.
  intros Hs Hstep Hp.
  destruct (initModule_step_cases _ _ _ _ _ Hstep)
    as [(E & _) | [(E & _) | [(E & _)
        | [(_ & _ & _ & u & st & md' & h1 & st' & cs' & _ & Hl & Hn & Hst' & Em)
          | (E & _)]]]]; try congruence.
  inversion Em; subst m'. cbn [nState psCredSet moduleData].
  destruct (next_credentials_host _ _ _ _ _ _ Hn) as (_ & _ & Ep & Ei & _).
  destruct (tryLogin_connections _ _ _ _ _ _ _ _ Hl) as (_ & _ & Hst & Ec).
  assert (Hmd : st = MSTATE_EXITING -> md' = moduleData m).
  { destruct (tryLogin_record _ _ _ _ _ _ _ _ Hl)
      as (r & buf & h2 & _ & [(_ & E) | [(E & _) | (E & _)]]);
      [intros _; exact E | intros E'; congruence | intros E'; congruence]. }
  rewrite Ep in Hp. rewrite Ei.
  assert (Hrec : passResults h1 = (pPass (psCredSet m), iResult h1) :: passResults h
                 /\ (st = MSTATE_NEW ->
                     iResult h1 = LOGIN_RESULT_SUCCESS
                     \/ iResult h1 = LOGIN_RESULT_FAIL)
                 /\ (st = MSTATE_EXITING -> iResult h1 = LOGIN_RESULT_UNKNOWN)).
  { destruct (tryLogin_outcomes _ _ _ _ _ _ _ _ Hl)
      as (r & buf & h2 & _ & [(_ & E & _) | [(-> & Hi & E)
                             | [(_ & _ & E & _) | (-> & _ & Hv & E)]]]).
    - rewrite E in Hp. now contradiction (list_not_cons (p, v) (passResults h)).
    - rewrite Hi. split; [exact E |]. split; [intros E'; discriminate E' | reflexivity].
    - rewrite E in Hp. now contradiction (list_not_cons (p, v) (passResults h)).
    - split; [exact E |]. split; [intros _; exact Hv | intros E'; discriminate E']. }
  destruct Hrec as (E & Hv & Hu).
  rewrite E in Hp. injection Hp as Epass Ev. subst p v.
  split; [reflexivity |]. split; [reflexivity |].
  destruct (next_credentials_cases _ _ _ _ _ _ Hn)
    as [(Hi & -> & -> & ->) | (Hi & Hc & Hcase)].
  - split.
    + intros _. destruct Hst as [-> | ->].
      * destruct (Hv eq_refl) as [Hx | Hx]; congruence.
      * repeat split; auto.
    + intros Hne. congruence.
  - split; [intros Hx; congruence |].
    intros _. rewrite Hc, Ec. split; [reflexivity |]. split; [exact Hst' |].
    intros ->.
    destruct Hcase as [(Hx & _) | [(Hx & _) | (c & Hh & -> & Hk)]];
      try discriminate Hx.
    exists c. rewrite <- Ec. split; [exact Hh |]. split; [reflexivity |].
    destruct Hk as [(_ & Hx) | [(Hk & _ & Hu') | (Hk & _ & Hu')]];
      [discriminate Hx | |]; split; auto; rewrite Hk; discriminate.
Qed.

End WebForm.

(** * Examples: the theorems at concrete inputs, and inputs at which the
    claims of the specification fail *)

(** [example_config] is what [MSTATE_INITIALIZE] makes of the record of a
    call without options. *)
Lemma example_config_initialized :
  initialize example_user_agent example_server (nPort example_server)
    (go_moduleData FORM_UNKNOWN None None None None None 0)
  = Ok example_config.
Proof. reflexivity. Qed.

(** C1: a first line without a space.  [tryLogin] returns
    [MSTATE_EXITING]; no password is recorded and [iResult] is what it
    was. *)
Lemma tryLogin_parse_error_unrecorded_witness :
  exists h1 : Host,
    _request example_MSTATE_EXITING 3 example_config "alice" "secret"
      (example_host [Some ("garbage" ++ CRLF)])
    = Ok ((1, Some ("garbage" ++ CRLF)), h1)
    /\ parseHttpStatusCode (Some ("garbage" ++ CRLF)) = HTTP_STATUS_PARSE_ERR
    /\ tryLogin example_MSTATE_EXITING example_resolvePath 3 example_config
         "alice" "secret" (example_host [Some ("garbage" ++ CRLF)])
       = Ok ((MSTATE_EXITING, example_config), h1)
    /\ passResults h1 = []
    /\ iResult h1 = LOGIN_RESULT_UNKNOWN.
Proof.
  assert (H : exists h1 : Host,
            _request example_MSTATE_EXITING 3 example_config "alice" "secret"
              (example_host [Some ("garbage" ++ CRLF)])
            = Ok ((1, Some ("garbage" ++ CRLF)), h1))
    by (eexists; lazy; reflexivity).
  destruct H as [h1 Hreq]. exists h1.
  split; [exact Hreq |]. split; [reflexivity |].
  exact (tryLogin_parse_error_unrecorded example_MSTATE_EXITING example_resolvePath
           3 example_config "alice" "secret" _ _ h1 1 Hreq eq_refl).
Defined.

(** C2: the table at three status lines. *)
Lemma parseHttpStatusCode_table_witness :
  parseHttpStatusCode (Some ("HTTP/1.1" ++ String " " (numeral [2; 0; 0] ++ " OK")))
  = HTTP_OK
  /\ parseHttpStatusCode (Some ("HTTP/1.1" ++ String " " (numeral [9; 9; 9] ++ " Fictional")))
     = HTTP_STATUS_NOT_IMPL
  /\ parseHttpStatusCode (Some ("HTTP/1.1" ++ String " " "abc")) = HTTP_STATUS_NOT_IMPL
  /\ parseHttpStatusCode (Some "HTTP/1.1") = HTTP_STATUS_PARSE_ERR.
Proof.
  destruct parseHttpStatusCode_table as (_ & H2 & H3 & H4).
  assert (Hd : forall a b c : Z, 0 <= a <= 9 -> 0 <= b <= 9 -> 0 <= c <= 9 ->
                 Forall is_digit_value [a; b; c])
    by (intros a b c Ha Hb Hc; repeat (apply Forall_cons; [assumption |]);
        apply Forall_nil).
  split; [| split; [| split]].
  - apply (H3 "HTTP/1.1" 2 [0; 0] " OK"); [reflexivity | apply Hd; lia | reflexivity | reflexivity].
  - apply (H3 "HTTP/1.1" 9 [9; 9] " Fictional");
      [reflexivity | apply Hd; lia | reflexivity | reflexivity].
  - apply (H4 "HTTP/1.1" "abc"); reflexivity.
  - apply (H2 "HTTP/1.1"); reflexivity.
Defined.

(** C2, against the claim: text that is no number after the first space
    gives [HTTP_STATUS_NOT_IMPL], not [HTTP_STATUS_PARSE_ERR]. *)
Lemma parseHttpStatusCode_non_numeric :
  parseHttpStatusCode (Some ("HTTP/1.1 abc" ++ CRLF)) = HTTP_STATUS_NOT_IMPL.
Proof. reflexivity. Qed.

(** A number that does not fit 32 bits is read by its low 32 bits. *)
Example parseHttpStatusCode_wraps :
  parseHttpStatusCode (Some "HTTP/1.1 4294967496 OK") = HTTP_OK.
Proof. reflexivity. Qed.

(** C3: a 302 on a POST form. *)
Lemma tryLogin_redirect_method_witness :
  exists (h1 : Host) (md' : ModuleDataT) (h' : Host),
    _request example_MSTATE_EXITING 3 example_config "alice" "secret"
      (example_host [Some response_302_absolute])
    = Ok ((1, Some response_302_absolute), h1)
    /\ tryLogin example_MSTATE_EXITING example_resolvePath 3 example_config
         "alice" "secret" (example_host [Some response_302_absolute])
       = Ok ((MSTATE_NEW, md'), h')
    /\ formType example_config = FORM_POST
    /\ formType md' = FORM_GET
    /\ changedRequestType md' = true.
Proof.
  assert (H : exists (h1 : Host) (md' : ModuleDataT) (h' : Host),
            _request example_MSTATE_EXITING 3 example_config "alice" "secret"
              (example_host [Some response_302_absolute])
            = Ok ((1, Some response_302_absolute), h1)
            /\ tryLogin example_MSTATE_EXITING example_resolvePath 3 example_config
                 "alice" "secret" (example_host [Some response_302_absolute])
               = Ok ((MSTATE_NEW, md'), h'))
    by (do 3 eexists; split; lazy; reflexivity).
  destruct H as (h1 & md' & h' & Hreq & Hlog).
  exists h1, md', h'. split; [exact Hreq |]. split; [exact Hlog |].
  split; [reflexivity |].
  destruct (tryLogin_redirect_method _ _ _ _ _ _ _ _ _ _ _ _ _ Hreq Hlog)
    as (_ & H2 & _).
  destruct (H2 (or_intror eq_refl)) as [(_ & _ & H) | (_ & Hf & Hc & _)].
  - discriminate (H eq_refl).
  - split; assumption.
Defined.

(** C4: 200 OK in the middle of a redirect that changed the method. *)
Lemma tryLogin_ok_restores_witness :
  exists h1 h' : Host,
    _request example_MSTATE_EXITING 3 example_config_changed "alice" "secret"
      (example_host response_200)
    = Ok ((1, Some ("HTTP/1.1 200 OK" ++ CRLF)), h1)
    /\ changedRequestType example_config_changed = true
    /\ tryLogin example_MSTATE_EXITING example_resolvePath 3 example_config_changed
         "alice" "secret" (example_host response_200)
       = Ok ((MSTATE_NEW, example_config), h').
Proof.
  assert (H : exists h1 : Host,
            _request example_MSTATE_EXITING 3 example_config_changed "alice" "secret"
              (example_host response_200)
            = Ok ((1, Some ("HTTP/1.1 200 OK" ++ CRLF)), h1))
    by (eexists; lazy; reflexivity).
  destruct H as [h1 Hreq].
  destruct (tryLogin_ok_restores example_MSTATE_EXITING example_resolvePath
              _ _ _ _ _ _ _ _ Hreq eq_refl eq_refl) as (_ & H & _).
  destruct (H _ eq_refl) as [h' Hlog].
  exists h1, h'. split; [exact Hreq |]. split; [reflexivity | exact Hlog].
Defined.

(** The machine at the start of the loop, for a call without options. *)
Lemma example_enter (received : list (option string)) :
  initModule_enter (go_moduleData FORM_UNKNOWN None None None None None 0)
    (example_host received)
  = Ok (mkMachine MSTATE_INITIALIZE (-1)
          (go_moduleData FORM_UNKNOWN None None None None None 0) example_credentials,
        mkHost [] [3; 4; 5] [1; 1; 1] received LOGIN_RESULT_UNKNOWN [] [] []).
Proof. reflexivity. Qed.

(** C5: a 302 with a relative Location on a POST form.  After the turn
    that follows it, [changedRequestType] is set and [resourcePathOld]
    holds the path of before. *)
Lemma resourcePathOld_when_changed_witness :
  (forall b t, example_resolvePath b t <> None)
  /\ exists (m : Machine) (h : Host),
       reachable_by example_MSTATE_EXITING example_resolvePath example_user_agent
         relative_turn example_server m h
       /\ changedRequestType (moduleData m) = true
       /\ resourcePath (moduleData m) = Some "/home"
       /\ resourcePathOld (moduleData m) <> None.
Proof.
  assert (Hrp : forall b t, example_resolvePath b t <> None)
    by (intros [b |] t; discriminate).
  split; [exact Hrp |].
  assert (H : exists (m : Machine) (h : Host),
            reachable_by example_MSTATE_EXITING example_resolvePath example_user_agent
              relative_turn example_server m h
            /\ changedRequestType (moduleData m) = true
            /\ resourcePath (moduleData m) = Some "/home").
  { do 2 eexists. split; [| split].
    - eapply reach_step;
        [ eapply reach_step;
          [ eapply reach_step;
            [ eapply reach_enter; apply (example_enter [Some response_302_relative])
            | intros Hs; discriminate Hs
            | lazy; reflexivity ]
          | intros Hs; discriminate Hs
          | lazy; reflexivity ]
        | | lazy; reflexivity ].
      intros _ buf rest loc Hl Hr Hloc.
      cbn [lines] in Hl. inversion Hl; subst buf rest.
      lazy in Hloc. inversion Hloc; subst loc. reflexivity.
    - reflexivity.
    - reflexivity. }
  destruct H as (m & h & Hreach & Hc & Hp).
  exists m, h. split; [exact Hreach |]. split; [exact Hc |]. split; [exact Hp |].
  exact (resourcePathOld_when_changed _ _ _ _ m h Hrp Hreach Hc).
Defined.

(** C5, against the claim: a 307 with a relative Location.  The turn that
    follows it leaves [resourcePathOld] present and [changedRequestType]
    clear. *)
Lemma resourcePathOld_without_change :
  exists (m : Machine) (h : Host),
    reachable example_MSTATE_EXITING example_resolvePath example_user_agent
      example_server m h
    /\ resourcePathOld (moduleData m) = Some "/"
    /\ changedRequestType (moduleData m) = false.
Proof.
  do 2 eexists. split; [| split].
  - eapply reach_step;
      [ eapply reach_step;
        [ eapply reach_step;
          [ eapply reach_enter; apply (example_enter [Some response_307_relative])
          | exact I
          | lazy; reflexivity ]
        | exact I
        | lazy; reflexivity ]
      | exact I
      | lazy; reflexivity ].
  - reflexivity.
  - reflexivity.
Qed.

(** The other half of the equivalence fails as well, by a case that
    [_resolveLocationPath] misses: a 302 with an absolute Location on a POST
    form sets [changedRequestType] and keeps no path, and the 200 OK that
    ends the redirect leaves the record without a resource path. *)
Example resourcePath_lost_after_absolute_redirect :
  exists (m : Machine) (h : Host),
    initModule_run example_MSTATE_EXITING example_resolvePath example_user_agent
      example_server 3
      (mkMachine MSTATE_INITIALIZE (-1)
         (go_moduleData FORM_UNKNOWN None None None None None 0) example_credentials)
      (example_host (Some response_302_absolute :: response_200))
    = Ok (Continue m, h)
    /\ changedRequestType (moduleData m) = true
    /\ resourcePathOld (moduleData m) = None
    /\ exists (m' : Machine) (h' : Host),
         initModule_run example_MSTATE_EXITING example_resolvePath example_user_agent
           example_server 2 m h
         = Ok (Continue m', h')
         /\ resourcePath (moduleData m') = None
         /\ passResults h' = [("secret", LOGIN_RESULT_SUCCESS)].
Proof.
  do 2 eexists. split; [lazy; reflexivity |].
  split; [reflexivity |]. split; [reflexivity |].
  do 2 eexists. split; [lazy; reflexivity |].
  split; reflexivity.
Qed.



(** C7: an ASCII password. *)
Lemma urlencodeup_ascii_roundtrip_witness :
  forallb is_ascii (list_ascii_of_string "p@ss w0rd!") = true
  /\ exists out : list ascii,
       urlencodeup "p@ss w0rd!" = Ok (string_of_list_ascii out)
       /\ out = percent_encode (list_ascii_of_string "p@ss w0rd!")
       /\ forallb url_charset out = true
       /\ percent_decode out = list_ascii_of_string "p@ss w0rd!".
Proof.
  split; [reflexivity |].
  exact (urlencodeup_ascii_roundtrip "p@ss w0rd!" eq_refl).
Defined.

(** C7, against the claim: the byte 0xE9.  Read as a [char] it is negative,
    its conversion to [unsigned int] is 0xFFFFFFE9, and of what [%02X]
    prints for that, the loop keeps a percent sign and two digits: the
    output is not the two-digit value of the byte, and decoding it gives
    0xFF. *)
Lemma urlencodeup_high_byte :
  urlencodeup (String (chr 233) "ab") = Ok "%FFab"
  /\ string_of_list_ascii (percent_encode (list_ascii_of_string (String (chr 233) "ab")))
     = "%E9ab"
  /\ percent_decode (list_ascii_of_string "%FFab") = [chr 255; "a"%char; "b"%char].
Proof.
  split; [reflexivity |]. split; reflexivity.
Qed.

(** Where the byte is the last of the string, the seven bytes that
    [snprintf] writes do not fit the buffer. *)
Example urlencodeup_high_byte_last : urlencodeup (String (chr 233) EmptyString) = Fault.
Proof. reflexivity. Qed.

(** C8: an absolute target with a query, a URI, and the empty target. *)
Lemma _resolveLocationPath_cases_witness :
  _resolveLocationPath example_resolvePath (Some "/v2/login?next=1") example_config
  = Ok (set_resourcePath (Some "/v2/login") example_config)
  /\ _resolveLocationPath example_resolvePath (Some "HTTP://other.example/x") example_config
     = Ok (set_resourcePath (Some "HTTP://other.example/x")
             (set_hostHeader (Some "HTTP://other.example/x") example_config))
  /\ _resolveLocationPath example_resolvePath (Some "?a=b") example_config
     = Ok (set_resourcePath (Some "/") (set_resourcePathOld (Some "/") example_config)).
Proof.
  split; [| split].
  - destruct (_resolveLocationPath_cases example_resolvePath "/v2/login?next=1"
                example_config) as (_ & H & _).
    exact (H "v2/login" eq_refl).
  - destruct (_resolveLocationPath_cases example_resolvePath "HTTP://other.example/x"
                example_config) as (_ & _ & H & _).
    apply H; [reflexivity | cbn; lia].
  - destruct (_resolveLocationPath_cases example_resolvePath "?a=b"
                example_config) as (_ & _ & _ & H & _).
    exact (H eq_refl).
Defined.

(** C8, against the claim: the empty target is not of unknown type but
    relative, and the record is changed: [resourcePathOld], absent before,
    holds the resource path; this whatever [resolvePath] returns. *)
Lemma _resolveLocationPath_empty_target :
  _pathType (Some EmptyString) = PATHTYPE_RELATIVE
  /\ resourcePathOld example_config = None
  /\ forall resolvePath : option string -> string -> option string,
       _resolveLocationPath resolvePath (Some EmptyString) example_config
       = Ok (set_resourcePath (resolvePath (Some "/") EmptyString)
               (set_resourcePathOld (Some "/") example_config)).
Proof.
  split; [reflexivity |]. split; [reflexivity |]. intros rp. reflexivity.
Qed.

(** A target that is [http] and nothing more is relative too. *)
Example _pathType_http_only : _pathType (Some "http") = PATHTYPE_RELATIVE.
Proof. reflexivity. Qed.

(** C9: a body that holds the deny signal in another case. *)
Lemma tryLogin_deny_signal_witness :
  exists h1 h' : Host,
    _request example_MSTATE_EXITING 3 example_config "alice" "secret"
      (example_host [Some ("HTTP/1.1 200 OK" ++ CRLF); Some CRLF;
                     Some "<p>LOGIN INCORRECT</p>"])
    = Ok ((1, Some ("HTTP/1.1 200 OK" ++ CRLF)), h1)
    /\ tryLogin example_MSTATE_EXITING example_resolvePath 3 example_config
         "alice" "secret"
         (example_host [Some ("HTTP/1.1 200 OK" ++ CRLF); Some CRLF;
                        Some "<p>LOGIN INCORRECT</p>"])
       = Ok ((MSTATE_NEW, example_config), h')
    /\ iResult h' = LOGIN_RESULT_FAIL
    /\ passResults h' = [("secret", LOGIN_RESULT_FAIL)].
Proof.
  assert (H : exists h1 : Host,
            _request example_MSTATE_EXITING 3 example_config "alice" "secret"
              (example_host [Some ("HTTP/1.1 200 OK" ++ CRLF); Some CRLF;
                             Some "<p>LOGIN INCORRECT</p>"])
            = Ok ((1, Some ("HTTP/1.1 200 OK" ++ CRLF)), h1)
            /\ lines h1 = [Some CRLF; Some "<p>LOGIN INCORRECT</p>"]
            /\ passResults h1 = [])
    by (eexists; split; [lazy; reflexivity | split; reflexivity]).
  destruct H as (h1 & Hreq & Hl & Hp).
  destruct (tryLogin_deny_signal example_MSTATE_EXITING example_resolvePath
              _ _ _ _ MODULE_DEFAULT_DENY_SIGNAL _ _ _ _ Hreq eq_refl eq_refl)
    as (h' & Hlog & Hfail & _ & Hrec).
  assert (Hf : iResult h' = LOGIN_RESULT_FAIL).
  { apply Hfail. exists "<p>LOGIN INCORRECT</p>". split.
    - rewrite Hl. cbn. auto.
    - exists "<p>", "LOGIN INCORRECT", "</p>". split; reflexivity. }
  exists h1, h'. split; [exact Hreq |]. split; [exact Hlog |].
  split; [exact Hf |]. now rewrite Hrec, Hf, Hp.
Defined.

(** C9, against the claim: a deny signal that the status line holds.  The
    verdict is FAIL although no line after the first one holds the
    signal; this whatever the other files of the module define. *)
Lemma tryLogin_deny_signal_in_status_line :
  existsb (contains_signal "OK") (received_lines [Some CRLF; Some "Welcome!"]) = false
  /\ forall (exiting : Z) (resolvePath : option string -> string -> option string),
       tryLogin exiting resolvePath 3 (set_denySignal (Some "OK") example_config)
         "alice" "secret" (example_host response_200)
       = Ok ((MSTATE_NEW, set_denySignal (Some "OK") example_config),
             mkHost [Some example_credentials] [3; 4; 5] [1; 1]
               [Some CRLF; Some "Welcome!"] LOGIN_RESULT_FAIL
               [("secret", LOGIN_RESULT_FAIL)]
               [(Some ("POST / HTTP/1.1" ++ CRLF ++ "Host: example.org:80" ++ CRLF
                       ++ "User-Agent: medusa" ++ CRLF
                       ++ "Content-Type: application/x-www-form-urlencoded" ++ CRLF
                       ++ "Content-Length: 30" ++ CRLF ++ CRLF
                       ++ "username=alice&password=secret"), 160)]
               []).
Proof.
  split; [reflexivity |]. intros exiting rp. reflexivity.
Qed.

(** C10: [MSTATE_INITIALIZE] on FORM-DATA with a method that is neither
    get nor post; the state from which [tryLogin] is first called. *)
Lemma abort_unreachable_witness :
  initialize example_user_agent example_server 80
    (go_moduleData FORM_UNKNOWN None None (Some "put?user=&pass=") None None 0)
  = Ok (set_formData (Some "put") example_config)
  /\ (exists (m : Machine) (h : Host),
        reachable example_MSTATE_EXITING example_resolvePath example_user_agent
          example_server m h
        /\ nState m = MSTATE_RUNNING
        /\ (formType (moduleData m) = FORM_POST \/ formType (moduleData m) = FORM_GET))
  /\ aborted (prepareRequestParamString (newModuleData FORM_UNKNOWN) "alice" "secret") = true
  /\ _request example_MSTATE_EXITING 3 (newModuleData FORM_UNKNOWN) "alice" "secret"
       (example_host response_200)
     = Ok ((example_MSTATE_EXITING, None), example_host response_200).
Proof.
  destruct (abort_unreachable example_MSTATE_EXITING example_resolvePath
              example_user_agent) as (H1 & H2 & H3 & H4 & _).
  split; [reflexivity |]. split; [| split; [reflexivity |]].
  - assert (H : exists (m : Machine) (h : Host),
              reachable example_MSTATE_EXITING example_resolvePath example_user_agent
                example_server m h
              /\ nState m = MSTATE_RUNNING).
    { do 2 eexists. split;
        [ eapply reach_step;
          [ eapply reach_step;
            [ eapply reach_enter; apply (example_enter response_200)
            | exact I
            | lazy; reflexivity ]
          | exact I
          | lazy; reflexivity ]
        | reflexivity ]. }
    destruct H as (m & h & Hreach & Hs).
    exists m, h. split; [exact Hreach |]. split; [exact Hs |].
    exact (H3 example_server m h Hreach Hs).
  - exact (H4 3 (newModuleData FORM_UNKNOWN) "alice" "secret"
             (example_host response_200) eq_refl).
Defined.

(** * Examples of the further properties *)

(** X3: a Location header in capitals with two spaces before its value;
    a header at the end of the buffer, after which the scan leaves it. *)
Lemma _findHeaderValue_value_witness :
  _findHeaderValue (CRLF ++ "Location:") (Some response_302_uri)
  = Ok (Some ("http://other.example/x?y=1", CRLF ++ CRLF))
  /\ header_value "http://other.example/x?y=1" = true
  /\ _findHeaderValue (CRLF ++ "Location:")
       (Some ("HTTP/1.1 302 Found" ++ CRLF ++ "Location: /home"))
     = Fault.
Proof.
  destruct (_findHeaderValue_value (CRLF ++ "Location:") response_302_uri)
    as (_ & H2 & H3 & _).
  assert (E : _findHeaderValue (CRLF ++ "Location:") (Some response_302_uri)
              = Ok (Some ("http://other.example/x?y=1", CRLF ++ CRLF))).
  { apply (H3 (CRLF ++ "LOCATION:") "  " "http://other.example/x?y=1" CR
              (String LF CRLF)); reflexivity. }
  split; [exact E |]. split; [exact (proj1 (H2 _ _ E)) |].
  destruct (_findHeaderValue_value (CRLF ++ "Location:")
              ("HTTP/1.1 302 Found" ++ CRLF ++ "Location: /home"))
    as (_ & _ & _ & H4).
  apply (H4 (CRLF ++ "Location:") " " "/home"); reflexivity.
Defined.

(** X4: the byte 0xE9 with two bytes after it, and as the last byte. *)
Lemma urlencodeup_any_bytes_witness :
  high_bytes_early (list_ascii_of_string (String (chr 233) "ab")) = true
  /\ urlencodeup (String (chr 233) "ab") = Ok "%FFab"
  /\ urlencodeup (String (chr 233) EmptyString) = Fault
  /\ high_bytes_early (list_ascii_of_string (String (chr 233) EmptyString)) = false.
Proof.
  split; [reflexivity |]. split.
  - exact (proj1 (proj2 (urlencodeup_any_bytes (String (chr 233) "ab"))) eq_refl).
  - split; [reflexivity |].
    exact (proj1 (proj2 (proj2 (urlencodeup_any_bytes (String (chr 233) EmptyString))))
             eq_refl).
Defined.

(** X5: a 200 OK whose body does not hold the deny signal. *)
Lemma tryLogin_verdict_witness :
  exists h' : Host,
    tryLogin example_MSTATE_EXITING example_resolvePath 3 example_config
      "alice" "secret" (example_host response_200)
    = Ok ((MSTATE_NEW, example_config), h')
    /\ passResults h' = [("secret", LOGIN_RESULT_SUCCESS)]
    /\ (passResults h' = [] /\ iResult h' = LOGIN_RESULT_UNKNOWN
        \/ passResults h' = [("secret", iResult h')]
           /\ (iResult h' = LOGIN_RESULT_SUCCESS \/ iResult h' = LOGIN_RESULT_FAIL)).
Proof.
  assert (H : exists h' : Host,
            tryLogin example_MSTATE_EXITING example_resolvePath 3 example_config
              "alice" "secret" (example_host response_200)
            = Ok ((MSTATE_NEW, example_config), h')
            /\ passResults h' = [("secret", LOGIN_RESULT_SUCCESS)])
    by (eexists; split; [lazy; reflexivity | reflexivity]).
  destruct H as (h' & Hlog & Hp). exists h'.
  split; [exact Hlog |]. split; [exact Hp |].
  destruct (tryLogin_verdict _ _ _ _ _ _ _ _ _ _ Hlog) as [H | (H1 & _ & H3)].
  - left. exact H.
  - right. split; [exact H1 | exact (proj1 (H3 eq_refl))].
Defined.

(** X6: the same turn, seen from the host. *)
Lemma tryLogin_host_frame_witness :
  exists h' : Host,
    tryLogin example_MSTATE_EXITING example_resolvePath 3 example_config
      "alice" "secret" (example_host response_200)
    = Ok ((MSTATE_NEW, example_config), h')
    /\ lines h' = []
    /\ credentials h' = [Some example_credentials]
    /\ connects h' = [3; 4; 5]
    /\ disconnected h' = []
    /\ exists rq n,
         prepareRequestString example_config "alice" "secret" = Ok (rq, n)
         /\ sent h' = [(rq, n)].
Proof.
  assert (H : exists h' : Host,
            tryLogin example_MSTATE_EXITING example_resolvePath 3 example_config
              "alice" "secret" (example_host response_200)
            = Ok ((MSTATE_NEW, example_config), h')
            /\ lines h' = [])
    by (eexists; split; [lazy; reflexivity | reflexivity]).
  destruct H as (h' & Hlog & Hl). exists h'.
  split; [exact Hlog |]. split; [exact Hl |].
  destruct (tryLogin_host_frame _ _ _ _ _ _ _ _ _ _ Hlog)
    as (Hc & Hn & Hd & _ & [(Hf & _) | Hs]).
  - discriminate Hf.
  - split; [exact Hc |]. split; [exact Hn |]. split; [exact Hd | exact Hs].
Defined.

(** X7: a redirect to a URI. *)
Lemma tryLogin_record_frame_witness :
  exists (md' : ModuleDataT) (h' : Host),
    tryLogin example_MSTATE_EXITING example_resolvePath 3 example_config
      "alice" "secret" (example_host [Some response_302_uri])
    = Ok ((MSTATE_NEW, md'), h')
    /\ hostHeader md' = Some "http://other.example/x"
    /\ resourcePath md' = Some "http://other.example/x"
    /\ same_form md' example_config
    /\ exists (r : Z) (buf : option string) (h1 : Host) (loc : string),
         _request example_MSTATE_EXITING 3 example_config "alice" "secret"
           (example_host [Some response_302_uri])
         = Ok ((r, buf), h1)
         /\ is_redirect (parseHttpStatusCode buf) = true
         /\ findLocationHeaderValue buf = Ok (Some loc)
         /\ hostHeader md' = Some (strip_parameters loc).
Proof.
  assert (H : exists (md' : ModuleDataT) (h' : Host),
            tryLogin example_MSTATE_EXITING example_resolvePath 3 example_config
              "alice" "secret" (example_host [Some response_302_uri])
            = Ok ((MSTATE_NEW, md'), h')
            /\ hostHeader md' = Some "http://other.example/x"
            /\ resourcePath md' = Some "http://other.example/x")
    by (do 2 eexists; split; [lazy; reflexivity | split; reflexivity]).
  destruct H as (md' & h' & Hlog & Hh & Hr). exists md', h'.
  split; [exact Hlog |]. split; [exact Hh |]. split; [exact Hr |].
  destruct (tryLogin_record_frame _ _ _ _ _ _ _ _ _ _ Hlog)
    as (Hs & _ & _ & r & buf & h1 & Hreq & [Hsame | (_ & Hred & loc & Hl & _ & Hl' & _)] & _).
  - rewrite Hh in Hsame. discriminate Hsame.
  - split; [exact Hs |]. exists r, buf, h1, loc. auto.
Defined.

(** X8: a password with a byte above 127, and a 200 OK. *)
Lemma tryLogin_defined_witness :
  configured example_config
  /\ resourcePath example_config = Some "/"
  /\ high_bytes_early (list_ascii_of_string (String (chr 233) "ab")) = true
  /\ is_redirect (parseHttpStatusCode (Some ("HTTP/1.1 200 OK" ++ CRLF))) = false
  /\ exists st md' h',
       tryLogin example_MSTATE_EXITING example_resolvePath 3 example_config
         "alice" (String (chr 233) "ab") (example_host response_200)
       = Ok ((st, md'), h').
Proof.
  assert (Hc : configured example_config).
  { split; [| split; [now left | intros E; discriminate E]].
    exists "example.org:80", example_user_agent, MODULE_DEFAULT_DENY_SIGNAL,
      MODULE_DEFAULT_USERNAME_KEY, MODULE_DEFAULT_PASSWORD_KEY, EmptyString, EmptyString.
    repeat split; discriminate. }
  split; [exact Hc |].
  split; [reflexivity |]. split; [reflexivity |]. split; [reflexivity |].
  apply (tryLogin_defined example_MSTATE_EXITING example_resolvePath 3 example_config
           "alice" (String (chr 233) "ab") "/" (example_host response_200)).
  - exact Hc.
  - reflexivity.
  - right. reflexivity.
  - reflexivity.
Defined.

(** X9: a GET form with a rest, and a method that is neither. *)
Lemma initialize_form_data_witness :
  token is_question_mark "GET" = true
  /\ token is_ampersand "user=" = true
  /\ token is_ampersand "pass=" = true
  /\ (exists md' : ModuleDataT,
        initialize example_user_agent example_server 80
          (go_moduleData FORM_UNKNOWN None None (Some "GET?user=&pass=&submit=1")
             None None 0)
        = Ok md'
        /\ formType md' = FORM_GET
        /\ formUserKey md' = Some "user=" /\ formPassKey md' = Some "pass="
        /\ formRest md' = Some "submit=1")
  /\ (exists md' : ModuleDataT,
        initialize example_user_agent example_server 80
          (go_moduleData FORM_UNKNOWN None None (Some "put?user=&pass=")
             None None 0)
        = Ok md'
        /\ formType md' = FORM_POST
        /\ formUserKey md' = Some MODULE_DEFAULT_USERNAME_KEY
        /\ formPassKey md' = Some MODULE_DEFAULT_PASSWORD_KEY
        /\ formRest md' = Some EmptyString).
Proof.
  split; [reflexivity |]. split; [reflexivity |]. split; [reflexivity |]. split.
  - destruct (initialize_form_data example_user_agent example_server 80 FORM_UNKNOWN
                None None None None 0 "GET" "user=" "pass=" (Some "submit=1")
                eq_refl eq_refl eq_refl) as (md' & E & _ & _ & Hget & _).
    exists md'. split; [exact E | exact (Hget eq_refl)].
  - destruct (initialize_form_data example_user_agent example_server 80 FORM_UNKNOWN
                None None None None 0 "put" "user=" "pass=" None
                eq_refl eq_refl eq_refl) as (md' & E & _ & _ & _ & Hother).
    exists md'. split; [exact E | exact (Hother eq_refl eq_refl)].
Defined.

(** X10: a call with the option FORM only. *)
Lemma initialize_defaults_witness :
  exists md' : ModuleDataT,
    initialize example_user_agent example_server 80
      (go_moduleData FORM_UNKNOWN (Some "/login") None None None None 0)
    = Ok md'
    /\ resourcePath md' = Some "/login"
    /\ hostHeader md' = Some "example.org:80"
    /\ userAgentHeader md' = Some example_user_agent
    /\ denySignal md' = Some MODULE_DEFAULT_DENY_SIGNAL
    /\ cookieJar md' = Some EmptyString
    /\ formType md' = FORM_POST.
Proof.
  assert (H : exists md' : ModuleDataT,
            initialize example_user_agent example_server 80
              (go_moduleData FORM_UNKNOWN (Some "/login") None None None None 0)
            = Ok md')
    by (eexists; reflexivity).
  destruct H as (md' & E). exists md'. split; [exact E |].
  destruct (initialize_defaults _ _ _ _ _ _ _ _ _ _ _ E)
    as (H1 & H2 & H3 & H4 & _ & _ & H7 & _ & _ & _ & _ & H12).
  repeat split; try assumption. exact (proj1 (H12 eq_refl)).
Defined.

(** X11: two custom headers, an option given twice, an unknown option and
    an option without value. *)
Lemma go_options_record_witness :
  Forall (fun arg => only is_colon arg = false) example_argv
  /\ go_options example_argv (newModuleData FORM_UNKNOWN)
     = Ok (go_moduleData FORM_UNKNOWN (Some "/signin") None None None
             (Some ("X-A: 1" ++ CRLF ++ "X-B: 2" ++ CRLF)) 2)
  /\ last_value "FORM" example_argv = Some "/signin"
  /\ last_value "DENY-SIGNAL" example_argv = None
  /\ values_of "CUSTOM-HEADER" example_argv = ["X-A: 1"; "X-B: 2"]
  /\ go_moduleData FORM_UNKNOWN (Some "/signin") None None None
       (Some ("X-A: 1" ++ CRLF ++ "X-B: 2" ++ CRLF)) 2
     = go_moduleData FORM_UNKNOWN
         (last_value "FORM" example_argv) (last_value "DENY-SIGNAL" example_argv)
         (last_value "FORM-DATA" example_argv) (last_value "USER-AGENT" example_argv)
         (custom_headers_of (values_of "CUSTOM-HEADER" example_argv))
         (Z.of_nat (List.length (values_of "CUSTOM-HEADER" example_argv)))
  /\ crlf_terminated ("X-A: 1" ++ CRLF ++ "X-B: 2" ++ CRLF).
Proof.
  assert (Ha : Forall (fun arg => only is_colon arg = false) example_argv)
    by (repeat (apply Forall_cons; [reflexivity |]); apply Forall_nil).
  split; [exact Ha |].
  assert (E : go_options example_argv (newModuleData FORM_UNKNOWN)
              = Ok (go_moduleData FORM_UNKNOWN (Some "/signin") None None None
                      (Some ("X-A: 1" ++ CRLF ++ "X-B: 2" ++ CRLF)) 2))
    by reflexivity.
  split; [exact E |].
  split; [reflexivity |]. split; [reflexivity |]. split; [reflexivity |].
  destruct (proj1 (go_options_record FORM_UNKNOWN example_argv) _ E) as (Hmd & H).
  split; [exact Hmd |].
  exact (proj2 (H _ eq_refl)).
Defined.

(** X12: a value that holds colons. *)
Lemma go_option_table_witness :
  go_option "FORM:http://example.org:8080/login" (newModuleData FORM_UNKNOWN)
  = Ok (set_resourcePath (Some "http://example.org:8080/login")
          (newModuleData FORM_UNKNOWN))
  /\ go_option "VERBOSE:http://example.org:8080/login" (newModuleData FORM_UNKNOWN)
     = Ok (newModuleData FORM_UNKNOWN).
Proof.
  assert (Hv : "http://example.org:8080/login" <> EmptyString) by discriminate.
  destruct (go_option_table (newModuleData FORM_UNKNOWN)
              "http://example.org:8080/login" Hv)
    as (H1 & _ & _ & _ & _ & _ & _ & H8).
  split; [exact H1 |].
  apply (H8 "VERBOSE"); [reflexivity |].
  cbn. intros [H | [H | [H | [H | [H | []]]]]]; discriminate H.
Defined.

(** X13: a server that answers every request with a redirect: after five
    turns the loop is on its way to the third connection. *)
Lemma go_turns_per_connection_witness :
  exists (m' : Machine) (h' : Host),
    go example_MSTATE_EXITING example_resolvePath example_user_agent
      FORM_UNKNOWN example_server [] 5
      (example_host [Some response_302_relative; Some response_302_relative])
    = Ok (Continue m', h')
    /\ nState m' = MSTATE_NEW
    /\ connects h' = [5]
    /\ exists used : list Z,
         connects (example_host [Some response_302_relative;
                                 Some response_302_relative])
         = (used ++ connects h')%list
         /\ Forall (fun s => 0 <= s) used
         /\ (5 <= 2 * List.length used + 2)%nat.
Proof.
  assert (H : exists (m' : Machine) (h' : Host),
            go example_MSTATE_EXITING example_resolvePath example_user_agent
              FORM_UNKNOWN example_server [] 5
              (example_host [Some response_302_relative; Some response_302_relative])
            = Ok (Continue m', h')
            /\ nState m' = MSTATE_NEW
            /\ connects h' = [5])
    by (do 2 eexists; split; [lazy; reflexivity | split; reflexivity]).
  destruct H as (m' & h' & Hgo & Hs & Hc). exists m', h'.
  split; [exact Hgo |]. split; [exact Hs |]. split; [exact Hc |].
  destruct (go_turns_per_connection example_MSTATE_EXITING example_resolvePath
              example_user_agent FORM_UNKNOWN example_server [] 5
              (example_host [Some response_302_relative; Some response_302_relative]))
    as (_ & _ & H).
  exact (H m' h' Hgo).
Defined.

(** X14: the same call: one connection is opened, and closed. *)
Lemma initModule_closes_connections_witness :
  exists (m : Machine) (h0 h' : Host),
    initModule_enter (newModuleData FORM_UNKNOWN) (example_host response_200)
    = Ok (m, h0)
    /\ initModule_run example_MSTATE_EXITING example_resolvePath example_user_agent
         example_server 5 m h0
       = Ok (Return SUCCESS, h')
    /\ connects h' = [4; 5]
    /\ disconnected h' = [3]
    /\ exists opened : list Z,
         [3; 4; 5] = (opened ++ connects h')%list
         /\ disconnected h' = (rev (closed_sockets opened) ++ [])%list.
Proof.
  assert (H : exists (m : Machine) (h0 h' : Host),
            initModule_enter (newModuleData FORM_UNKNOWN) (example_host response_200)
            = Ok (m, h0)
            /\ initModule_run example_MSTATE_EXITING example_resolvePath
                 example_user_agent example_server 5 m h0
               = Ok (Return SUCCESS, h')
            /\ connects h' = [4; 5]
            /\ disconnected h' = [3])
    by (do 3 eexists; split; [lazy; reflexivity |];
        split; [lazy; reflexivity | split; reflexivity]).
  destruct H as (m & h0 & h' & He & Hr & Hc & Hd). exists m, h0, h'.
  split; [exact He |]. split; [exact Hr |]. split; [exact Hc |]. split; [exact Hd |].
  destruct (initModule_closes_connections _ _ _ _ _ _ _ _ _ _ _ He Hr)
    as (opened & H1 & H2 & _).
  exists opened. split; [exact H1 | exact H2].
Defined.

(** X15: the state after a 302 with a relative Location on a POST form. *)
Lemma reachable_configured_witness :
  exists (m : Machine) (h : Host),
    reachable example_MSTATE_EXITING example_resolvePath example_user_agent
      example_server m h
    /\ nState m = MSTATE_NEW
    /\ changedRequestType (moduleData m) = true
    /\ configured (moduleData m)
    /\ formType (moduleData m) = FORM_GET
    /\ prepareRequestString (moduleData m) "alice" "secret"
       = prepareRequestString (moduleData m) "bob" "hunter2".
Proof.
  assert (H : exists (m : Machine) (h : Host),
            reachable example_MSTATE_EXITING example_resolvePath example_user_agent
              example_server m h
            /\ nState m = MSTATE_NEW
            /\ changedRequestType (moduleData m) = true).
  { do 2 eexists. split; [| split].
    - eapply reach_step;
        [ eapply reach_step;
          [ eapply reach_step;
            [ eapply reach_enter; apply (example_enter [Some response_302_relative])
            | exact I
            | lazy; reflexivity ]
          | exact I
          | lazy; reflexivity ]
        | exact I
        | lazy; reflexivity ].
    - reflexivity.
    - reflexivity. }
  destruct H as (m & h & Hr & Hs & Hc). exists m, h.
  split; [exact Hr |]. split; [exact Hs |]. split; [exact Hc |].
  destruct (reachable_configured _ _ _ _ _ _ _ Hr (or_introl Hs)) as [H1 H2].
  split; [exact H1 |]. destruct (H2 Hc) as [H3 H4].
  split; [exact H3 | apply H4].
Defined.

(** X16: a send that fails, and a line that comes back. *)
Lemma _request_outcomes_witness :
  (exists h1 : Host,
     _request example_MSTATE_EXITING 3 example_config "alice" "secret"
       (mkHost [] [] [-1] response_200 LOGIN_RESULT_SUCCESS [] [] [])
     = Ok ((example_MSTATE_EXITING, None), h1)
     /\ passResults h1 = [("secret", LOGIN_RESULT_UNKNOWN)]
     /\ lines h1 = response_200)
  /\ exists (h1 : Host) (r : Z) (buf : option string),
       _request example_MSTATE_EXITING 3 example_config "alice" "secret"
         (example_host response_200)
       = Ok ((r, buf), h1)
       /\ r = 1
       /\ exists rq n,
            prepareRequestString example_config "alice" "secret" = Ok (rq, n)
            /\ sent h1 = [(rq, n)].
Proof.
  split.
  - eexists. split; [lazy; reflexivity | split; reflexivity].
  - assert (H : exists (h1 : Host) (r : Z) (buf : option string),
              _request example_MSTATE_EXITING 3 example_config "alice" "secret"
                (example_host response_200)
              = Ok ((r, buf), h1) /\ r = 1)
      by (do 3 eexists; split; [lazy; reflexivity | reflexivity]).
    destruct H as (h1 & r & buf & Hreq & Hr). exists h1, r, buf.
    split; [exact Hreq |]. split; [exact Hr |].
    destruct (_request_outcomes _ _ _ _ _ _ _ _ _ Hreq)
      as [(Hf & _) | (rq & n & Hp & Hs & _)]; [discriminate Hf |].
    exists rq, n. split; [exact Hp | exact Hs].
Defined.

(** X17: a host without credentials. *)
Lemma initModule_without_credentials_witness :
  no_first_user (mkHost [] [3] [1] response_200 LOGIN_RESULT_UNKNOWN [] [] []) = true
  /\ exists m h0,
       initModule_enter (newModuleData FORM_UNKNOWN)
         (mkHost [] [3] [1] response_200 LOGIN_RESULT_UNKNOWN [] [] [])
       = Ok (m, h0)
       /\ initModule_run example_MSTATE_EXITING example_resolvePath example_user_agent
            example_server 1 m h0
          = Ok (Return SUCCESS, h0)
       /\ connects h0 = [3] /\ sent h0 = [].
Proof.
  split; [reflexivity |].
  destruct (initModule_without_credentials example_MSTATE_EXITING example_resolvePath
              example_user_agent example_server (newModuleData FORM_UNKNOWN)
              (mkHost [] [3] [1] response_200 LOGIN_RESULT_UNKNOWN [] [] []) 0 eq_refl)
    as (m & h0 & He & Hr & _ & Hc & _ & _ & Hs & _).
  exists m, h0. split; [exact He |]. split; [exact Hr |]. split; [exact Hc | exact Hs].
Defined.

(** X18: a 404, after which the second credential set is not asked for;
    a 200 OK, after which it is. *)
Lemma initModule_after_verdict_witness :
  (exists (m' : Machine) (h' : Host),
     initModule_step example_MSTATE_EXITING example_resolvePath example_user_agent
       example_server
       (mkMachine MSTATE_RUNNING 3 example_config example_credentials)
       (mkHost [Some (mkCredentialSet (Some "alice") "hunter2" CREDENTIAL_SAME_USER)]
          [4] [1] [Some ("HTTP/1.1 404 Not Found" ++ CRLF)]
          LOGIN_RESULT_FAIL [] [] [])
     = Ok (Continue m', h')
     /\ passResults h' = [("secret", LOGIN_RESULT_UNKNOWN)]
     /\ nState m' = MSTATE_EXITING
     /\ credentials h'
        = [Some (mkCredentialSet (Some "alice") "hunter2" CREDENTIAL_SAME_USER)])
  /\ exists (m' : Machine) (h' : Host),
       initModule_step example_MSTATE_EXITING example_resolvePath example_user_agent
         example_server
         (mkMachine MSTATE_RUNNING 3 example_config example_credentials)
         (mkHost [Some (mkCredentialSet (Some "alice") "hunter2" CREDENTIAL_SAME_USER)]
            [4] [1] response_200 LOGIN_RESULT_UNKNOWN [] [] [])
       = Ok (Continue m', h')
       /\ passResults h' = [("secret", LOGIN_RESULT_SUCCESS)]
       /\ nState m' = MSTATE_NEW
       /\ pPass (psCredSet m') = "hunter2"
       /\ credentials h' = [].
Proof.
  split.
  - assert (H : exists (m' : Machine) (h' : Host),
              initModule_step example_MSTATE_EXITING example_resolvePath
                example_user_agent example_server
                (mkMachine MSTATE_RUNNING 3 example_config example_credentials)
                (mkHost [Some (mkCredentialSet (Some "alice") "hunter2"
                                 CREDENTIAL_SAME_USER)]
                   [4] [1] [Some ("HTTP/1.1 404 Not Found" ++ CRLF)]
                   LOGIN_RESULT_FAIL [] [] [])
              = Ok (Continue m', h')
              /\ passResults h' = [("secret", LOGIN_RESULT_UNKNOWN)])
      by (do 2 eexists; split; [lazy; reflexivity | reflexivity]).
    destruct H as (m' & h' & Hstep & Hp). exists m', h'.
    split; [exact Hstep |]. split; [exact Hp |].
    destruct ((fun Hs => initModule_after_verdict _ _ _ _ _ _ _ _ _ _ Hs Hstep Hp)
                eq_refl) as (_ & _ & Hu & _).
    destruct (Hu eq_refl) as (H1 & _ & _ & H4). split; [exact H1 | exact H4].
  - assert (H : exists (m' : Machine) (h' : Host),
              initModule_step example_MSTATE_EXITING example_resolvePath
                example_user_agent example_server
                (mkMachine MSTATE_RUNNING 3 example_config example_credentials)
                (mkHost [Some (mkCredentialSet (Some "alice") "hunter2"
                                 CREDENTIAL_SAME_USER)]
                   [4] [1] response_200 LOGIN_RESULT_UNKNOWN [] [] [])
              = Ok (Continue m', h')
              /\ passResults h' = [("secret", LOGIN_RESULT_SUCCESS)]
              /\ nState m' = MSTATE_NEW
              /\ pPass (psCredSet m') = "hunter2")
      by (do 2 eexists; split; [lazy; reflexivity | repeat split]).
    destruct H as (m' & h' & Hstep & Hp & Hs & Hpw). exists m', h'.
    split; [exact Hstep |]. split; [exact Hp |]. split; [exact Hs |].
    split; [exact Hpw |].
    destruct ((fun Hs => initModule_after_verdict _ _ _ _ _ _ _ _ _ _ Hs Hstep Hp)
                eq_refl) as (_ & _ & _ & Hv).
    assert (Hne : LOGIN_RESULT_SUCCESS <> LOGIN_RESULT_UNKNOWN) by discriminate.
    exact (proj1 (Hv Hne)).
Defined.
